(** * Positional-astronomy routines of the tracking library

    A shallow embedding of the SLALIB routines that the tracking
    controllers carry ([slaCs2c], [slaAv2m], [slaS2tp], [slaDtf2d],
    [slaNutc], [slaPlanet]) together with the properties their
    specification states about them.

    Conventions of the embedding

    - C [float] and [double] values are idealised as real numbers [R]:
      every arithmetic operation is exact and the casts [(float)] and
      [(double)] between the two are the identity.  Not-a-number and the
      infinities are outside this model; the modules [Xfloat], [S2tpX] and
      [PlanetX] add them for the two properties that depend on them.
    - C [int] values are integers [Z]; the cast [(double) i] is [IZR i].
    - The mathematical routines of the platform header ([sin_], [cos_],
      [sqrt_], [fabs_], [fmod_]) are the corresponding real functions.
    - Output parameters ([double *days], [int *j], [double pv[6]], ...)
      become components of the returned tuple; an array that the caller
      passes in and the routine only partly overwrites is threaded through
      explicitly.
    - Sequences of assignments to one C variable become nested [let]s that
      shadow the earlier binding, in the order of the source. *)

From Stdlib Require Import Reals Lra ZArith List Lia Bool RNsatz.
Import ListNotations.

Open Scope R_scope.

(** ** Comparisons and platform mathematics *)

Module Cmath.

(** The C relational operators on [double], as booleans. *)
Definition Rltb (x y : R) : bool := if Rlt_dec x y then true else false.
Definition Rleb (x y : R) : bool := if Rle_dec x y then true else false.
Definition Rgtb (x y : R) : bool := Rltb y x.
Definition Rgeb (x y : R) : bool := Rleb y x.
Definition Rneqb (x y : R) : bool := if Req_dec_T x y then false else true.

Definition sin_ : R -> R := sin.
Definition cos_ : R -> R := cos.
Definition sqrt_ : R -> R := sqrt.
Definition fabs_ : R -> R := Rabs.

(** Rounding towards zero, and the C remainder [fmod] built on it: the
    result has the sign of the dividend. *)
Definition Rtrunc (x : R) : Z :=
  if Rle_dec 0 x then Int_part x else (- Int_part (- x))%Z.

Definition fmod_ (x y : R) : R := x - y * IZR (Rtrunc (x / y)).

End Cmath.

Import Cmath.

(** ** Vectors and matrices *)

Definition vec3 : Type := R * R * R.
Definition mat3 : Type := vec3 * vec3 * vec3.

Definition vec3_zero : vec3 := (0, 0, 0).

Definition mat3_id : mat3 := ((1, 0, 0), (0, 1, 0), (0, 0, 1)).

Definition dot3 (u v : vec3) : R :=
  let '(u0, u1, u2) := u in
  let '(v0, v1, v2) := v in
  u0 * v0 + u1 * v1 + u2 * v2.

Definition norm3 (v : vec3) : R := sqrt (dot3 v v).

Definition mat3_transpose (m : mat3) : mat3 :=
  let '((m00, m01, m02), (m10, m11, m12), (m20, m21, m22)) := m in
  ((m00, m10, m20), (m01, m11, m21), (m02, m12, m22)).

(** Row-by-column product, written as rows of [a] against rows of [b]ᵗ. *)
Definition mat3_mul (a b : mat3) : mat3 :=
  let '(a0, a1, a2) := a in
  let '(c0, c1, c2) := mat3_transpose b in
  ((dot3 a0 c0, dot3 a0 c1, dot3 a0 c2),
   (dot3 a1 c0, dot3 a1 c1, dot3 a1 c2),
   (dot3 a2 c0, dot3 a2 c1, dot3 a2 c2)).

(** ** cs2c.c : spherical coordinates to direction cosines *)

Module Cs2c.

Definition slaCs2c (a b : R) : vec3 :=
  let cosb := cos_ b in
  let v0 := cos_ a * cosb in
  let v1 := sin_ a * cosb in
  let v2 := sin_ b in
  (v0, v1, v2).

End Cs2c.

(** ** av2m.cpp : rotation matrix from an axial vector *)

Module Av2m.

Definition slaAv2m (axvec : vec3) : mat3 :=
  let '(x, y, z) := axvec in
  (* Rotation angle - magnitude of axial vector - and functions *)
  let phi := sqrt_ (x * x + y * y + z * z) in
  let s := sin_ phi in
  let c := cos_ phi in
  let w := 1.0 - c in
  (* Euler axis - direction of axial vector (perhaps null) *)
  let '(x, y, z) :=
    if Rneqb phi 0.0 then (x / phi, y / phi, z / phi) else (x, y, z) in
  (* Compute the rotation matrix *)
  ((x * x * w + c, x * y * w + z * s, x * z * w - y * s),
   (x * y * w - z * s, y * y * w + c, y * z * w + x * s),
   (x * z * w + y * s, y * z * w - x * s, z * z * w + c)).

End Av2m.

(** ** s2tp.cpp : gnomonic projection onto the tangent plane *)

Module S2tp.

Definition TINY : R := 1e-6.

(** The value of [denom] after line 48, before the [if] chain. *)
Definition s2tp_denom (ra dec raz decz : R) : R :=
  let sdecz := sin_ decz in
  let sdec := sin_ dec in
  let cdecz := cos_ decz in
  let cdec := cos_ dec in
  let radif := ra - raz in
  let cradif := cos_ radif in
  sdec * sdecz + cdec * cdecz * cradif.

(** The [if] chain of lines 51-61: the status and the denominator that
    the divisions of lines 64-65 go on to use. *)
Definition s2tp_classify (denom : R) : Z * R :=
  if Rgtb denom TINY then (0%Z, denom)
  else if Rgeb denom 0.0 then (1%Z, TINY)
  else if Rgtb denom (- TINY) then (2%Z, - TINY)
  else (3%Z, denom).

(** Returns [(xi, eta, j)]. *)
Definition slaS2tp (ra dec raz decz : R) : R * R * Z :=
  (* Trig functions *)
  let sdecz := sin_ decz in
  let sdec := sin_ dec in
  let cdecz := cos_ decz in
  let cdec := cos_ dec in
  let radif := ra - raz in
  let sradif := sin_ radif in
  let cradif := cos_ radif in
  (* Reciprocal of star vector length to tangent plane *)
  let denom := sdec * sdecz + cdec * cdecz * cradif in
  (* Handle vectors too far from axis *)
  let '(j, denom) := s2tp_classify denom in
  (* Compute tangent plane coordinates (even in dubious cases) *)
  let xi := cdec * sradif / denom in
  let eta := (sdec * cdecz - cdec * sdecz * cradif) / denom in
  (xi, eta, j).

Definition s2tp_status (r : R * R * Z) : Z := snd r.
Definition s2tp_xi (r : R * R * Z) : R := fst (fst r).
Definition s2tp_eta (r : R * R * Z) : R := snd (fst r).

(** The denominator in force when lines 64-65 divide. *)
Definition s2tp_divisor (ra dec raz decz : R) : R :=
  snd (s2tp_classify (s2tp_denom ra dec raz decz)).

End S2tp.

(** ** dtf2d.c : hours, minutes, seconds to days *)

Module Dtf2d.

(** Seconds per day *)
Definition D2S : R := 86400.0.

(** Returns [(days, j)]. *)
Definition slaDtf2d (ihour imin : Z) (sec : R) : R * Z :=
  (* Preset status. *)
  let jstat := 0%Z in
  (* Validate sec, min, hour. *)
  let jstat := if Rltb sec 0.0 || Rgeb sec 60.0 then 3%Z else jstat in
  let jstat := if ((imin <? 0) || (imin >? 59))%Z then 2%Z else jstat in
  let jstat := if ((ihour <? 0) || (ihour >? 23))%Z then 1%Z else jstat in
  (* Compute interval (irrespective of validation) and return status. *)
  let days := (60.0 * (60.0 * IZR ihour + IZR imin) + sec) / D2S in
  (days, jstat).

(** The status the specification words describe, as a priority order:
    an invalid hour wins over an invalid minute, which wins over an
    invalid second. *)
Definition dtf2d_status_by_priority (ihour imin : Z) (sec : R) : Z :=
  if ((ihour <? 0) || (ihour >? 23))%Z then 1%Z
  else if ((imin <? 0) || (imin >? 59))%Z then 2%Z
  else if Rltb sec 0.0 || Rgeb sec 60.0 then 3%Z
  else 0%Z.

End Dtf2d.

(** ** Loops *)

(** [for ( j = n - 1; j >= 0; j-- ) body], on the state [s]. *)
Fixpoint for_down {A : Type} (n : nat) (body : nat -> A -> A) (s : A) : A :=
  match n with
  | O => s
  | S j => for_down j body (body j s)
  end.

(** [for ( j = lo; j < lo + len; j++ ) body], on the state [s]. *)
Definition for_up {A : Type} (lo len : nat) (body : nat -> A -> A) (s : A) : A :=
  fold_left (fun st j => body j st) (seq lo len) s.

(** Array reads [row[j]] and [tbl[i][j]]. *)
Definition at1 {A : Type} (d : A) (row : list A) (j : nat) : A := nth j row d.
Definition at2 {A : Type} (d : A) (tbl : list (list A)) (i j : nat) : A :=
  nth j (nth i tbl []) d.

(** Array write [arr[i] = v]; the routines only write inside the array. *)
Fixpoint upd {A : Type} (i : nat) (v : A) (arr : list A) : list A :=
  match arr, i with
  | [], _ => []
  | _ :: tl, O => v :: tl
  | hd :: tl, S i' => hd :: upd i' v tl
  end.

(** ** nutc.cpp : nutation, Shirai & Fukushima (2001) *)

Module Nutc.

Definition TURNAS : R := 1296000.0.   (* arc seconds in a full circle *)
Definition DJM0 : R := 51544.5.       (* reference epoch (J2000), MJD *)
Definition DJC : R := 36525.0.        (* days per Julian century *)

(** Coefficients of fundamental angles *)
Definition na : list (list Z) :=
  ([
    [0; 0; 0; 0; (-1); 0; 0; 0; 0];
    [0; 0; 2; (-2); 2; 0; 0; 0; 0];
    [0; 0; 2; 0; 2; 0; 0; 0; 0];
    [0; 0; 0; 0; (-2); 0; 0; 0; 0];
    [0; 1; 0; 0; 0; 0; 0; 0; 0];
    [0; 1; 2; (-2); 2; 0; 0; 0; 0];
    [1; 0; 0; 0; 0; 0; 0; 0; 0];
    [0; 0; 2; 0; 1; 0; 0; 0; 0];
    [1; 0; 2; 0; 2; 0; 0; 0; 0];
    [0; (-1); 2; (-2); 2; 0; 0; 0; 0];
    [0; 0; 2; (-2); 1; 0; 0; 0; 0];
    [(-1); 0; 2; 0; 2; 0; 0; 0; 0];
    [(-1); 0; 0; 2; 0; 0; 0; 0; 0];
    [1; 0; 0; 0; 1; 0; 0; 0; 0];
    [1; 0; 0; 0; (-1); 0; 0; 0; 0];
    [(-1); 0; 2; 2; 2; 0; 0; 0; 0];
    [1; 0; 2; 0; 1; 0; 0; 0; 0];
    [(-2); 0; 2; 0; 1; 0; 0; 0; 0];
    [0; 0; 0; 2; 0; 0; 0; 0; 0];
    [0; 0; 2; 2; 2; 0; 0; 0; 0];
    [2; 0; 0; (-2); 0; 0; 0; 0; 0];
    [2; 0; 2; 0; 2; 0; 0; 0; 0];
    [1; 0; 2; (-2); 2; 0; 0; 0; 0];
    [(-1); 0; 2; 0; 1; 0; 0; 0; 0];
    [2; 0; 0; 0; 0; 0; 0; 0; 0];
    [0; 0; 2; 0; 0; 0; 0; 0; 0];
    [0; 1; 0; 0; 1; 0; 0; 0; 0];
    [(-1); 0; 0; 2; 1; 0; 0; 0; 0];
    [0; 2; 2; (-2); 2; 0; 0; 0; 0];
    [0; 0; 2; (-2); 0; 0; 0; 0; 0];
    [(-1); 0; 0; 2; (-1); 0; 0; 0; 0];
    [0; 1; 0; 0; (-1); 0; 0; 0; 0];
    [0; 2; 0; 0; 0; 0; 0; 0; 0];
    [(-1); 0; 2; 2; 1; 0; 0; 0; 0];
    [1; 0; 2; 2; 2; 0; 0; 0; 0];
    [0; 1; 2; 0; 2; 0; 0; 0; 0];
    [(-2); 0; 2; 0; 0; 0; 0; 0; 0];
    [0; 0; 2; 2; 1; 0; 0; 0; 0];
    [0; (-1); 2; 0; 2; 0; 0; 0; 0];
    [0; 0; 0; 2; 1; 0; 0; 0; 0];
    [1; 0; 2; (-2); 1; 0; 0; 0; 0];
    [2; 0; 0; (-2); (-1); 0; 0; 0; 0];
    [2; 0; 2; (-2); 2; 0; 0; 0; 0];
    [2; 0; 2; 0; 1; 0; 0; 0; 0];
    [0; 0; 0; 2; (-1); 0; 0; 0; 0];
    [0; (-1); 2; (-2); 1; 0; 0; 0; 0];
    [(-1); (-1); 0; 2; 0; 0; 0; 0; 0];
    [2; 0; 0; (-2); 1; 0; 0; 0; 0];
    [1; 0; 0; 2; 0; 0; 0; 0; 0];
    [0; 1; 2; (-2); 1; 0; 0; 0; 0];
    [1; (-1); 0; 0; 0; 0; 0; 0; 0];
    [(-2); 0; 2; 0; 2; 0; 0; 0; 0];
    [0; (-1); 0; 2; 0; 0; 0; 0; 0];
    [3; 0; 2; 0; 2; 0; 0; 0; 0];
    [0; 0; 0; 1; 0; 0; 0; 0; 0];
    [1; (-1); 2; 0; 2; 0; 0; 0; 0];
    [1; 0; 0; (-1); 0; 0; 0; 0; 0];
    [(-1); (-1); 2; 2; 2; 0; 0; 0; 0];
    [(-1); 0; 2; 0; 0; 0; 0; 0; 0];
    [2; 0; 0; 0; (-1); 0; 0; 0; 0];
    [0; (-1); 2; 2; 2; 0; 0; 0; 0];
    [1; 1; 2; 0; 2; 0; 0; 0; 0];
    [2; 0; 0; 0; 1; 0; 0; 0; 0];
    [1; 1; 0; 0; 0; 0; 0; 0; 0];
    [1; 0; (-2); 2; (-1); 0; 0; 0; 0];
    [1; 0; 2; 0; 0; 0; 0; 0; 0];
    [(-1); 1; 0; 1; 0; 0; 0; 0; 0];
    [1; 0; 0; 0; 2; 0; 0; 0; 0];
    [(-1); 0; 1; 0; 1; 0; 0; 0; 0];
    [0; 0; 2; 1; 2; 0; 0; 0; 0];
    [(-1); 1; 0; 1; 1; 0; 0; 0; 0];
    [(-1); 0; 2; 4; 2; 0; 0; 0; 0];
    [0; (-2); 2; (-2); 1; 0; 0; 0; 0];
    [1; 0; 2; 2; 1; 0; 0; 0; 0];
    [1; 0; 0; 0; (-2); 0; 0; 0; 0];
    [(-2); 0; 2; 2; 2; 0; 0; 0; 0];
    [1; 1; 2; (-2); 2; 0; 0; 0; 0];
    [(-2); 0; 2; 4; 2; 0; 0; 0; 0];
    [(-1); 0; 4; 0; 2; 0; 0; 0; 0];
    [2; 0; 2; (-2); 1; 0; 0; 0; 0];
    [1; 0; 0; (-1); (-1); 0; 0; 0; 0];
    [2; 0; 2; 2; 2; 0; 0; 0; 0];
    [1; 0; 0; 2; 1; 0; 0; 0; 0];
    [3; 0; 0; 0; 0; 0; 0; 0; 0];
    [0; 0; 2; (-2); (-1); 0; 0; 0; 0];
    [3; 0; 2; (-2); 2; 0; 0; 0; 0];
    [0; 0; 4; (-2); 2; 0; 0; 0; 0];
    [(-1); 0; 0; 4; 0; 0; 0; 0; 0];
    [0; 1; 2; 0; 1; 0; 0; 0; 0];
    [0; 0; 2; (-2); 3; 0; 0; 0; 0];
    [(-2); 0; 0; 4; 0; 0; 0; 0; 0];
    [(-1); (-1); 0; 2; 1; 0; 0; 0; 0];
    [(-2); 0; 2; 0; (-1); 0; 0; 0; 0];
    [0; 0; 2; 0; (-1); 0; 0; 0; 0];
    [0; (-1); 2; 0; 1; 0; 0; 0; 0];
    [0; 1; 0; 0; 2; 0; 0; 0; 0];
    [0; 0; 2; (-1); 2; 0; 0; 0; 0];
    [2; 1; 0; (-2); 0; 0; 0; 0; 0];
    [0; 0; 2; 4; 2; 0; 0; 0; 0];
    [(-1); (-1); 0; 2; (-1); 0; 0; 0; 0];
    [(-1); 1; 0; 2; 0; 0; 0; 0; 0];
    [1; (-1); 0; 0; 1; 0; 0; 0; 0];
    [0; (-1); 2; (-2); 0; 0; 0; 0; 0];
    [0; 1; 0; 0; (-2); 0; 0; 0; 0];
    [1; (-1); 2; 2; 2; 0; 0; 0; 0];
    [1; 0; 0; 2; (-1); 0; 0; 0; 0];
    [(-1); 1; 2; 2; 2; 0; 0; 0; 0];
    [3; 0; 2; 0; 1; 0; 0; 0; 0];
    [0; 1; 2; 2; 2; 0; 0; 0; 0];
    [1; 0; 2; (-2); 0; 0; 0; 0; 0];
    [(-1); 0; (-2); 4; (-1); 0; 0; 0; 0];
    [(-1); (-1); 2; 2; 1; 0; 0; 0; 0];
    [0; (-1); 2; 2; 1; 0; 0; 0; 0];
    [2; (-1); 2; 0; 2; 0; 0; 0; 0];
    [0; 0; 0; 2; 2; 0; 0; 0; 0];
    [1; (-1); 2; 0; 1; 0; 0; 0; 0];
    [(-1); 1; 2; 0; 2; 0; 0; 0; 0];
    [0; 1; 0; 2; 0; 0; 0; 0; 0];
    [0; 1; 2; (-2); 0; 0; 0; 0; 0];
    [0; 3; 2; (-2); 2; 0; 0; 0; 0];
    [0; 0; 0; 1; 1; 0; 0; 0; 0];
    [(-1); 0; 2; 2; 0; 0; 0; 0; 0];
    [2; 1; 2; 0; 2; 0; 0; 0; 0];
    [1; 1; 0; 0; 1; 0; 0; 0; 0];
    [2; 0; 0; 2; 0; 0; 0; 0; 0];
    [1; 1; 2; 0; 1; 0; 0; 0; 0];
    [(-1); 0; 0; 2; 2; 0; 0; 0; 0];
    [1; 0; (-2); 2; 0; 0; 0; 0; 0];
    [0; (-1); 0; 2; (-1); 0; 0; 0; 0];
    [(-1); 0; 1; 0; 2; 0; 0; 0; 0];
    [0; 1; 0; 1; 0; 0; 0; 0; 0];
    [1; 0; (-2); 2; (-2); 0; 0; 0; 0];
    [0; 0; 0; 1; (-1); 0; 0; 0; 0];
    [1; (-1); 0; 0; (-1); 0; 0; 0; 0];
    [0; 0; 0; 4; 0; 0; 0; 0; 0];
    [1; (-1); 0; 2; 0; 0; 0; 0; 0];
    [1; 0; 2; 1; 2; 0; 0; 0; 0];
    [1; 0; 2; (-1); 2; 0; 0; 0; 0];
    [(-1); 0; 0; 2; (-2); 0; 0; 0; 0];
    [0; 0; 2; 1; 1; 0; 0; 0; 0];
    [(-1); 0; 2; 0; (-1); 0; 0; 0; 0];
    [(-1); 0; 2; 4; 1; 0; 0; 0; 0];
    [0; 0; 2; 2; 0; 0; 0; 0; 0];
    [1; 1; 2; (-2); 1; 0; 0; 0; 0];
    [0; 0; 1; 0; 1; 0; 0; 0; 0];
    [(-1); 0; 2; (-1); 1; 0; 0; 0; 0];
    [(-2); 0; 2; 2; 1; 0; 0; 0; 0];
    [2; (-1); 0; 0; 0; 0; 0; 0; 0];
    [4; 0; 2; 0; 2; 0; 0; 0; 0];
    [2; 1; 2; (-2); 2; 0; 0; 0; 0];
    [0; 1; 2; 1; 2; 0; 0; 0; 0];
    [1; 0; 4; (-2); 2; 0; 0; 0; 0];
    [1; 1; 0; 0; (-1); 0; 0; 0; 0];
    [(-2); 0; 2; 4; 1; 0; 0; 0; 0];
    [2; 0; 2; 0; 0; 0; 0; 0; 0];
    [(-1); 0; 1; 0; 0; 0; 0; 0; 0];
    [1; 0; 0; 1; 0; 0; 0; 0; 0];
    [0; 1; 0; 2; 1; 0; 0; 0; 0];
    [(-1); 0; 4; 0; 1; 0; 0; 0; 0];
    [(-1); 0; 0; 4; 1; 0; 0; 0; 0];
    [2; 0; 2; 2; 1; 0; 0; 0; 0];
    [2; 1; 0; 0; 0; 0; 0; 0; 0];
    [0; 0; 5; (-5); 5; (-3); 0; 0; 0];
    [0; 0; 0; 0; 0; 0; 0; 2; 0];
    [0; 0; 1; (-1); 1; 0; 0; (-1); 0];
    [0; 0; (-1); 1; (-1); 1; 0; 0; 0];
    [0; 0; (-1); 1; 0; 0; 2; 0; 0];
    [0; 0; 3; (-3); 3; 0; 0; (-1); 0];
    [0; 0; (-8); 8; (-7); 5; 0; 0; 0];
    [0; 0; (-1); 1; (-1); 0; 2; 0; 0];
    [0; 0; (-2); 2; (-2); 2; 0; 0; 0];
    [0; 0; (-6); 6; (-6); 4; 0; 0; 0];
    [0; 0; (-2); 2; (-2); 0; 8; (-3); 0];
    [0; 0; 6; (-6); 6; 0; (-8); 3; 0];
    [0; 0; 4; (-4); 4; (-2); 0; 0; 0];
    [0; 0; (-3); 3; (-3); 2; 0; 0; 0];
    [0; 0; 4; (-4); 3; 0; (-8); 3; 0];
    [0; 0; (-4); 4; (-5); 0; 8; (-3); 0];
    [0; 0; 0; 0; 0; 2; 0; 0; 0];
    [0; 0; (-4); 4; (-4); 3; 0; 0; 0];
    [0; 1; (-1); 1; (-1); 0; 0; 1; 0];
    [0; 0; 0; 0; 0; 0; 0; 1; 0];
    [0; 0; 1; (-1); 1; 1; 0; 0; 0];
    [0; 0; 2; (-2); 2; 0; (-2); 0; 0];
    [0; (-1); (-7); 7; (-7); 5; 0; 0; 0];
    [(-2); 0; 2; 0; 2; 0; 0; (-2); 0];
    [(-2); 0; 2; 0; 1; 0; 0; (-3); 0];
    [0; 0; 2; (-2); 2; 0; 0; (-2); 0];
    [0; 0; 1; (-1); 1; 0; 0; 1; 0];
    [0; 0; 0; 0; 0; 0; 0; 0; 2];
    [0; 0; 0; 0; 0; 0; 0; 0; 1];
    [2; 0; (-2); 0; (-2); 0; 0; 3; 0];
    [0; 0; 1; (-1); 1; 0; 0; (-2); 0];
    [0; 0; (-7); 7; (-7); 5; 0; 0; 0]
  ])%Z.

(** Nutation series:  longitude. *)
Definition psi : list (list R) :=
  ([
    [3341.5; 17206241.8; 3.1; 17409.5];
    [(-1716.8); (-1317185.3); 1.4; (-156.8)];
    [285.7; (-227667.0); 0.3; (-23.5)];
    [(-68.6); (-207448.0); 0.0; (-21.4)];
    [950.3; 147607.9; (-2.3); (-355.0)];
    [(-66.7); (-51689.1); 0.2; 122.6];
    [(-108.6); 71117.6; 0.0; 7.0];
    [35.6; (-38740.2); 0.1; (-36.2)];
    [85.4; (-30127.6); 0.0; (-3.1)];
    [9.0; 21583.0; 0.1; (-50.3)];
    [22.1; 12822.8; 0.0; 13.3];
    [3.4; 12350.8; 0.0; 1.3];
    [(-21.1); 15699.4; 0.0; 1.6];
    [4.2; 6313.8; 0.0; 6.2];
    [(-22.8); 5796.9; 0.0; 6.1];
    [15.7; (-5961.1); 0.0; (-0.6)];
    [13.1; (-5159.1); 0.0; (-4.6)];
    [1.8; 4592.7; 0.0; 4.5];
    [(-17.5); 6336.0; 0.0; 0.7];
    [16.3; (-3851.1); 0.0; (-0.4)];
    [(-2.8); 4771.7; 0.0; 0.5];
    [13.8; (-3099.3); 0.0; (-0.3)];
    [0.2; 2860.3; 0.0; 0.3];
    [1.4; 2045.3; 0.0; 2.0];
    [(-8.6); 2922.6; 0.0; 0.3];
    [(-7.7); 2587.9; 0.0; 0.2];
    [8.8; (-1408.1); 0.0; 3.7];
    [1.4; 1517.5; 0.0; 1.5];
    [(-1.9); (-1579.7); 0.0; 7.7];
    [1.3; (-2178.6); 0.0; (-0.2)];
    [(-4.8); 1286.8; 0.0; 1.3];
    [6.3; 1267.2; 0.0; (-4.0)];
    [(-1.0); 1669.3; 0.0; (-8.3)];
    [2.4; (-1020.0); 0.0; (-0.9)];
    [4.5; (-766.9); 0.0; 0.0];
    [(-1.1); 756.5; 0.0; (-1.7)];
    [(-1.4); (-1097.3); 0.0; (-0.5)];
    [2.6; (-663.0); 0.0; (-0.6)];
    [0.8; (-714.1); 0.0; 1.6];
    [0.4; (-629.9); 0.0; (-0.6)];
    [0.3; 580.4; 0.0; 0.6];
    [(-1.6); 577.3; 0.0; 0.5];
    [(-0.9); 644.4; 0.0; 0.0];
    [2.2; (-534.0); 0.0; (-0.5)];
    [(-2.5); 493.3; 0.0; 0.5];
    [(-0.1); (-477.3); 0.0; (-2.4)];
    [(-0.9); 735.0; 0.0; (-1.7)];
    [0.7; 406.2; 0.0; 0.4];
    [(-2.8); 656.9; 0.0; 0.0];
    [0.6; 358.0; 0.0; 2.0];
    [(-0.7); 472.5; 0.0; (-1.1)];
    [(-0.1); (-300.5); 0.0; 0.0];
    [(-1.2); 435.1; 0.0; (-1.0)];
    [1.8; (-289.4); 0.0; 0.0];
    [0.6; (-422.6); 0.0; 0.0];
    [0.8; (-287.6); 0.0; 0.6];
    [(-38.6); (-392.3); 0.0; 0.0];
    [0.7; (-281.8); 0.0; 0.6];
    [0.6; (-405.7); 0.0; 0.0];
    [(-1.2); 229.0; 0.0; 0.2];
    [1.1; (-264.3); 0.0; 0.5];
    [(-0.7); 247.9; 0.0; (-0.5)];
    [(-0.2); 218.0; 0.0; 0.2];
    [0.6; (-339.0); 0.0; 0.8];
    [(-0.7); 198.7; 0.0; 0.2];
    [(-1.5); 334.0; 0.0; 0.0];
    [0.1; 334.0; 0.0; 0.0];
    [(-0.1); (-198.1); 0.0; 0.0];
    [(-106.6); 0.0; 0.0; 0.0];
    [(-0.5); 165.8; 0.0; 0.0];
    [0.0; 134.8; 0.0; 0.0];
    [0.9; (-151.6); 0.0; 0.0];
    [0.0; (-129.7); 0.0; 0.0];
    [0.8; (-132.8); 0.0; (-0.1)];
    [0.5; (-140.7); 0.0; 0.0];
    [(-0.1); 138.4; 0.0; 0.0];
    [0.0; 129.0; 0.0; (-0.3)];
    [0.5; (-121.2); 0.0; 0.0];
    [(-0.3); 114.5; 0.0; 0.0];
    [(-0.1); 101.8; 0.0; 0.0];
    [(-3.6); (-101.9); 0.0; 0.0];
    [0.8; (-109.4); 0.0; 0.0];
    [0.2; (-97.0); 0.0; 0.0];
    [(-0.7); 157.3; 0.0; 0.0];
    [0.2; (-83.3); 0.0; 0.0];
    [(-0.3); 93.3; 0.0; 0.0];
    [(-0.1); 92.1; 0.0; 0.0];
    [(-0.5); 133.6; 0.0; 0.0];
    [(-0.1); 81.5; 0.0; 0.0];
    [0.0; 123.9; 0.0; 0.0];
    [(-0.3); 128.1; 0.0; 0.0];
    [0.1; 74.1; 0.0; (-0.3)];
    [(-0.2); (-70.3); 0.0; 0.0];
    [(-0.4); 66.6; 0.0; 0.0];
    [0.1; (-66.7); 0.0; 0.0];
    [(-0.7); 69.3; 0.0; (-0.3)];
    [0.0; (-70.4); 0.0; 0.0];
    [(-0.1); 101.5; 0.0; 0.0];
    [0.5; (-69.1); 0.0; 0.0];
    [(-0.2); 58.5; 0.0; 0.2];
    [0.1; (-94.9); 0.0; 0.2];
    [0.0; 52.9; 0.0; (-0.2)];
    [0.1; 86.7; 0.0; (-0.2)];
    [(-0.1); (-59.2); 0.0; 0.2];
    [0.3; (-58.8); 0.0; 0.1];
    [(-0.3); 49.0; 0.0; 0.0];
    [(-0.2); 56.9; 0.0; (-0.1)];
    [0.3; (-50.2); 0.0; 0.0];
    [(-0.2); 53.4; 0.0; (-0.1)];
    [0.1; (-76.5); 0.0; 0.0];
    [(-0.2); 45.3; 0.0; 0.0];
    [0.1; (-46.8); 0.0; 0.0];
    [0.2; (-44.6); 0.0; 0.0];
    [0.2; (-48.7); 0.0; 0.0];
    [0.1; (-46.8); 0.0; 0.0];
    [0.1; (-42.0); 0.0; 0.0];
    [0.0; 46.4; 0.0; (-0.1)];
    [0.2; (-67.3); 0.0; 0.1];
    [0.0; (-65.8); 0.0; 0.2];
    [(-0.1); (-43.9); 0.0; 0.3];
    [0.0; (-38.9); 0.0; 0.0];
    [(-0.3); 63.9; 0.0; 0.0];
    [(-0.2); 41.2; 0.0; 0.0];
    [0.0; (-36.1); 0.0; 0.2];
    [(-0.3); 58.5; 0.0; 0.0];
    [(-0.1); 36.1; 0.0; 0.0];
    [0.0; (-39.7); 0.0; 0.0];
    [0.1; (-57.7); 0.0; 0.0];
    [(-0.2); 33.4; 0.0; 0.0];
    [36.4; 0.0; 0.0; 0.0];
    [(-0.1); 55.7; 0.0; (-0.1)];
    [0.1; (-35.4); 0.0; 0.0];
    [0.1; (-31.0); 0.0; 0.0];
    [(-0.1); 30.1; 0.0; 0.0];
    [(-0.3); 49.2; 0.0; 0.0];
    [(-0.2); 49.1; 0.0; 0.0];
    [(-0.1); 33.6; 0.0; 0.0];
    [0.1; (-33.5); 0.0; 0.0];
    [0.1; (-31.0); 0.0; 0.0];
    [(-0.1); 28.0; 0.0; 0.0];
    [0.1; (-25.2); 0.0; 0.0];
    [0.1; (-26.2); 0.0; 0.0];
    [(-0.2); 41.5; 0.0; 0.0];
    [0.0; 24.5; 0.0; 0.1];
    [(-16.2); 0.0; 0.0; 0.0];
    [0.0; (-22.3); 0.0; 0.0];
    [0.0; 23.1; 0.0; 0.0];
    [(-0.1); 37.5; 0.0; 0.0];
    [0.2; (-25.7); 0.0; 0.0];
    [0.0; 25.2; 0.0; 0.0];
    [0.1; (-24.5); 0.0; 0.0];
    [(-0.1); 24.3; 0.0; 0.0];
    [0.1; (-20.7); 0.0; 0.0];
    [0.1; (-20.8); 0.0; 0.0];
    [(-0.2); 33.4; 0.0; 0.0];
    [32.9; 0.0; 0.0; 0.0];
    [0.1; (-32.6); 0.0; 0.0];
    [0.0; 19.9; 0.0; 0.0];
    [(-0.1); 19.6; 0.0; 0.0];
    [0.0; (-18.7); 0.0; 0.0];
    [0.1; (-19.0); 0.0; 0.0];
    [0.1; (-28.6); 0.0; 0.0];
    [4.0; 178.8; (-11.8); 0.3];
    [39.8; (-107.3); (-5.6); (-1.0)];
    [9.9; 164.0; (-4.1); 0.1];
    [(-4.8); (-135.3); (-3.4); (-0.1)];
    [50.5; 75.0; 1.4; (-1.2)];
    [(-1.1); (-53.5); 1.3; 0.0];
    [(-45.0); (-2.4); (-0.4); 6.6];
    [(-11.5); (-61.0); (-0.9); 0.4];
    [4.4; (-68.4); (-3.4); 0.0];
    [7.7; (-47.1); (-4.7); (-1.0)];
    [(-42.9); (-12.6); (-1.2); 4.2];
    [(-42.8); 12.7; (-1.2); (-4.2)];
    [(-7.6); (-44.1); 2.1; (-0.5)];
    [(-64.1); 1.7; 0.2; 4.5];
    [36.4; (-10.4); 1.0; 3.5];
    [35.6; 10.2; 1.0; (-3.5)];
    [(-1.7); 39.5; 2.0; 0.0];
    [50.9; (-8.2); (-0.8); (-5.0)];
    [0.0; 52.3; 1.2; 0.0];
    [(-42.9); (-17.8); 0.4; 0.0];
    [2.6; 34.3; 0.8; 0.0];
    [(-0.8); (-48.6); 2.4; (-0.1)];
    [(-4.9); 30.5; 3.7; 0.7];
    [0.0; (-43.6); 2.1; 0.0];
    [0.0; (-25.4); 1.2; 0.0];
    [2.0; 40.9; (-2.0); 0.0];
    [(-2.1); 26.1; 0.6; 0.0];
    [22.6; (-3.2); (-0.5); (-0.5)];
    [(-7.6); 24.9; (-0.4); (-0.2)];
    [(-6.2); 34.9; 1.7; 0.3];
    [2.0; 17.4; (-0.4); 0.1];
    [(-3.9); 20.5; 2.4; 0.6]
  ])%R.

(** Nutation series:  obliquity. *)
Definition eps : list (list R) :=
  ([
    [9205365.8; (-1506.2); 885.7; (-0.2)];
    [573095.9; (-570.2); (-305.0); (-0.3)];
    [97845.5; 147.8; (-48.8); (-0.2)];
    [(-89753.6); 28.0; 46.9; 0.0];
    [7406.7; (-327.1); (-18.2); 0.8];
    [22442.3; (-22.3); (-67.6); 0.0];
    [(-683.6); 46.8; 0.0; 0.0];
    [20070.7; 36.0; 1.6; 0.0];
    [12893.8; 39.5; (-6.2); 0.0];
    [(-9593.2); 14.4; 30.2; (-0.1)];
    [(-6899.5); 4.8; (-0.6); 0.0];
    [(-5332.5); (-0.1); 2.7; 0.0];
    [(-125.2); 10.5; 0.0; 0.0];
    [(-3323.4); (-0.9); (-0.3); 0.0];
    [3142.3; 8.9; 0.3; 0.0];
    [2552.5; 7.3; (-1.2); 0.0];
    [2634.4; 8.8; 0.2; 0.0];
    [(-2424.4); 1.6; (-0.4); 0.0];
    [(-123.3); 3.9; 0.0; 0.0];
    [1642.4; 7.3; (-0.8); 0.0];
    [47.9; 3.2; 0.0; 0.0];
    [1321.2; 6.2; (-0.6); 0.0];
    [(-1234.1); (-0.3); 0.6; 0.0];
    [(-1076.5); (-0.3); 0.0; 0.0];
    [(-61.6); 1.8; 0.0; 0.0];
    [(-55.4); 1.6; 0.0; 0.0];
    [856.9; (-4.9); (-2.1); 0.0];
    [(-800.7); (-0.1); 0.0; 0.0];
    [685.1; (-0.6); (-3.8); 0.0];
    [(-16.9); (-1.5); 0.0; 0.0];
    [695.7; 1.8; 0.0; 0.0];
    [642.2; (-2.6); (-1.6); 0.0];
    [13.3; 1.1; (-0.1); 0.0];
    [521.9; 1.6; 0.0; 0.0];
    [325.8; 2.0; (-0.1); 0.0];
    [(-325.1); (-0.5); 0.9; 0.0];
    [10.1; 0.3; 0.0; 0.0];
    [334.5; 1.6; 0.0; 0.0];
    [307.1; 0.4; (-0.9); 0.0];
    [327.2; 0.5; 0.0; 0.0];
    [(-304.6); (-0.1); 0.0; 0.0];
    [304.0; 0.6; 0.0; 0.0];
    [(-276.8); (-0.5); 0.1; 0.0];
    [268.9; 1.3; 0.0; 0.0];
    [271.8; 1.1; 0.0; 0.0];
    [271.5; (-0.4); (-0.8); 0.0];
    [(-5.2); 0.5; 0.0; 0.0];
    [(-220.5); 0.1; 0.0; 0.0];
    [(-20.1); 0.3; 0.0; 0.0];
    [(-191.0); 0.1; 0.5; 0.0];
    [(-4.1); 0.3; 0.0; 0.0];
    [130.6; (-0.1); 0.0; 0.0];
    [3.0; 0.3; 0.0; 0.0];
    [122.9; 0.8; 0.0; 0.0];
    [3.7; (-0.3); 0.0; 0.0];
    [123.1; 0.4; (-0.3); 0.0];
    [(-52.7); 15.3; 0.0; 0.0];
    [120.7; 0.3; (-0.3); 0.0];
    [4.0; (-0.3); 0.0; 0.0];
    [126.5; 0.5; 0.0; 0.0];
    [112.7; 0.5; (-0.3); 0.0];
    [(-106.1); (-0.3); 0.3; 0.0];
    [(-112.9); (-0.2); 0.0; 0.0];
    [3.6; (-0.2); 0.0; 0.0];
    [107.4; 0.3; 0.0; 0.0];
    [(-10.9); 0.2; 0.0; 0.0];
    [(-0.9); 0.0; 0.0; 0.0];
    [85.4; 0.0; 0.0; 0.0];
    [0.0; (-88.8); 0.0; 0.0];
    [(-71.0); (-0.2); 0.0; 0.0];
    [(-70.3); 0.0; 0.0; 0.0];
    [64.5; 0.4; 0.0; 0.0];
    [69.8; 0.0; 0.0; 0.0];
    [66.1; 0.4; 0.0; 0.0];
    [(-61.0); (-0.2); 0.0; 0.0];
    [(-59.5); (-0.1); 0.0; 0.0];
    [(-55.6); 0.0; 0.2; 0.0];
    [51.7; 0.2; 0.0; 0.0];
    [(-49.0); (-0.1); 0.0; 0.0];
    [(-52.7); (-0.1); 0.0; 0.0];
    [(-49.6); 1.4; 0.0; 0.0];
    [46.3; 0.4; 0.0; 0.0];
    [49.6; 0.1; 0.0; 0.0];
    [(-5.1); 0.1; 0.0; 0.0];
    [(-44.0); (-0.1); 0.0; 0.0];
    [(-39.9); (-0.1); 0.0; 0.0];
    [(-39.5); (-0.1); 0.0; 0.0];
    [(-3.9); 0.1; 0.0; 0.0];
    [(-42.1); (-0.1); 0.0; 0.0];
    [(-17.2); 0.1; 0.0; 0.0];
    [(-2.3); 0.1; 0.0; 0.0];
    [(-39.2); 0.0; 0.0; 0.0];
    [(-38.4); 0.1; 0.0; 0.0];
    [36.8; 0.2; 0.0; 0.0];
    [34.6; 0.1; 0.0; 0.0];
    [(-32.7); 0.3; 0.0; 0.0];
    [30.4; 0.0; 0.0; 0.0];
    [0.4; 0.1; 0.0; 0.0];
    [29.3; 0.2; 0.0; 0.0];
    [31.6; 0.1; 0.0; 0.0];
    [0.8; (-0.1); 0.0; 0.0];
    [(-27.9); 0.0; 0.0; 0.0];
    [2.9; 0.0; 0.0; 0.0];
    [(-25.3); 0.0; 0.0; 0.0];
    [25.0; 0.1; 0.0; 0.0];
    [27.5; 0.1; 0.0; 0.0];
    [(-24.4); (-0.1); 0.0; 0.0];
    [24.9; 0.2; 0.0; 0.0];
    [(-22.8); (-0.1); 0.0; 0.0];
    [0.9; (-0.1); 0.0; 0.0];
    [24.4; 0.1; 0.0; 0.0];
    [23.9; 0.1; 0.0; 0.0];
    [22.5; 0.1; 0.0; 0.0];
    [20.8; 0.1; 0.0; 0.0];
    [20.1; 0.0; 0.0; 0.0];
    [21.5; 0.1; 0.0; 0.0];
    [(-20.0); 0.0; 0.0; 0.0];
    [1.4; 0.0; 0.0; 0.0];
    [(-0.2); (-0.1); 0.0; 0.0];
    [19.0; 0.0; (-0.1); 0.0];
    [20.5; 0.0; 0.0; 0.0];
    [(-2.0); 0.0; 0.0; 0.0];
    [(-17.6); (-0.1); 0.0; 0.0];
    [19.0; 0.0; 0.0; 0.0];
    [(-2.4); 0.0; 0.0; 0.0];
    [(-18.4); (-0.1); 0.0; 0.0];
    [17.1; 0.0; 0.0; 0.0];
    [0.4; 0.0; 0.0; 0.0];
    [18.4; 0.1; 0.0; 0.0];
    [0.0; 17.4; 0.0; 0.0];
    [(-0.6); 0.0; 0.0; 0.0];
    [(-15.4); 0.0; 0.0; 0.0];
    [(-16.8); (-0.1); 0.0; 0.0];
    [16.3; 0.0; 0.0; 0.0];
    [(-2.0); 0.0; 0.0; 0.0];
    [(-1.5); 0.0; 0.0; 0.0];
    [(-14.3); (-0.1); 0.0; 0.0];
    [14.4; 0.0; 0.0; 0.0];
    [(-13.4); 0.0; 0.0; 0.0];
    [(-14.3); (-0.1); 0.0; 0.0];
    [(-13.7); 0.0; 0.0; 0.0];
    [13.1; 0.1; 0.0; 0.0];
    [(-1.7); 0.0; 0.0; 0.0];
    [(-12.8); 0.0; 0.0; 0.0];
    [0.0; (-14.4); 0.0; 0.0];
    [12.4; 0.0; 0.0; 0.0];
    [(-12.0); 0.0; 0.0; 0.0];
    [(-0.8); 0.0; 0.0; 0.0];
    [10.9; 0.1; 0.0; 0.0];
    [(-10.8); 0.0; 0.0; 0.0];
    [10.5; 0.0; 0.0; 0.0];
    [(-10.4); 0.0; 0.0; 0.0];
    [(-11.2); 0.0; 0.0; 0.0];
    [10.5; 0.1; 0.0; 0.0];
    [(-1.4); 0.0; 0.0; 0.0];
    [0.0; 0.1; 0.0; 0.0];
    [0.7; 0.0; 0.0; 0.0];
    [(-10.3); 0.0; 0.0; 0.0];
    [(-10.0); 0.0; 0.0; 0.0];
    [9.6; 0.0; 0.0; 0.0];
    [9.4; 0.1; 0.0; 0.0];
    [0.6; 0.0; 0.0; 0.0];
    [(-87.7); 4.4; (-0.4); (-6.3)];
    [46.3; 22.4; 0.5; (-2.4)];
    [15.6; (-3.4); 0.1; 0.4];
    [5.2; 5.8; 0.2; (-0.1)];
    [(-30.1); 26.9; 0.7; 0.0];
    [23.2; (-0.5); 0.0; 0.6];
    [1.0; 23.2; 3.4; 0.0];
    [(-12.2); (-4.3); 0.0; 0.0];
    [(-2.1); (-3.7); (-0.2); 0.1];
    [(-18.6); (-3.8); (-0.4); 1.8];
    [5.5; (-18.7); (-1.8); (-0.5)];
    [(-5.5); (-18.7); 1.8; (-0.5)];
    [18.4; (-3.6); 0.3; 0.9];
    [(-0.6); 1.3; 0.0; 0.0];
    [(-5.6); (-19.5); 1.9; 0.0];
    [5.5; (-19.1); (-1.9); 0.0];
    [(-17.3); (-0.8); 0.0; 0.9];
    [(-3.2); (-8.3); (-0.8); 0.3];
    [(-0.1); 0.0; 0.0; 0.0];
    [(-5.4); 7.8; (-0.3); 0.0];
    [(-14.8); 1.4; 0.0; 0.3];
    [(-3.8); 0.4; 0.0; (-0.2)];
    [12.6; 3.2; 0.5; (-1.5)];
    [0.1; 0.0; 0.0; 0.0];
    [(-13.6); 2.4; (-0.1); 0.0];
    [0.9; 1.2; 0.0; 0.0];
    [(-11.9); (-0.5); 0.0; 0.3];
    [0.4; 12.0; 0.3; (-0.2)];
    [8.3; 6.1; (-0.1); 0.1];
    [0.0; 0.0; 0.0; 0.0];
    [0.4; (-10.8); 0.3; 0.0];
    [9.6; 2.2; 0.3; (-1.2)]
  ])%R.


(** [sizeof ( int )] on the target; the count below does not depend on
    its value as long as it is positive. *)
Definition sizeof_int : Z := 4.

Definition sizeof_na : Z := (Z.of_nat (length na) * 9 * sizeof_int)%Z.

(** Number of terms in the model *)
Definition nterms : Z := (sizeof_na / sizeof_int / 9)%Z.

Section WithSlamac.

(** Degrees and arc seconds to radians, from the macro header. *)
Variables DD2R DAS2R : R.

Definition na_at (j i : nat) : R := IZR (at2 0%Z na j i).

(** The nine fundamental angles of lines 668-717, in the order of the
    columns of [na]. *)
Definition nutc_angles (t : R) : list R :=
  (* Mean anomaly of the Moon. *)
  let el := 134.96340251 * DD2R +
            fmod_ (t * (1717915923.2178 +
                   t * (        31.8792 +
                   t * (         0.051635 +
                   t * (       - 0.00024470))))) TURNAS * DAS2R in
  (* Mean anomaly of the Sun. *)
  let elp := 357.52910918 * DD2R +
             fmod_ (t * ( 129596581.0481 +
                    t * (       - 0.5532 +
                    t * (         0.000136 +
                    t * (       - 0.00001149))))) TURNAS * DAS2R in
  (* Mean argument of the latitude of the Moon. *)
  let f := 93.27209062 * DD2R +
           fmod_ (t * (1739527262.8478 +
                  t * (      - 12.7512 +
                  t * (       - 0.001037 +
                  t * (         0.00000417))))) TURNAS * DAS2R in
  (* Mean elongation of the Moon from the Sun. *)
  let d := 297.85019547 * DD2R +
           fmod_ (t * (1602961601.2090 +
                  t * (       - 6.3706 +
                  t * (         0.006539 +
                  t * (       - 0.00003169))))) TURNAS * DAS2R in
  (* Mean longitude of the ascending node of the Moon. *)
  let om := 125.04455501 * DD2R +
            fmod_ (t * ( - 6962890.5431 +
                   t * (         7.4722 +
                   t * (         0.007702 +
                   t * (       - 0.00005939))))) TURNAS * DAS2R in
  (* Mean longitude of Venus. *)
  let ve := 181.97980085 * DD2R +
            fmod_ (210664136.433548 * t) TURNAS * DAS2R in
  (* Mean longitude of Mars. *)
  let ma := 355.43299958 * DD2R +
            fmod_ ( 68905077.493988 * t) TURNAS * DAS2R in
  (* Mean longitude of Jupiter. *)
  let ju := 34.35151874 * DD2R +
            fmod_ ( 10925660.377991 * t) TURNAS * DAS2R in
  (* Mean longitude of Saturn. *)
  let sa := 50.07744430 * DD2R +
            fmod_ (  4399609.855732 * t) TURNAS * DAS2R in
  [el; elp; f; d; om; ve; ma; ju; sa].

(** One pass through the body of the loop of lines 724-740, for the
    term of index [j], on the accumulators [(dp, de)]. *)
Definition nutc_term (t : R) (ang : list R) (j : nat) (acc : R * R) : R * R :=
  let '(dp, de) := acc in
  let theta := na_at j 0 * at1 0 ang 0 +
               na_at j 1 * at1 0 ang 1 +
               na_at j 2 * at1 0 ang 2 +
               na_at j 3 * at1 0 ang 3 +
               na_at j 4 * at1 0 ang 4 +
               na_at j 5 * at1 0 ang 5 +
               na_at j 6 * at1 0 ang 6 +
               na_at j 7 * at1 0 ang 7 +
               na_at j 8 * at1 0 ang 8 in
  let c := cos_ theta in
  let s := sin_ theta in
  let dp := dp + ((at2 0 psi j 0 + at2 0 psi j 2 * t) * c +
                  (at2 0 psi j 1 + at2 0 psi j 3 * t) * s) in
  let de := de + ((at2 0 eps j 0 + at2 0 eps j 2 * t) * c +
                  (at2 0 eps j 1 + at2 0 eps j 3 * t) * s) in
  (dp, de).

(** Returns [(dpsi, deps, eps0)]. *)
Definition slaNutc (date : R) : R * R * R :=
  (* Interval between fundamental epoch J2000.0 and given epoch (JC). *)
  let t := (date - DJM0) / DJC in
  let ang := nutc_angles t in
  let elp := at1 0 ang 1 in
  (* Geodesic nutation (Fukushima 1991) in microarcsec. *)
  let dp := - 153.1 * sin_ elp - 1.9 * sin_ (2.0 * elp) in
  let de := 0.0 in
  (* Shirai & Fukushima (2001) nutation series. *)
  let '(dp, de) := for_down (Z.to_nat nterms) (nutc_term t ang) (dp, de) in
  (* Change of units, and addition of the precession correction. *)
  let dpsi := (dp * 1e-6 - 0.042888 - 0.29856 * t) * DAS2R in
  let deps := (de * 1e-6 - 0.005171 - 0.02408 * t) * DAS2R in
  (* Mean obliquity of date (Simon et al. 1994). *)
  let eps0 := (84381.412 +
               (- 46.80927 +
                (- 0.000152 +
                 (0.0019989 +
                  (- 0.00000051 +
                   (- 0.000000025) * t) * t) * t) * t) * t) * DAS2R in
  (dpsi, deps, eps0).

(** The loop of [slaNutc] with a pass counter carried next to its
    accumulators. *)
Definition nutc_series_counted (t : R) (ang : list R) (acc : R * R)
  : nat * (R * R) :=
  for_down (Z.to_nat nterms)
           (fun j st => (S (fst st), nutc_term t ang j (snd st)))
           (O, acc).

End WithSlamac.

End Nutc.

(** ** planet.c : approximate heliocentric position and velocity *)

Module Planet.

(** Gaussian gravitational constant (exact) *)
Definition GCON : R := 0.01720209895.

(** Canonical days to seconds *)
Definition CD2S : R := GCON / 86400.0.

(** Seconds per Julian century *)
Definition SPC : R := 36525.0 * 86400.0.

(** Sin and cos of J2000 mean obliquity (IAU 1976) *)
Definition SE : R := 0.3977771559319137.
Definition CE : R := 0.9174820620691818.

(** Planetary inverse masses *)
Definition amas : list R :=
  [6023600.0; 408523.5; 328900.5; 3098710.0; 1047.355; 3498.5; 22869.0; 19314.0].

(** Tables giving the mean Keplerian elements, limited to T^2 terms:
    [a] semi-major axis (AU), [dlm] mean longitude (degree and
    arcsecond), [e] eccentricity, [pi] longitude of the perihelion,
    [dinc] inclination, [omega] longitude of the ascending node. *)
Definition a : list (list R) :=
  [
    [0.3870983098; 0.0; 0.0];
    [0.7233298200; 0.0; 0.0];
    [1.0000010178; 0.0; 0.0];
    [1.5236793419; 3e-10; 0.0];
    [5.2026032092; 19132e-10; (-39e-10)];
    [9.5549091915; (-0.0000213896); 444e-10];
    [19.2184460618; (-3716e-10); 979e-10];
    [30.1103868694; (-16635e-10); 686e-10]
  ].

Definition dlm : list (list R) :=
  [
    [252.25090552; 5381016286.88982; (-1.92789)];
    [181.97980085; 2106641364.33548; 0.59381];
    [100.46645683; 1295977422.83429; (-2.04411)];
    [355.43299958; 689050774.93988; 0.94264];
    [34.35151874; 109256603.77991; (-30.60378)];
    [50.07744430; 43996098.55732; 75.61614];
    [314.05500511; 15424811.93933; (-1.75083)];
    [304.34866548; 7865503.20744; 0.21103]
  ].

Definition e : list (list R) :=
  [
    [0.2056317526; 0.0002040653; (-28349e-10)];
    [0.0067719164; (-0.0004776521); 98127e-10];
    [0.0167086342; (-0.0004203654); (-0.0000126734)];
    [0.0934006477; 0.0009048438; (-80641e-10)];
    [0.0484979255; 0.0016322542; (-0.0000471366)];
    [0.0555481426; (-0.0034664062); (-0.0000643639)];
    [0.0463812221; (-0.0002729293); 0.0000078913];
    [0.0094557470; 0.0000603263; 0.0]
  ].

Definition pi : list (list R) :=
  [
    [77.45611904; 5719.11590; (-4.83016)];
    [131.56370300; 175.48640; (-498.48184)];
    [102.93734808; 11612.35290; 53.27577];
    [336.06023395; 15980.45908; (-62.32800)];
    [14.33120687; 7758.75163; 259.95938];
    [93.05723748; 20395.49439; 190.25952];
    [173.00529106; 3215.56238; (-34.09288)];
    [48.12027554; 1050.71912; 27.39717]
  ].

Definition dinc : list (list R) :=
  [
    [7.00498625; (-214.25629); 0.28977];
    [3.39466189; (-30.84437); (-11.67836)];
    [0.0; 469.97289; (-3.35053)];
    [1.84972648; (-293.31722); (-8.11830)];
    [1.30326698; (-71.55890); 11.95297];
    [2.48887878; 91.85195; (-17.66225)];
    [0.77319689; (-60.72723); 1.25759];
    [1.76995259; 8.12333; 0.08135]
  ].

Definition omega : list (list R) :=
  [
    [48.33089304; (-4515.21727); (-31.79892)];
    [76.67992019; (-10008.48154); (-51.32614)];
    [174.87317577; (-8679.27034); 15.34191];
    [49.55809321; (-10620.90088); (-230.57416)];
    [100.46440702; 6362.03561; 326.52178];
    [113.66550252; (-9240.19942); (-66.23743)];
    [74.00595701; 2669.15033; 145.93964];
    [131.78405702; (-221.94322); (-0.78728)]
  ].

(** Tables for trigonometric terms to be added to the mean elements of
    the semi-major axes. *)
Definition dkp : list (list R) :=
  [
    [69613.0; 75645.0; 88306.0; 59899.0; 15746.0; 71087.0; 142173.0; 3086.0; 0.0];
    [21863.0; 32794.0; 26934.0; 10931.0; 26250.0; 43725.0; 53867.0; 28939.0; 0.0];
    [16002.0; 21863.0; 32004.0; 10931.0; 14529.0; 16368.0; 15318.0; 32794.0; 0.0];
    [6345.0; 7818.0; 15636.0; 7077.0; 8184.0; 14163.0; 1107.0; 4872.0; 0.0];
    [1760.0; 1454.0; 1167.0; 880.0; 287.0; 2640.0; 19.0; 2047.0; 1454.0];
    [574.0; 0.0; 880.0; 287.0; 19.0; 1760.0; 1167.0; 306.0; 574.0];
    [204.0; 0.0; 177.0; 1265.0; 4.0; 385.0; 200.0; 208.0; 204.0];
    [0.0; 102.0; 106.0; 4.0; 98.0; 1367.0; 487.0; 204.0; 0.0]
  ].

Definition ca : list (list R) :=
  [
    [4.0; (-13.0); 11.0; (-9.0); (-9.0); (-3.0); (-1.0); 4.0; 0.0];
    [(-156.0); 59.0; (-42.0); 6.0; 19.0; (-20.0); (-10.0); (-12.0); 0.0];
    [64.0; (-152.0); 62.0; (-8.0); 32.0; (-41.0); 19.0; (-11.0); 0.0];
    [124.0; 621.0; (-145.0); 208.0; 54.0; (-57.0); 30.0; 15.0; 0.0];
    [(-23437.0); (-2634.0); 6601.0; 6259.0; (-1507.0); (-1821.0); 2620.0; (-2115.0); (-1489.0)];
    [62911.0; (-119919.0); 79336.0; 17814.0; (-24241.0); 12068.0; 8306.0; (-4893.0); 8902.0];
    [389061.0; (-262125.0); (-44088.0); 8387.0; (-22976.0); (-2093.0); (-615.0); (-9720.0); 6633.0];
    [(-412235.0); (-157046.0); (-31430.0); 37817.0; (-9740.0); (-13.0); (-7449.0); 9644.0; 0.0]
  ].

Definition sa : list (list R) :=
  [
    [(-29.0); (-1.0); 9.0; 6.0; (-6.0); 5.0; 4.0; 0.0; 0.0];
    [(-48.0); (-125.0); (-26.0); (-37.0); 18.0; (-13.0); (-20.0); (-2.0); 0.0];
    [(-150.0); (-46.0); 68.0; 54.0; 14.0; 24.0; (-28.0); 22.0; 0.0];
    [(-621.0); 532.0; (-694.0); (-20.0); 192.0; (-94.0); 71.0; (-73.0); 0.0];
    [(-14614.0); (-19828.0); (-5869.0); 1881.0; (-4372.0); (-2255.0); 782.0; 930.0; 913.0];
    [139737.0; 0.0; 24667.0; 51123.0; (-5102.0); 7429.0; (-4095.0); (-1976.0); (-9566.0)];
    [(-138081.0); 0.0; 37205.0; (-49039.0); (-41901.0); (-33872.0); (-27037.0); (-12474.0); 18797.0];
    [0.0; 28492.0; 133236.0; 69654.0; 52322.0; (-49577.0); (-26430.0); (-3593.0); 0.0]
  ].

(** Tables giving the trigonometric terms to be added to the mean
    elements of the mean longitudes. *)
Definition dkq : list (list R) :=
  [
    [3086.0; 15746.0; 69613.0; 59899.0; 75645.0; 88306.0; 12661.0; 2658.0; 0.0; 0.0];
    [21863.0; 32794.0; 10931.0; 73.0; 4387.0; 26934.0; 1473.0; 2157.0; 0.0; 0.0];
    [10.0; 16002.0; 21863.0; 10931.0; 1473.0; 32004.0; 4387.0; 73.0; 0.0; 0.0];
    [10.0; 6345.0; 7818.0; 1107.0; 15636.0; 7077.0; 8184.0; 532.0; 10.0; 0.0];
    [19.0; 1760.0; 1454.0; 287.0; 1167.0; 880.0; 574.0; 2640.0; 19.0; 1454.0];
    [19.0; 574.0; 287.0; 306.0; 1760.0; 12.0; 31.0; 38.0; 19.0; 574.0];
    [4.0; 204.0; 177.0; 8.0; 31.0; 200.0; 1265.0; 102.0; 4.0; 204.0];
    [4.0; 102.0; 106.0; 8.0; 98.0; 1367.0; 487.0; 204.0; 4.0; 102.0]
  ].

Definition clo : list (list R) :=
  [
    [21.0; (-95.0); (-157.0); 41.0; (-5.0); 42.0; 23.0; 30.0; 0.0; 0.0];
    [(-160.0); (-313.0); (-235.0); 60.0; (-74.0); (-76.0); (-27.0); 34.0; 0.0; 0.0];
    [(-325.0); (-322.0); (-79.0); 232.0; (-52.0); 97.0; 55.0; (-41.0); 0.0; 0.0];
    [2268.0; (-979.0); 802.0; 602.0; (-668.0); (-33.0); 345.0; 201.0; (-55.0); 0.0];
    [7610.0; (-4997.0); (-7689.0); (-5841.0); (-2617.0); 1115.0; (-748.0); (-607.0); 6074.0; 354.0];
    [(-18549.0); 30125.0; 20012.0; (-730.0); 824.0; 23.0; 1289.0; (-352.0); (-14767.0); (-2062.0)];
    [(-135245.0); (-14594.0); 4197.0; (-4030.0); (-5630.0); (-2898.0); 2540.0; (-306.0); 2939.0; 1986.0];
    [89948.0; 2103.0; 8963.0; 2695.0; 3682.0; 1648.0; 866.0; (-154.0); (-1963.0); (-283.0)]
  ].

Definition slo : list (list R) :=
  [
    [(-342.0); 136.0; (-23.0); 62.0; 66.0; (-52.0); (-33.0); 17.0; 0.0; 0.0];
    [524.0; (-149.0); (-35.0); 117.0; 151.0; 122.0; (-71.0); (-62.0); 0.0; 0.0];
    [(-105.0); (-137.0); 258.0; 35.0; (-116.0); (-88.0); (-112.0); (-80.0); 0.0; 0.0];
    [854.0; (-205.0); (-936.0); (-240.0); 140.0; (-341.0); (-97.0); (-232.0); 536.0; 0.0];
    [(-56980.0); 8016.0; 1012.0; 1448.0; (-3024.0); (-3710.0); 318.0; 503.0; 3767.0; 577.0];
    [138606.0; (-13478.0); (-4964.0); 1441.0; (-1319.0); (-1482.0); 427.0; 1236.0; (-9167.0); (-1918.0)];
    [71234.0; (-41116.0); 5334.0; (-4935.0); (-1848.0); 66.0; 434.0; (-1748.0); 3780.0; (-701.0)];
    [(-47645.0); 11647.0; 2166.0; 3194.0; 679.0; 0.0; (-244.0); (-419.0); (-2531.0); 48.0]
  ].

(** Coefficients for fundamental arguments:  mean longitudes (degrees)
    and mean rate of change of longitude (degrees per Julian century)
    for Jupiter, Saturn and Pluto *)
Definition dj0 : R := 34.35.
Definition djd : R := 3034.9057.
Definition ds0 : R := 50.08.
Definition dsd : R := 1222.1138.
Definition dp0 : R := 238.96.
Definition dpd : R := 144.9600.

(** Coefficients for latitude, longitude, radius vector *)
Definition dl0 : R := 238.956785.
Definition dld0 : R := 144.96.
Definition db0 : R := -3.908202.
Definition dr0 : R := 40.7247248.

(** [struct ab]: sine and cosine component. *)
Record ab : Type := mk_ab { ab_a : R; ab_b : R }.

(** [struct tm]: Jupiter, Saturn and Pluto contribution to the argument,
    then longitude (degrees), latitude (degrees), radius vector (AU). *)
Record tm : Type := mk_tm { tm_ij : Z; tm_is : Z; tm_ip : Z; tm_dlbr : list ab }.

(** Coefficients for periodic terms (Meeus's Table 36.A) *)
Definition term : list tm :=
  [
    mk_tm 0 0 1
      [mk_ab (-19798886e-6) 19848454e-6;
       mk_ab (-5453098e-6) (-14974876e-6);
       mk_ab 66867334e-7 68955876e-7];
    mk_tm 0 0 2
      [mk_ab 897499e-6 (-4955707e-6);
       mk_ab 3527363e-6 1672673e-6;
       mk_ab (-11826086e-7) (-333765e-7)];
    mk_tm 0 0 3
      [mk_ab 610820e-6 1210521e-6;
       mk_ab (-1050939e-6) 327763e-6;
       mk_ab 1593657e-7 (-1439953e-7)];
    mk_tm 0 0 4
      [mk_ab (-341639e-6) (-189719e-6);
       mk_ab 178691e-6 (-291925e-6);
       mk_ab (-18948e-7) 482443e-7];
    mk_tm 0 0 5
      [mk_ab 129027e-6 (-34863e-6);
       mk_ab 18763e-6 100448e-6;
       mk_ab (-66634e-7) (-85576e-7)];
    mk_tm 0 0 6
      [mk_ab (-38215e-6) 31061e-6;
       mk_ab (-30594e-6) (-25838e-6);
       mk_ab 30841e-7 (-5765e-7)];
    mk_tm 0 1 (-1)
      [mk_ab 20349e-6 (-9886e-6);
       mk_ab 4965e-6 11263e-6;
       mk_ab (-6140e-7) 22254e-7];
    mk_tm 0 1 0
      [mk_ab (-4045e-6) (-4904e-6);
       mk_ab 310e-6 (-132e-6);
       mk_ab 4434e-7 4443e-7];
    mk_tm 0 1 1
      [mk_ab (-5885e-6) (-3238e-6);
       mk_ab 2036e-6 (-947e-6);
       mk_ab (-1518e-7) 641e-7];
    mk_tm 0 1 2
      [mk_ab (-3812e-6) 3011e-6;
       mk_ab (-2e-6) (-674e-6);
       mk_ab (-5e-7) 792e-7];
    mk_tm 0 1 3
      [mk_ab (-601e-6) 3468e-6;
       mk_ab (-329e-6) (-563e-6);
       mk_ab 518e-7 518e-7];
    mk_tm 0 2 (-2)
      [mk_ab 1237e-6 463e-6;
       mk_ab (-64e-6) 39e-6;
       mk_ab (-13e-7) (-221e-7)];
    mk_tm 0 2 (-1)
      [mk_ab 1086e-6 (-911e-6);
       mk_ab (-94e-6) 210e-6;
       mk_ab 837e-7 (-494e-7)];
    mk_tm 0 2 0
      [mk_ab 595e-6 (-1229e-6);
       mk_ab (-8e-6) (-160e-6);
       mk_ab (-281e-7) 616e-7];
    mk_tm 1 (-1) 0
      [mk_ab 2484e-6 (-485e-6);
       mk_ab (-177e-6) 259e-6;
       mk_ab 260e-7 (-395e-7)];
    mk_tm 1 (-1) 1
      [mk_ab 839e-6 (-1414e-6);
       mk_ab 17e-6 234e-6;
       mk_ab (-191e-7) (-396e-7)];
    mk_tm 1 0 (-3)
      [mk_ab (-964e-6) 1059e-6;
       mk_ab 582e-6 (-285e-6);
       mk_ab (-3218e-7) 370e-7];
    mk_tm 1 0 (-2)
      [mk_ab (-2303e-6) (-1038e-6);
       mk_ab (-298e-6) 692e-6;
       mk_ab 8019e-7 (-7869e-7)];
    mk_tm 1 0 (-1)
      [mk_ab 7049e-6 747e-6;
       mk_ab 157e-6 201e-6;
       mk_ab 105e-7 45637e-7];
    mk_tm 1 0 0
      [mk_ab 1179e-6 (-358e-6);
       mk_ab 304e-6 825e-6;
       mk_ab 8623e-7 8444e-7];
    mk_tm 1 0 1
      [mk_ab 393e-6 (-63e-6);
       mk_ab (-124e-6) (-29e-6);
       mk_ab (-896e-7) (-801e-7)];
    mk_tm 1 0 2
      [mk_ab 111e-6 (-268e-6);
       mk_ab 15e-6 8e-6;
       mk_ab 208e-7 (-122e-7)];
    mk_tm 1 0 3
      [mk_ab (-52e-6) (-154e-6);
       mk_ab 7e-6 15e-6;
       mk_ab (-133e-7) 65e-7];
    mk_tm 1 0 4
      [mk_ab (-78e-6) (-30e-6);
       mk_ab 2e-6 2e-6;
       mk_ab (-16e-7) 1e-7];
    mk_tm 1 1 (-3)
      [mk_ab (-34e-6) (-26e-6);
       mk_ab 4e-6 2e-6;
       mk_ab (-22e-7) 7e-7];
    mk_tm 1 1 (-2)
      [mk_ab (-43e-6) 1e-6;
       mk_ab 3e-6 0e-6;
       mk_ab (-8e-7) 16e-7];
    mk_tm 1 1 (-1)
      [mk_ab (-15e-6) 21e-6;
       mk_ab 1e-6 (-1e-6);
       mk_ab 2e-7 9e-7];
    mk_tm 1 1 0
      [mk_ab (-1e-6) 15e-6;
       mk_ab 0e-6 (-2e-6);
       mk_ab 12e-7 5e-7];
    mk_tm 1 1 1
      [mk_ab 4e-6 7e-6;
       mk_ab 1e-6 0e-6;
       mk_ab 1e-7 (-3e-7)];
    mk_tm 1 1 3
      [mk_ab 1e-6 5e-6;
       mk_ab 1e-6 (-1e-6);
       mk_ab 1e-7 0e-7];
    mk_tm 2 0 (-6)
      [mk_ab 8e-6 3e-6;
       mk_ab (-2e-6) (-3e-6);
       mk_ab 9e-7 5e-7];
    mk_tm 2 0 (-5)
      [mk_ab (-3e-6) 6e-6;
       mk_ab 1e-6 2e-6;
       mk_ab 2e-7 (-1e-7)];
    mk_tm 2 0 (-4)
      [mk_ab 6e-6 (-13e-6);
       mk_ab (-8e-6) 2e-6;
       mk_ab 14e-7 10e-7];
    mk_tm 2 0 (-3)
      [mk_ab 10e-6 22e-6;
       mk_ab 10e-6 (-7e-6);
       mk_ab (-65e-7) 12e-7];
    mk_tm 2 0 (-2)
      [mk_ab (-57e-6) (-32e-6);
       mk_ab 0e-6 21e-6;
       mk_ab 126e-7 (-233e-7)];
    mk_tm 2 0 (-1)
      [mk_ab 157e-6 (-46e-6);
       mk_ab 8e-6 5e-6;
       mk_ab 270e-7 1068e-7];
    mk_tm 2 0 0
      [mk_ab 12e-6 (-18e-6);
       mk_ab 13e-6 16e-6;
       mk_ab 254e-7 155e-7];
    mk_tm 2 0 1
      [mk_ab (-4e-6) 8e-6;
       mk_ab (-2e-6) (-3e-6);
       mk_ab (-26e-7) (-2e-7)];
    mk_tm 2 0 2
      [mk_ab (-5e-6) 0e-6;
       mk_ab 0e-6 0e-6;
       mk_ab 7e-7 0e-7];
    mk_tm 2 0 3
      [mk_ab 3e-6 4e-6;
       mk_ab 0e-6 1e-6;
       mk_ab (-11e-7) 4e-7];
    mk_tm 3 0 (-2)
      [mk_ab (-1e-6) (-1e-6);
       mk_ab 0e-6 1e-6;
       mk_ab 4e-7 (-14e-7)];
    mk_tm 3 0 (-1)
      [mk_ab 6e-6 (-3e-6);
       mk_ab 0e-6 0e-6;
       mk_ab 18e-7 35e-7];
    mk_tm 3 0 0
      [mk_ab (-1e-6) (-2e-6);
       mk_ab 0e-6 1e-6;
       mk_ab 13e-7 3e-7]
  ].

(** Modelled from the spec: the macros [D2PI] and [dmod] come from the
    macro header, which is not among the sources.  The specification
    gives the full turn as 2π and the reduction as a floor-based modulo:
    [dmod A B] is [A] less the largest whole multiple of [B] below it. *)
Definition D2PI : R := 2 * PI.
Definition dmod (A B : R) : R := A - B * IZR (Int_part (A / B)).

(** The orbital elements handed to [slaPlanel], in its argument order. *)
Record elements : Type := mk_elements
  { el_di : R;     (* inclination *)
    el_dom : R;    (* longitude of the ascending node *)
    el_dpe : R;    (* longitude of perihelion *)
    el_da : R;     (* semi-major axis *)
    el_de : R;     (* eccentricity *)
    el_dl : R;     (* mean longitude *)
    el_dm : R }.   (* daily motion *)

Definition zero_ab : ab := mk_ab 0 0.
Definition zero_tm : tm := mk_tm 0 0 0 [].

Section WithCollaborators.

(** Degrees and arc seconds to radians, from the macro header. *)
Variables DD2R DAS2R : R.

(** The elements-to-state routine
    [slaPlanel ( date, jform, epoch, orbinc, anode, perih, aorq, e,
                 aorl, dm, pv, &jstat )]:
    it receives the caller's [pv] and returns it, possibly overwritten,
    with its own status. *)
Variable slaPlanel :
  R -> Z -> R -> R -> R -> R -> R -> R -> R -> R -> list R -> list R * Z.

(** Lines 549-582: the elements of body [ip] (0 = Mercury) at [t]
    Julian millennia from J2000. *)
Definition planet_elements (ip : nat) (t : R) : elements :=
  (* Compute the mean elements. *)
  let da := at2 0 a ip 0 + (at2 0 a ip 1 + at2 0 a ip 2 * t) * t in
  let dl := (3600.0 * at2 0 dlm ip 0 +
             (at2 0 dlm ip 1 + at2 0 dlm ip 2 * t) * t) * DAS2R in
  let de := at2 0 e ip 0 + (at2 0 e ip 1 + at2 0 e ip 2 * t) * t in
  let dpe := dmod ((3600.0 * at2 0 pi ip 0 +
                    (at2 0 pi ip 1 + at2 0 pi ip 2 * t) * t) * DAS2R)
                  D2PI in
  let di := (3600.0 * at2 0 dinc ip 0 +
             (at2 0 dinc ip 1 + at2 0 dinc ip 2 * t) * t) * DAS2R in
  let dom := dmod ((3600.0 * at2 0 omega ip 0 +
                    (at2 0 omega ip 1 + at2 0 omega ip 2 * t) * t) * DAS2R)
                  D2PI in
  (* Apply the trigonometric terms. *)
  let dmu := 0.35953620 * t in
  let '(da, dl) :=
    for_up 0 8
      (fun j st =>
         let '(da, dl) := st in
         let arga := at2 0 dkp ip j * dmu in
         let argl := at2 0 dkq ip j * dmu in
         let da := da + (at2 0 ca ip j * cos_ arga +
                         at2 0 sa ip j * sin_ arga) * 1e-7 in
         let dl := dl + (at2 0 clo ip j * cos_ argl +
                         at2 0 slo ip j * sin_ argl) * 1e-7 in
         (da, dl))
      (da, dl) in
  let arga := at2 0 dkp ip 8 * dmu in
  let da := da + t * (at2 0 ca ip 8 * cos_ arga +
                      at2 0 sa ip 8 * sin_ arga) * 1e-7 in
  let dl :=
    for_up 8 2
      (fun j dl =>
         let argl := at2 0 dkq ip j * dmu in
         dl + t * (at2 0 clo ip j * cos_ argl +
                   at2 0 slo ip j * sin_ argl) * 1e-7)
      dl in
  let dl := dmod dl D2PI in
  (* Daily motion. *)
  let dm := GCON * sqrt_ ((1.0 + 1.0 / at1 0 amas ip) / (da * da * da)) in
  mk_elements di dom dpe da de dl dm.

(** Line 585: the call of the collaborator. *)
Definition planel_call (date : R) (el : elements) (pv : list R)
  : list R * Z :=
  slaPlanel date 1 date (el_di el) (el_dom el) (el_dpe el) (el_da el)
            (el_de el) (el_dl el) (el_dm el) pv.

(** Lines 543-586: Mercury through Neptune. *)
Definition planet_mercury_to_neptune (date : R) (ip : Z) (pv : list R)
  : list R * Z :=
  (* Time: Julian millennia since J2000. *)
  let t := (date - 51544.5) / 365250.0 in
  (* OK status unless remote epoch. *)
  let jstat := if Rleb (fabs_ t) 1.0 then 0%Z else 1%Z in
  let el := planet_elements (Z.to_nat ip) t in
  (* Make the prediction. *)
  let '(pv, j) := planel_call date el pv in
  let jstat := if (j <? 0)%Z then (-2)%Z else jstat in
  (pv, jstat).

(** Lines 613-637: one term of Meeus Table 36.A, on the accumulators
    [(wlbr, wlbrd)]. *)
Definition pluto_term (dj ds dp : R) (j : nat) (st : list R * list R)
  : list R * list R :=
  let tj := at1 zero_tm term j in
  (* Argument and derivative (radians, radians per century). *)
  let wj := IZR (tm_ij tj) in
  let ws := IZR (tm_is tj) in
  let wp := IZR (tm_ip tj) in
  let al := wj * dj + ws * ds + wp * dp in
  let ald := (wj * djd + ws * dsd + wp * dpd) * DD2R in
  (* Functions of argument. *)
  let sal := sin_ al in
  let cal := cos_ al in
  (* Periodic terms in longitude, latitude, radius vector. *)
  for_up 0 3
    (fun i st =>
       let '(wlbr, wlbrd) := st in
       (* A and B coefficients (deg, AU). *)
       let ac := ab_a (at1 zero_ab (tm_dlbr tj) i) in
       let bc := ab_b (at1 zero_ab (tm_dlbr tj) i) in
       (* Periodic terms (deg, AU, deg/Jc, AU/Jc). *)
       let wlbr := upd i (at1 0 wlbr i + ac * sal + bc * cal) wlbr in
       let wlbrd := upd i (at1 0 wlbrd i + (ac * cal - bc * sal) * ald)
                        wlbrd in
       (wlbr, wlbrd))
    st.

(** Lines 596-673: Pluto. *)
Definition planet_pluto (date : R) (pv : list R) : list R * Z :=
  (* Time: Julian centuries since J2000. *)
  let t := (date - 51544.5) / 36525.0 in
  (* OK status unless remote epoch. *)
  let jstat := if Rgeb t (-1.15) && Rleb t 1.0 then 0%Z else (-1)%Z in
  (* Fundamental arguments (radians). *)
  let dj := (dj0 + djd * t) * DD2R in
  let ds := (ds0 + dsd * t) * DD2R in
  let dp := (dp0 + dpd * t) * DD2R in
  (* Initialize coefficients and derivatives; the two local arrays of
     three elements hold arbitrary values before. *)
  let '(wlbr, wlbrd) :=
    for_up 0 3
      (fun i st => (upd i 0.0 (fst st), upd i 0.0 (snd st)))
      ([0; 0; 0], [0; 0; 0]) in
  (* Term by term through Meeus Table 36.A. *)
  let '(wlbr, wlbrd) :=
    for_up 0 (length term) (pluto_term dj ds dp) (wlbr, wlbrd) in
  (* Heliocentric longitude and derivative (radians, radians/sec). *)
  let dl := (dl0 + dld0 * t + at1 0 wlbr 0) * DD2R in
  let dld := (dld0 + at1 0 wlbrd 0) * DD2R / SPC in
  (* Heliocentric latitude and derivative (radians, radians/sec). *)
  let db := (db0 + at1 0 wlbr 1) * DD2R in
  let dbd := at1 0 wlbrd 1 * DD2R / SPC in
  (* Heliocentric radius vector and derivative (AU, AU/sec). *)
  let dr := dr0 + at1 0 wlbr 2 in
  let drd := at1 0 wlbrd 2 / SPC in
  (* Functions of latitude, longitude, radius vector. *)
  let sl := sin_ dl in
  let cl := cos_ dl in
  let sb := sin_ db in
  let cb := cos_ db in
  let slcb := sl * cb in
  let clcb := cl * cb in
  (* Heliocentric vector and derivative, J2000 ecliptic and equinox. *)
  let x := dr * clcb in
  let y := dr * slcb in
  let z := dr * sb in
  let xd := drd * clcb - dr * (cl * sb * dbd + slcb * dld) in
  let yd := drd * slcb + dr * (- sl * sb * dbd + clcb * dld) in
  let zd := drd * sb + dr * cb * dbd in
  (* Transform to J2000 equator and equinox. *)
  let pv := upd 0 x pv in
  let pv := upd 1 (y * CE - z * SE) pv in
  let pv := upd 2 (y * SE + z * CE) pv in
  let pv := upd 3 xd pv in
  let pv := upd 4 (yd * CE - zd * SE) pv in
  let pv := upd 5 (yd * SE + zd * CE) pv in
  (pv, jstat).

(** [slaPlanet ( date, np, pv, &jstat )], returning [(pv, jstat)]:
    +1 = warning: date outside 1000-3000, 0 = OK,
    -1 = illegal NP (outside 1-9), -2 = solution didn't converge. *)
Definition slaPlanet (date : R) (np : Z) (pv : list R) : list R * Z :=
  (* Validate the planet number. *)
  if ((np <? 1) || (np >? 9))%Z then
    let jstat := (-1)%Z in
    let pv := for_up 0 6 (fun i pv => upd i 0.0 pv) pv in
    (pv, jstat)
  else
    let ip := (np - 1)%Z in
    (* Separate algorithms for Pluto and the rest. *)
    if negb (np =? 9)%Z then planet_mercury_to_neptune date ip pv
    else planet_pluto date pv.

End WithCollaborators.

(** Two stand-ins for the elements-to-state routine, to run [slaPlanet]
    on concrete inputs: one leaves the vector alone and reports success,
    the other leaves it alone and reports a numerical error. *)
Definition planel_idle
  (date : R) (jform : Z) (epoch orbinc anode perih aorq e aorl dm : R)
  (pv : list R) : list R * Z := (pv, 0%Z).

Definition planel_failing
  (date : R) (jform : Z) (epoch orbinc anode perih aorq e aorl dm : R)
  (pv : list R) : list R * Z := (pv, (-5)%Z).

End Planet.

(** ** Further operations on vectors and matrices *)

Definition vec3_opp (v : vec3) : vec3 :=
  let '(v0, v1, v2) := v in (- v0, - v1, - v2).

(** Matrix times column vector. *)
Definition mat3_apply (m : mat3) (v : vec3) : vec3 :=
  let '(r0, r1, r2) := m in (dot3 r0 v, dot3 r1 v, dot3 r2 v).

Definition mat3_det (m : mat3) : R :=
  let '((m00, m01, m02), (m10, m11, m12), (m20, m21, m22)) := m in
  m00 * (m11 * m22 - m12 * m21)
  - m01 * (m10 * m22 - m12 * m20)
  + m02 * (m10 * m21 - m11 * m20).

Definition mat3_trace (m : mat3) : R :=
  let '((m00, _, _), (_, m11, _), (_, _, m22)) := m in m00 + m11 + m22.

(** The matrix that lines 56-64 of av2m.cpp build from the Euler axis
    [(x, y, z)] and from [s], [c] and [w]. *)
Definition av2m_matrix (x y z s c w : R) : mat3 :=
  ((x * x * w + c, x * y * w + z * s, x * z * w - y * s),
   (x * y * w - z * s, y * y * w + c, y * z * w + x * s),
   (x * z * w + y * s, y * z * w - x * s, z * z * w + c)).

(** ** The periodic series of the Pluto part *)

(** Lines 601-637 of planet.c: the accumulator arrays [(wlbr, wlbrd)]
    after the loop over Meeus's table, at [t] Julian centuries from
    J2000. *)
Definition pluto_series (DD2R t : R) : list R * list R :=
  let dj := (Planet.dj0 + Planet.djd * t) * DD2R in
  let ds := (Planet.ds0 + Planet.dsd * t) * DD2R in
  let dp := (Planet.dp0 + Planet.dpd * t) * DD2R in
  let '(wlbr, wlbrd) :=
    for_up 0 3
      (fun i st => (upd i 0.0 (fst st), upd i 0.0 (snd st)))
      ([0; 0; 0], [0; 0; 0]) in
  for_up 0 (length Planet.term) (Planet.pluto_term DD2R dj ds dp)
         (wlbr, wlbrd).

(** ** Magnitude of a trigonometric series *)

(** The sum of the magnitudes of the four coefficients of row [j] of a
    series table, and its total over the first [n] rows. *)
Definition coef_bound (tbl : list (list R)) (j : nat) : R :=
  Rabs (at2 0 tbl j 0) + Rabs (at2 0 tbl j 1)
  + Rabs (at2 0 tbl j 2) + Rabs (at2 0 tbl j 3).

Definition series_bound (tbl : list (list R)) (n : nat) : R :=
  for_down n (fun j acc => acc + coef_bound tbl j) 0.

(** ** trkModule.cpp : registration of the tracking module with its caller *)

Module TrkModule.

(** [HRESULT] and the macros [FAILED] and [SUCCEEDED] of the platform:
    a negative value is a failure. *)
Definition HRESULT : Type := Z.
Definition S_OK : HRESULT := 0%Z.
Definition FAILED (hr : HRESULT) : bool := (hr <? 0)%Z.
Definition SUCCEEDED (hr : HRESULT) : bool := (0 <=? hr)%Z.

(** The calls the module makes on other objects, in the order made. *)
Inductive call : Type :=
| QueryCaller     (* m_spSrv->TcQuerySmartObjectInterface(m_spCyclicCaller) *)
| AddModule       (* m_spCyclicCaller->AddModule(...) *)
| RemoveModule    (* m_spCyclicCaller->RemoveModule(...) *)
| QueryRTime.     (* m_spSrv->TcQuerySmartObjectInterface(m_spRTime) *)

Definition call_eqb (a b : call) : bool :=
  match a, b with
  | QueryCaller, QueryCaller | AddModule, AddModule
  | RemoveModule, RemoveModule | QueryRTime, QueryRTime => true
  | _, _ => false
  end.

(** The members the transitions read and write: whether the caller
    pointer carries an object id, whether each of the two smart pointers
    holds an interface (is not NULL), and the calls made so far. *)
Record module : Type := mk_module
  { caller_has_oid : bool;
    m_spCyclicCaller : bool;
    m_spRTime : bool;
    calls : list call }.

Definition set_caller (p : bool) (m : module) : module :=
  mk_module (caller_has_oid m) p (m_spRTime m) (calls m).

Definition set_rtime (p : bool) (m : module) : module :=
  mk_module (caller_has_oid m) (m_spCyclicCaller m) p (calls m).

Definition made (c : call) (m : module) : module :=
  mk_module (caller_has_oid m) (m_spCyclicCaller m) (m_spRTime m)
            (calls m ++ [c]).

Section WithEnvironment.

(** The error code for a missing object id, from the platform headers. *)
Variable ADS_E_INVALIDOBJID : HRESULT.

(** What the environment answers: the result of each query together with
    whether the queried pointer holds an interface afterwards, and the
    result of [AddModule]. *)
Variable query_caller : HRESULT * bool.
Variable add_module : HRESULT.
Variable query_rtime : HRESULT * bool.

(** Lines 211-234; the trace output is left out. *)
Definition AddModuleToCaller (m : module) : module * HRESULT :=
  let hr := S_OK in
  if caller_has_oid m then
    let hr := fst query_caller in
    let m := set_caller (snd query_caller) (made QueryCaller m) in
    if SUCCEEDED hr then
      let hr := add_module in
      let m := made AddModule m in
      if FAILED hr then (set_caller false m, hr) else (m, hr)
    else (m, hr)
  else
    let hr := ADS_E_INVALIDOBJID in
    (m, hr).

(** Lines 237-248. *)
Definition RemoveModuleFromCaller (m : module) : module :=
  let m := if m_spCyclicCaller m then made RemoveModule m else m in
  set_caller false m.

(** Lines 124-149: state transition from SAFEOP to OP. *)
Definition SetObjStateSO (m : module) : module * HRESULT :=
  let hr := S_OK in
  (* If following call is successful the CycleUpdate method will be
     called *)
  let '(m, hr) := if FAILED hr then (m, hr) else AddModuleToCaller m in
  (* get reference to TC-RTime-Instance *)
  let '(m, hr) :=
    if FAILED hr then (m, hr)
    else (set_rtime (snd query_rtime) (made QueryRTime m), fst query_rtime) in
  (* Cleanup if transition failed at some stage *)
  let m :=
    if FAILED hr then set_rtime false (RemoveModuleFromCaller m) else m in
  (m, hr).

(** Lines 153-166: state transition from OP to SAFEOP. *)
Definition SetObjStateOS (m : module) : module * HRESULT :=
  let hr := S_OK in
  let m := RemoveModuleFromCaller m in
  let m := set_rtime false m in
  (m, hr).

End WithEnvironment.

End TrkModule.

(** ** Floating-point values with their infinities and not-a-number *)

(** The routines above take [float] and [double] for the reals.  Two
    properties need more: what happens when an intermediate result leaves
    the finite range.  Here a value is a real number, an infinity or
    not-a-number; an arithmetic result whose magnitude exceeds the largest
    finite value of the format becomes an infinity, and the infinities and
    not-a-number combine as the floating-point standard lays down.  The
    rounding of finite results and the sign of zero are not modelled. *)

Module Xfloat.

Inductive xfloat : Type :=
| XFin (r : R)        (* a finite value *)
| XInf (neg : bool)   (* +infinity ([false]) or -infinity ([true]) *)
| XNaN.               (* not-a-number *)

(** The largest finite [float] and [double]. *)
Definition FLT_MAX : R := 340282346638528859811704183484516925440.
Definition DBL_MAX : R := IZR ((2 ^ 53 - 1) * 2 ^ 971).

Definition Rneg (r : R) : bool := Rltb r 0.

(** The value of a real result in a format of largest finite value [max]. *)
Definition xround (max : R) (r : R) : xfloat :=
  if Rltb max (Rabs r) then XInf (Rneg r) else XFin r.

Definition xopp (a : xfloat) : xfloat :=
  match a with
  | XFin r => XFin (- r)
  | XInf s => XInf (negb s)
  | XNaN => XNaN
  end.

Definition xadd (max : R) (a b : xfloat) : xfloat :=
  match a, b with
  | XNaN, _ | _, XNaN => XNaN
  | XInf s, XInf s' => if Bool.eqb s s' then XInf s else XNaN
  | XInf s, XFin _ | XFin _, XInf s => XInf s
  | XFin x, XFin y => xround max (x + y)
  end.

Definition xsub (max : R) (a b : xfloat) : xfloat := xadd max a (xopp b).

Definition xmul (max : R) (a b : xfloat) : xfloat :=
  match a, b with
  | XNaN, _ | _, XNaN => XNaN
  | XInf s, XInf s' => XInf (xorb s s')
  | XInf s, XFin y | XFin y, XInf s =>
      if Rneqb y 0 then XInf (xorb s (Rneg y)) else XNaN
  | XFin x, XFin y => xround max (x * y)
  end.

Definition xdiv (max : R) (a b : xfloat) : xfloat :=
  match a, b with
  | XNaN, _ | _, XNaN => XNaN
  | XInf _, XInf _ => XNaN
  | XInf s, XFin y => XInf (xorb s (Rneg y))
  | XFin _, XInf _ => XFin 0
  | XFin x, XFin y =>
      if Rneqb y 0 then xround max (x / y)
      else if Rneqb x 0 then XInf (Rneg x) else XNaN
  end.

(** The C relational operators: every comparison with not-a-number is
    false. *)
Definition xlt (a b : xfloat) : bool :=
  match a, b with
  | XNaN, _ | _, XNaN => false
  | XFin x, XFin y => Rltb x y
  | XFin _, XInf s => negb s
  | XInf s, XFin _ => s
  | XInf s, XInf s' => s && negb s'
  end.

Definition xle (a b : xfloat) : bool :=
  match a, b with
  | XNaN, _ | _, XNaN => false
  | XFin x, XFin y => Rleb x y
  | XFin _, XInf s => negb s
  | XInf s, XFin _ => s
  | XInf s, XInf s' => s || negb s'
  end.

Definition xgt (a b : xfloat) : bool := xlt b a.
Definition xge (a b : xfloat) : bool := xle b a.

(** Sine and cosine: not-a-number outside the finite values. *)
Definition xsin (a : xfloat) : xfloat :=
  match a with XFin r => XFin (sin r) | _ => XNaN end.

Definition xcos (a : xfloat) : xfloat :=
  match a with XFin r => XFin (cos r) | _ => XNaN end.

Definition xfloor (a : xfloat) : xfloat :=
  match a with XFin r => XFin (IZR (Int_part r)) | _ => a end.

(** The cast [(float)] of a [double]. *)
Definition to_float (a : xfloat) : xfloat :=
  match a with XFin r => xround FLT_MAX r | _ => a end.


End Xfloat.

(** ** s2tp.cpp over the floating-point values *)

Module S2tpX.
Import Xfloat.

(** The [float] that the literal [1e-6f] denotes: 8796093 / 2^43, a little
    below one millionth. *)
Definition TINY : R := 8796093 / 8796093022208.

(** The [float] that the literal [3e38f] denotes. *)
Definition FLT_3E38 : R := 300000000549775575777803994281145270272.

Definition fadd : xfloat -> xfloat -> xfloat := xadd FLT_MAX.
Definition fsub : xfloat -> xfloat -> xfloat := xsub FLT_MAX.
Definition fmul : xfloat -> xfloat -> xfloat := xmul FLT_MAX.
Definition fdiv : xfloat -> xfloat -> xfloat := xdiv FLT_MAX.

(** The value of [denom] after line 48. *)
Definition s2tp_denom (ra dec raz decz : xfloat) : xfloat :=
  let sdecz := to_float (xsin decz) in
  let sdec := to_float (xsin dec) in
  let cdecz := to_float (xcos decz) in
  let cdec := to_float (xcos dec) in
  let radif := fsub ra raz in
  let cradif := to_float (xcos radif) in
  fadd (fmul sdec sdecz) (fmul (fmul cdec cdecz) cradif).

(** The [if] chain of lines 51-61. *)
Definition s2tp_classify (denom : xfloat) : Z * xfloat :=
  if xgt denom (XFin TINY) then (0%Z, denom)
  else if xge denom (XFin 0.0) then (1%Z, XFin TINY)
  else if xgt denom (XFin (- TINY)) then (2%Z, XFin (- TINY))
  else (3%Z, denom).

(** Returns [(xi, eta, j)]. *)
Definition slaS2tp (ra dec raz decz : xfloat) : xfloat * xfloat * Z :=
  (* Trig functions *)
  let sdecz := to_float (xsin decz) in
  let sdec := to_float (xsin dec) in
  let cdecz := to_float (xcos decz) in
  let cdec := to_float (xcos dec) in
  let radif := fsub ra raz in
  let sradif := to_float (xsin radif) in
  let cradif := to_float (xcos radif) in
  (* Reciprocal of star vector length to tangent plane *)
  let denom := fadd (fmul sdec sdecz) (fmul (fmul cdec cdecz) cradif) in
  (* Handle vectors too far from axis *)
  let '(j, denom) := s2tp_classify denom in
  (* Compute tangent plane coordinates (even in dubious cases) *)
  let xi := fdiv (fmul cdec sradif) denom in
  let eta := fdiv (fsub (fmul sdec cdecz) (fmul (fmul cdec sdecz) cradif))
                  denom in
  (xi, eta, j).

(** The denominator in force when lines 64-65 divide. *)
Definition s2tp_divisor (ra dec raz decz : xfloat) : xfloat :=
  snd (s2tp_classify (s2tp_denom ra dec raz decz)).

End S2tpX.

(** ** planet.c over the floating-point values: the two reduced longitudes *)

Module PlanetX.
Import Xfloat.

Definition dsub : xfloat -> xfloat -> xfloat := xsub DBL_MAX.
Definition dmul : xfloat -> xfloat -> xfloat := xmul DBL_MAX.
Definition ddiv : xfloat -> xfloat -> xfloat := xdiv DBL_MAX.

(** Modelled from the spec: the macros [D2PI] and [dmod] come from the
    macro header, which is not among the sources.  The specification
    gives the full turn as 2π and the reduction as a floor-based modulo:
    [dmod A B] is [A] less [B] times the floor of [A / B]. *)
Definition D2PI : xfloat := XFin (2 * PI).
Definition dmod (A B : xfloat) : xfloat := dsub A (dmul B (xfloor (ddiv A B))).



Section WithSlamac.

(** Arc seconds to radians, from the macro header. *)
Variable DAS2R : R.





End WithSlamac.


End PlanetX.

(** * Properties *)

Import Cmath.

(** ** Comparison lemmas *)

Lemma Rltb_true_iff (x y : R) : Rltb x y = true <-> x < y.
Proof. unfold Rltb; destruct (Rlt_dec x y); split; intros; try discriminate; tauto. Qed.

Lemma Rltb_false_iff (x y : R) : Rltb x y = false <-> y <= x.
Proof.
  unfold Rltb; destruct (Rlt_dec x y); split; intros; try discriminate; try lra; reflexivity.
Qed.

Lemma Rleb_true_iff (x y : R) : Rleb x y = true <-> x <= y.
Proof. unfold Rleb; destruct (Rle_dec x y); split; intros; try discriminate; tauto. Qed.

Lemma Rleb_false_iff (x y : R) : Rleb x y = false <-> y < x.
Proof.
  unfold Rleb; destruct (Rle_dec x y); split; intros; try discriminate; try lra; reflexivity.
Qed.

Lemma Rneqb_true_iff (x y : R) : Rneqb x y = true <-> x <> y.
Proof.
  unfold Rneqb; destruct (Req_dec_T x y); split; intros; try discriminate; tauto.
Qed.

Lemma Rneqb_false_iff (x y : R) : Rneqb x y = false <-> x = y.
Proof.
  unfold Rneqb; destruct (Req_dec_T x y); split; intros; try discriminate; tauto.
Qed.

(** Case analysis on every real comparison in the goal. *)
Ltac cases_Rcmp :=
  unfold Rgtb, Rgeb, Rltb, Rleb, Rneqb in *;
  repeat match goal with
         | |- context [Rlt_dec ?x ?y] => destruct (Rlt_dec x y)
         | |- context [Rle_dec ?x ?y] => destruct (Rle_dec x y)
         | |- context [Req_dec_T ?x ?y] => destruct (Req_dec_T x y)
         end;
  cbn [orb andb negb] in *.

(** ** Spherical to Cartesian *)

Section Cs2cFacts.
Import Cs2c.

Lemma dot3_slaCs2c (a b : R) : dot3 (slaCs2c a b) (slaCs2c a b) = 1.
Proof.
  unfold slaCs2c, dot3, sin_, cos_.
  pose proof (sin2_cos2 a) as Ha. pose proof (sin2_cos2 b) as Hb.
  unfold Rsqr in Ha, Hb.
  replace (cos a * cos b * (cos a * cos b) + sin a * cos b * (sin a * cos b)
           + sin b * sin b)
    with ((sin a * sin a + cos a * cos a) * (cos b * cos b) + sin b * sin b)
    by ring.
  rewrite Ha. lra.
Qed.

(** C9.  For every pair of angles [(a, b)], [slaCs2c] returns the vector
    (cos a · cos b, sin a · cos b, sin b), and that vector has Euclidean
    norm 1. *)
Theorem slaCs2c_direction_cosines (a b : R) :
  slaCs2c a b = (cos a * cos b, sin a * cos b, sin b)
  /\ norm3 (slaCs2c a b) = 1.
Proof.
  split.
  - reflexivity.
  - unfold norm3. rewrite dot3_slaCs2c. exact sqrt_1.
Qed.

End Cs2cFacts.

(** ** Hours, minutes, seconds to days *)

Section Dtf2dFacts.
Import Dtf2d.

(** The sequence of overwriting assignments computes the priority order. *)
Lemma slaDtf2d_status_priority (ihour imin : Z) (sec : R) :
  snd (slaDtf2d ihour imin sec) = dtf2d_status_by_priority ihour imin sec.
Proof.
  unfold slaDtf2d, dtf2d_status_by_priority; cbn [snd].
  destruct ((ihour <? 0) || (ihour >? 23))%Z; [reflexivity |].
  destruct ((imin <? 0) || (imin >? 59))%Z; reflexivity.
Qed.

Lemma int_out_of_range (i hi : Z) :
  ((i <? 0) || (i >? hi))%Z = true <-> (i < 0 \/ i > hi)%Z.
Proof. rewrite orb_true_iff, Z.ltb_lt, Z.gtb_gt. tauto. Qed.

Lemma int_in_range (i hi : Z) :
  ((i <? 0) || (i >? hi))%Z = false <-> (0 <= i <= hi)%Z.
Proof. rewrite orb_false_iff, Z.ltb_ge, Z.gtb_ltb, Z.ltb_ge. tauto. Qed.

Lemma sec_out_of_range (sec : R) :
  Rltb sec 0.0 || Rgeb sec 60.0 = true <-> (sec < 0 \/ sec >= 60).
Proof.
  unfold Rgeb. rewrite orb_true_iff, Rltb_true_iff, Rleb_true_iff. lra.
Qed.

Lemma sec_in_range (sec : R) :
  Rltb sec 0.0 || Rgeb sec 60.0 = false <-> (0 <= sec < 60).
Proof.
  unfold Rgeb. rewrite orb_false_iff, Rltb_false_iff, Rleb_false_iff. lra.
Qed.

(** C5.  [slaDtf2d] always returns
    days = (3600·hour + 60·minute + second) / 86400.  Its status is 1
    (hours out of range) whenever the hour is outside [0,23], whatever
    the other fields; otherwise 2 (minutes out of range) whenever the
    minute is outside [0,59], whatever the seconds; otherwise 3 (seconds
    out of range) when sec < 0 or sec ≥ 60; otherwise 0. *)
Theorem slaDtf2d_days_and_status (ihour imin : Z) (sec : R) :
  let (days, j) := slaDtf2d ihour imin sec in
  days = (3600 * IZR ihour + 60 * IZR imin + sec) / 86400
  /\ ((ihour < 0 \/ ihour > 23)%Z -> j = 1%Z)
  /\ ((0 <= ihour <= 23)%Z -> (imin < 0 \/ imin > 59)%Z -> j = 2%Z)
  /\ ((0 <= ihour <= 23)%Z -> (0 <= imin <= 59)%Z ->
      (sec < 0 \/ sec >= 60) -> j = 3%Z)
  /\ ((0 <= ihour <= 23)%Z -> (0 <= imin <= 59)%Z -> 0 <= sec < 60 ->
      j = 0%Z).
Proof.
  pose proof (slaDtf2d_status_priority ihour imin sec) as Hj.
  destruct (slaDtf2d ihour imin sec) as [days j] eqn:E.
  cbn [snd] in Hj. subst j.
  split.
  - pose proof (f_equal fst E) as Hd. unfold slaDtf2d in Hd.
    cbn [fst] in Hd. subst days. unfold D2S. lra.
  - unfold dtf2d_status_by_priority.
    repeat split; intros;
      repeat match goal with
             | H : (_ < 0 \/ _ > _)%Z |- _ =>
                 apply int_out_of_range in H; rewrite H; clear H
             | H : (0 <= _ <= _)%Z |- _ =>
                 apply int_in_range in H; rewrite H; clear H
             | H : _ < 0 \/ _ >= 60 |- _ =>
                 apply sec_out_of_range in H; rewrite H; clear H
             | H : 0 <= _ < 60 |- _ =>
                 apply sec_in_range in H; rewrite H; clear H
             end; reflexivity.
Qed.

(** The two worked cases of the specification. *)
Example slaDtf2d_25_30_30 :
  slaDtf2d 25 30 30 = ((25 * 3600 + 30 * 60 + 30) / 86400, 1%Z).
Proof.
  unfold slaDtf2d. rewrite (proj2 (sec_in_range 30)) by lra.
  cbn. f_equal. unfold D2S. lra.
Qed.

Example slaDtf2d_12_70_70 : snd (slaDtf2d 12 70 70) = 2%Z.
Proof. unfold slaDtf2d. cbn [snd]. reflexivity. Qed.

End Dtf2dFacts.

(** ** Axial vector to rotation matrix *)

Section Av2mFacts.
Import Av2m.

(** Rodrigues' matrix of a unit axis [(x, y, z)] with [s] and [c] the
    sine and cosine of the angle is orthonormal. *)
Lemma rodrigues_orthonormal (x y z s c : R) :
  x * x + y * y + z * z = 1 ->
  s * s + c * c = 1 ->
  let w := 1.0 - c in
  let r : mat3 :=
    ((x * x * w + c, x * y * w + z * s, x * z * w - y * s),
     (x * y * w - z * s, y * y * w + c, y * z * w + x * s),
     (x * z * w + y * s, y * z * w - x * s, z * z * w + c)) in
  mat3_mul r (mat3_transpose r) = mat3_id.
Proof.
  intros Hu Hsc w r.
  assert (Hw : w = 1 - c) by (unfold w; lra).
  clearbody w. subst w.
  unfold r, mat3_mul, mat3_transpose, mat3_id, dot3.
  repeat apply f_equal2; nsatz.
Qed.

Lemma sum_squares_pos (x y z : R) :
  (x, y, z) <> vec3_zero -> 0 < x * x + y * y + z * z.
Proof.
  intros Hv.
  destruct (Req_dec x 0) as [Hx | Hx];
    [destruct (Req_dec y 0) as [Hy | Hy];
     [destruct (Req_dec z 0) as [Hz | Hz] | ] | ].
  - exfalso. apply Hv. subst. reflexivity.
  - nra.
  - nra.
  - nra.
Qed.

Lemma slaAv2m_null : slaAv2m vec3_zero = mat3_id.
Proof.
  unfold slaAv2m, vec3_zero, mat3_id, sqrt_, sin_, cos_.
  replace (0 * 0 + 0 * 0 + 0 * 0) with 0 by ring.
  rewrite sqrt_0, sin_0, cos_0.
  rewrite (proj2 (Rneqb_false_iff 0 0.0)) by lra.
  repeat apply f_equal2; lra.
Qed.

Lemma slaAv2m_orthonormal (axvec : vec3) :
  axvec <> vec3_zero ->
  mat3_mul (slaAv2m axvec) (mat3_transpose (slaAv2m axvec)) = mat3_id.
Proof.
  destruct axvec as [[x y] z]. intros Hv.
  pose proof (sum_squares_pos x y z Hv) as Hpos.
  unfold slaAv2m, sqrt_, sin_, cos_.
  set (n2 := x * x + y * y + z * z) in *.
  pose proof (sqrt_lt_R0 n2 Hpos) as Hphi.
  pose proof (sqrt_sqrt n2 (Rlt_le _ _ Hpos)) as Hsq.
  set (phi := sqrt n2) in *.
  rewrite (proj2 (Rneqb_true_iff phi 0.0)) by lra.
  apply rodrigues_orthonormal.
  - replace (x / phi * (x / phi) + y / phi * (y / phi) + z / phi * (z / phi))
      with (n2 / (phi * phi)) by (unfold n2; field; lra).
    rewrite Hsq. field. lra.
  - pose proof (sin2_cos2 phi) as H. unfold Rsqr in H. exact H.
Qed.

(** C8.  [slaAv2m] applied to the zero vector returns exactly the
    identity matrix, the guard of the division by the magnitude being
    false there; and for every nonzero axial vector the returned matrix
    [R] satisfies R·Rᵗ = I. *)
Theorem slaAv2m_identity_and_orthonormal :
  slaAv2m vec3_zero = mat3_id
  /\ Rneqb (sqrt_ (0 * 0 + 0 * 0 + 0 * 0)) 0.0 = false
  /\ forall axvec : vec3,
      axvec <> vec3_zero ->
      mat3_mul (slaAv2m axvec) (mat3_transpose (slaAv2m axvec)) = mat3_id.
Proof.
  split; [exact slaAv2m_null | split; [| exact slaAv2m_orthonormal]].
  apply Rneqb_false_iff. unfold sqrt_.
  replace (0 * 0 + 0 * 0 + 0 * 0) with 0 by ring.
  rewrite sqrt_0. lra.
Qed.

(** C8 at the axial vector (1, 0, 0): a rotation of one radian about x. *)
Lemma slaAv2m_orthonormal_witness :
  mat3_mul (slaAv2m (1, 0, 0)) (mat3_transpose (slaAv2m (1, 0, 0)))
  = mat3_id.
Proof.
  apply (proj2 (proj2 slaAv2m_identity_and_orthonormal) (1, 0, 0)).
  unfold vec3_zero. intros H. injection H as H. lra.
Defined.

End Av2mFacts.

(** ** Gnomonic projection *)

Section S2tpFacts.
Import S2tp.

Lemma TINY_pos : 0 < TINY.
Proof. unfold TINY. lra. Qed.

Lemma s2tp_classify_ok (d : R) : d > TINY -> s2tp_classify d = (0%Z, d).
Proof.
  intros H. unfold s2tp_classify. pose proof TINY_pos.
  cases_Rcmp; try reflexivity; lra.
Qed.

Lemma s2tp_classify_near_axis (d : R) :
  0 <= d <= TINY -> s2tp_classify d = (1%Z, TINY).
Proof.
  intros H. unfold s2tp_classify. pose proof TINY_pos.
  cases_Rcmp; try reflexivity; lra.
Qed.

Lemma s2tp_classify_antistar_on_plane (d : R) :
  - TINY < d < 0 -> s2tp_classify d = (2%Z, - TINY).
Proof.
  intros H. unfold s2tp_classify. pose proof TINY_pos.
  cases_Rcmp; try reflexivity; lra.
Qed.

Lemma s2tp_classify_antistar_too_far (d : R) :
  d <= - TINY -> s2tp_classify d = (3%Z, d).
Proof.
  intros H. unfold s2tp_classify. pose proof TINY_pos.
  cases_Rcmp; try reflexivity; lra.
Qed.

(** The four branches cover the line and keep the divisor away from 0. *)
Lemma s2tp_classify_divisor (d : R) : TINY <= Rabs (snd (s2tp_classify d)).
Proof.
  pose proof TINY_pos as HT.
  destruct (Rlt_le_dec TINY d) as [H1 | H1].
  - rewrite s2tp_classify_ok by lra. cbn [snd].
    rewrite Rabs_right; lra.
  - destruct (Rle_lt_dec 0 d) as [H2 | H2].
    + rewrite s2tp_classify_near_axis by lra. cbn [snd].
      rewrite Rabs_right; lra.
    + destruct (Rlt_le_dec (- TINY) d) as [H3 | H3].
      * rewrite s2tp_classify_antistar_on_plane by lra. cbn [snd].
        rewrite Rabs_left; lra.
      * rewrite s2tp_classify_antistar_too_far by lra. cbn [snd].
        rewrite Rabs_left; lra.
Qed.

(** [slaS2tp] in terms of the classification of its denominator. *)
Lemma slaS2tp_eq (ra dec raz decz : R) :
  slaS2tp ra dec raz decz =
  (cos dec * sin (ra - raz) / s2tp_divisor ra dec raz decz,
   (sin dec * cos decz - cos dec * sin decz * cos (ra - raz))
     / s2tp_divisor ra dec raz decz,
   fst (s2tp_classify (s2tp_denom ra dec raz decz))).
Proof.
  unfold slaS2tp, s2tp_divisor, s2tp_denom, sin_, cos_.
  destruct (s2tp_classify _) as [j d]. reflexivity.
Qed.

(** A projection whose denominator is exactly zero: the point a quarter
    turn along the equator from a tangent point on the equator. *)
Lemma s2tp_denom_quarter_turn : s2tp_denom (PI / 2) 0 0 0 = 0.
Proof.
  unfold s2tp_denom, sin_, cos_.
  rewrite Rminus_0_r, sin_0, cos_0, cos_PI2. ring.
Qed.

(** C2, as stated, fails: at a denominator of exactly zero the status is
    1 (star too far from axis) and the divisor is +TINY, not status 2
    (antistar on tangent plane) with divisor -TINY. *)
Lemma slaS2tp_zero_denom_is_near_axis :
  s2tp_denom (PI / 2) 0 0 0 = 0
  /\ s2tp_status (slaS2tp (PI / 2) 0 0 0) = 1%Z
  /\ s2tp_status (slaS2tp (PI / 2) 0 0 0) <> 2%Z
  /\ s2tp_divisor (PI / 2) 0 0 0 = TINY
  /\ s2tp_divisor (PI / 2) 0 0 0 <> - TINY.
Proof.
  pose proof TINY_pos as HT.
  assert (Hc : s2tp_classify (s2tp_denom (PI / 2) 0 0 0) = (1%Z, TINY)).
  { rewrite s2tp_denom_quarter_turn. apply s2tp_classify_near_axis. lra. }
  assert (Hs : s2tp_status (slaS2tp (PI / 2) 0 0 0) = 1%Z).
  { rewrite slaS2tp_eq. unfold s2tp_status. cbn [snd]. rewrite Hc.
    reflexivity. }
  assert (Hd : s2tp_divisor (PI / 2) 0 0 0 = TINY).
  { unfold s2tp_divisor. rewrite Hc. reflexivity. }
  repeat split.
  - exact s2tp_denom_quarter_turn.
  - exact Hs.
  - rewrite Hs. discriminate.
  - exact Hd.
  - rewrite Hd. lra.
Qed.

(** C2, amended.  With denom = sin(dec)sin(dec0) +
    cos(dec)cos(dec0)cos(ra-ra0) and ε = 1e-6, [slaS2tp] computes
    xi = cos(dec)sin(ra-ra0)/d' and
    eta = (sin(dec)cos(dec0) - cos(dec)sin(dec0)cos(ra-ra0))/d' in every
    branch, where the status and the divisor d' are: 0 and denom if
    denom > ε; 1 and ε if 0 ≤ denom ≤ ε; 2 and -ε if -ε < denom < 0;
    3 and denom if denom ≤ -ε.  In particular a denominator of exactly
    zero gives status 1 and the divisor +ε. *)
Theorem slaS2tp_four_way_classification (ra dec raz decz : R) :
  let denom := s2tp_denom ra dec raz decz in
  let d' := s2tp_divisor ra dec raz decz in
  let r := slaS2tp ra dec raz decz in
  denom = sin dec * sin decz + cos dec * cos decz * cos (ra - raz)
  /\ TINY = 1e-6
  /\ s2tp_xi r = cos dec * sin (ra - raz) / d'
  /\ s2tp_eta r
     = (sin dec * cos decz - cos dec * sin decz * cos (ra - raz)) / d'
  /\ (denom > TINY -> s2tp_status r = 0%Z /\ d' = denom)
  /\ (0 <= denom <= TINY -> s2tp_status r = 1%Z /\ d' = TINY)
  /\ (- TINY < denom < 0 -> s2tp_status r = 2%Z /\ d' = - TINY)
  /\ (denom <= - TINY -> s2tp_status r = 3%Z /\ d' = denom)
  /\ (denom = 0 -> s2tp_status r = 1%Z /\ d' = TINY).
Proof.
  intros denom d' r. pose proof TINY_pos as HT.
  unfold r, s2tp_status, s2tp_xi, s2tp_eta. rewrite slaS2tp_eq.
  cbn [fst snd]. fold d'. unfold d', s2tp_divisor. fold denom.
  do 4 (split; [reflexivity |]).
  split; [| split; [| split; [| split]]]; intros H.
  - rewrite s2tp_classify_ok by exact H. split; reflexivity.
  - rewrite s2tp_classify_near_axis by exact H. split; reflexivity.
  - rewrite s2tp_classify_antistar_on_plane by exact H. split; reflexivity.
  - rewrite s2tp_classify_antistar_too_far by exact H. split; reflexivity.
  - rewrite s2tp_classify_near_axis by lra. split; reflexivity.
Qed.

End S2tpFacts.

(** ** Loops *)

(** A pass counter carried next to the state of a count-down loop ends at
    the number of passes the loop was started with. *)
Lemma for_down_counted {A : Type} (body : nat -> A -> A) (n k : nat) (s : A) :
  for_down n (fun j st => (S (fst st), body j (snd st))) (k, s)
  = ((n + k)%nat, for_down n body s).
Proof.
  revert k s. induction n as [| n IH]; intros k s.
  - reflexivity.
  - cbn [for_down fst snd]. rewrite IH. f_equal. lia.
Qed.

Lemma rows_have_length {A : Type} (w : nat) (tbl : list (list A)) :
  forallb (fun row => Nat.eqb (length row) w) tbl = true ->
  Forall (fun row => length row = w) tbl.
Proof.
  intros H. apply Forall_forall. intros row Hin.
  rewrite forallb_forall in H. apply Nat.eqb_eq. exact (H row Hin).
Qed.

(** ** Nutation series *)

Section NutcFacts.
Import Nutc.

Lemma na_shape : length na = 194%nat /\ Forall (fun row => length row = 9%nat) na.
Proof. split; [reflexivity | apply rows_have_length; reflexivity]. Qed.

Lemma psi_shape : length psi = 194%nat /\ Forall (fun row => length row = 4%nat) psi.
Proof. split; [reflexivity | apply rows_have_length; reflexivity]. Qed.

Lemma eps_shape : length eps = 194%nat /\ Forall (fun row => length row = 4%nat) eps.
Proof. split; [reflexivity | apply rows_have_length; reflexivity]. Qed.

Lemma nterms_eq : nterms = 194%Z.
Proof.
  unfold nterms, sizeof_na. rewrite (proj1 na_shape). reflexivity.
Qed.

(** C3, as stated, fails: the table does not have 263 terms. *)
Lemma nutc_table_is_not_263_terms :
  length na <> 263%nat /\ nterms <> 263%Z.
Proof.
  split.
  - rewrite (proj1 na_shape). discriminate.
  - rewrite nterms_eq. discriminate.
Qed.

(** C3, amended.  The nutation series table evaluated by [slaNutc]
    contains exactly 194 terms, each with a 9-integer multiplier set
    over the nine fundamental angles plus four longitude and four
    obliquity coefficients, and the accumulation loop makes exactly 194
    passes for every epoch. *)
Theorem nutc_table_has_194_terms :
  nterms = 194%Z
  /\ (length na = 194%nat /\ Forall (fun row => length row = 9%nat) na)
  /\ (length psi = 194%nat /\ Forall (fun row => length row = 4%nat) psi)
  /\ (length eps = 194%nat /\ Forall (fun row => length row = 4%nat) eps)
  /\ forall (t : R) (ang : list R) (acc : R * R),
      nutc_series_counted t ang acc
      = (194%nat, for_down (Z.to_nat nterms) (nutc_term t ang) acc).
Proof.
  split; [exact nterms_eq |].
  split; [exact na_shape |].
  split; [exact psi_shape |].
  split; [exact eps_shape |].
  intros t ang acc. unfold nutc_series_counted.
  rewrite for_down_counted. rewrite nterms_eq. reflexivity.
Qed.

End NutcFacts.

(** ** Planetary ephemeris *)

Section PlanetFacts.
Import Planet.

Variables DD2R DAS2R : R.
Variable slaPlanel :
  R -> Z -> R -> R -> R -> R -> R -> R -> R -> R -> list R -> list R * Z.

Lemma D2PI_pos : 0 < D2PI.
Proof. unfold D2PI. pose proof PI_RGT_0. lra. Qed.


Lemma np_in_range (np : Z) :
  (1 <= np <= 9)%Z -> ((np <? 1) || (np >? 9))%Z = false.
Proof. intros H. rewrite orb_false_iff, Z.ltb_ge, Z.gtb_ltb, Z.ltb_ge. lia. Qed.

Lemma np_out_of_range (np : Z) :
  (np < 1 \/ np > 9)%Z -> ((np <? 1) || (np >? 9))%Z = true.
Proof. intros H. rewrite orb_true_iff, Z.ltb_lt, Z.gtb_gt. lia. Qed.

(** For bodies 1-8 the routine is its Mercury-through-Neptune part. *)
Lemma slaPlanet_major (date : R) (np : Z) (pv : list R) :
  (1 <= np <= 8)%Z ->
  slaPlanet DD2R DAS2R slaPlanel date np pv
  = planet_mercury_to_neptune DAS2R slaPlanel date (np - 1) pv.
Proof.
  intros H. unfold slaPlanet.
  rewrite np_in_range by lia.
  replace (np =? 9)%Z with false by (symmetry; apply Z.eqb_neq; lia).
  reflexivity.
Qed.

Lemma slaPlanet_pluto (date : R) (pv : list R) :
  slaPlanet DD2R DAS2R slaPlanel date 9 pv = planet_pluto DD2R date pv.
Proof. reflexivity. Qed.

(** The status of the Pluto part is fixed by the epoch alone. *)
Lemma planet_pluto_status (date : R) (pv : list R) :
  snd (planet_pluto DD2R date pv)
  = let t := (date - 51544.5) / 36525.0 in
    if Rgeb t (-1.15) && Rleb t 1.0 then 0%Z else (-1)%Z.
Proof.
  unfold planet_pluto.
  destruct (for_up 0 3 _ _) as [wlbr wlbrd].
  destruct (for_up 0 (length term) _ _) as [wlbr' wlbrd'].
  reflexivity.
Qed.

(** C6.  For every body 1-8 and every epoch, with [t] the Julian
    millennia since J2000: the state vector is the one the
    elements-to-state routine returns; the status is -2 (solution didn't
    converge) if that routine reports a negative status, whatever the
    epoch; otherwise +1 (date out of range) if |t| > 1; otherwise 0. *)
Theorem slaPlanet_status_mercury_to_neptune
  (date : R) (np : Z) (pv : list R) :
  (1 <= np <= 8)%Z ->
  let t := (date - 51544.5) / 365250.0 in
  let r := planel_call slaPlanel date (planet_elements DAS2R (Z.to_nat (np - 1)) t) pv in
  fst (slaPlanet DD2R DAS2R slaPlanel date np pv) = fst r
  /\ ((snd r < 0)%Z -> snd (slaPlanet DD2R DAS2R slaPlanel date np pv) = (-2)%Z)
  /\ ((0 <= snd r)%Z -> Rabs t > 1 -> snd (slaPlanet DD2R DAS2R slaPlanel date np pv) = 1%Z)
  /\ ((0 <= snd r)%Z -> Rabs t <= 1 -> snd (slaPlanet DD2R DAS2R slaPlanel date np pv) = 0%Z).
Proof.
  intros Hnp t r.
  rewrite slaPlanet_major by exact Hnp.
  unfold planet_mercury_to_neptune. fold t. fold r.
  destruct r as [pv' j]. cbn [fst snd]. unfold fabs_.
  split; [reflexivity |]. split; [| split].
  - intros Hj. apply Z.ltb_lt in Hj. rewrite Hj. reflexivity.
  - intros Hj Ht. apply Z.ltb_ge in Hj. rewrite Hj.
    rewrite (proj2 (Rleb_false_iff _ _)) by lra. reflexivity.
  - intros Hj Ht. apply Z.ltb_ge in Hj. rewrite Hj.
    rewrite (proj2 (Rleb_true_iff _ _)) by lra. reflexivity.
Qed.

(** C7.  For every epoch and every body number outside [1,9],
    [slaPlanet] returns status -1 (illegal NP) with the all-zero
    6-component state vector, whatever the epoch, the previous content of
    the vector and the elements-to-state routine. *)
Theorem slaPlanet_illegal_np (date : R) (np : Z) (pv : list R) :
  length pv = 6%nat ->
  (np < 1 \/ np > 9)%Z ->
  slaPlanet DD2R DAS2R slaPlanel date np pv = ([0; 0; 0; 0; 0; 0], (-1)%Z).
Proof.
  intros Hlen Hnp. unfold slaPlanet.
  rewrite np_out_of_range by exact Hnp.
  do 7 (destruct pv as [| ? pv]; try discriminate Hlen).
  cbn [for_up seq fold_left upd].
  f_equal. repeat (f_equal; try lra).
Qed.

Lemma upd_length {A : Type} (i : nat) (v : A) (arr : list A) :
  length (upd i v arr) = length arr.
Proof.
  revert i. induction arr as [| hd tl IH]; intros [| i]; cbn; congruence.
Qed.

(** The Pluto part writes into the caller's vector, whatever the epoch. *)
Lemma planet_pluto_length (date : R) (pv : list R) :
  length (fst (slaPlanet DD2R DAS2R slaPlanel date 9 pv)) = length pv.
Proof.
  rewrite slaPlanet_pluto. unfold planet_pluto.
  destruct (for_up 0 3 _ _) as [wlbr wlbrd].
  destruct (for_up 0 (length term) _ _) as [wlbr' wlbrd'].
  cbn [fst]. now rewrite !upd_length.
Qed.

(** Outside [-1.15, 1.0] Julian centuries from J2000 the Pluto part sets
    the status to -1. *)
Lemma slaPlanet_pluto_remote_epoch (date : R) (pv : list R) :
  let t := (date - 51544.5) / 36525.0 in
  t < -1.15 \/ t > 1.0 ->
  snd (slaPlanet DD2R DAS2R slaPlanel date 9 pv) = (-1)%Z.
Proof.
  intros t Ht. rewrite slaPlanet_pluto, planet_pluto_status.
  cbv zeta. fold t.
  destruct Ht as [Ht | Ht].
  - unfold Rgeb. rewrite (proj2 (Rleb_false_iff _ _)) by lra. reflexivity.
  - rewrite (proj2 (Rleb_false_iff t _)) by lra.
    rewrite andb_false_r. reflexivity.
Qed.

(** C1.  At MJD 124594.5, two Julian centuries after J2000 and so
    outside [-1.15, 1.0], [slaPlanet] for body 9 still fills the state
    vector but returns status -1: the value it returns for an illegal body
    number, and not the +1 of the date-out-of-range warning. *)
Theorem slaPlanet_pluto_remote_epoch_status (pv : list R) :
  (124594.5 - 51544.5) / 36525.0 = 2
  /\ length (fst (slaPlanet DD2R DAS2R slaPlanel 124594.5 9 pv)) = length pv
  /\ snd (slaPlanet DD2R DAS2R slaPlanel 124594.5 9 pv) = (-1)%Z
  /\ snd (slaPlanet DD2R DAS2R slaPlanel 124594.5 9 pv) <> 1%Z
  /\ snd (slaPlanet DD2R DAS2R slaPlanel 124594.5 9 pv)
     = snd (slaPlanet DD2R DAS2R slaPlanel 124594.5 0 pv).
Proof.
  assert (H : snd (slaPlanet DD2R DAS2R slaPlanel 124594.5 9 pv) = (-1)%Z)
    by (apply slaPlanet_pluto_remote_epoch; right; lra).
  split; [lra |]. split; [apply planet_pluto_length |].
  split; [exact H |]. split.
  - rewrite H. discriminate.
  - rewrite H. reflexivity.
Qed.

End PlanetFacts.

(** ** The planetary theorems at concrete inputs *)

Section PlanetWitnesses.
Import Planet.

(** C6 at the Earth-Moon barycentre, J2000, with a collaborator that
    reports a failure: the status is -2. *)
Lemma slaPlanet_status_mercury_to_neptune_witness :
  snd (slaPlanet (PI / 180) (PI / 648000) planel_failing 51544.5 3
                 [0; 0; 0; 0; 0; 0]) = (-2)%Z.
Proof.
  apply (proj1 (proj2 (slaPlanet_status_mercury_to_neptune
                         (PI / 180) (PI / 648000) planel_failing 51544.5 3
                         [0; 0; 0; 0; 0; 0] ltac:(lia)))).
  unfold planel_call, planel_failing. cbn [snd]. lia.
Defined.

(** C7 at body number 0. *)
Lemma slaPlanet_illegal_np_witness :
  slaPlanet (PI / 180) (PI / 648000) planel_idle 51544.5 0
            [1; 2; 3; 4; 5; 6]
  = ([0; 0; 0; 0; 0; 0], (-1)%Z).
Proof.
  apply (slaPlanet_illegal_np
           (PI / 180) (PI / 648000) planel_idle 51544.5 0
           [1; 2; 3; 4; 5; 6]).
  - reflexivity.
  - lia.
Defined.

End PlanetWitnesses.

(** * Further properties of the routines *)

Lemma sum3_squares_nonneg (x y z : R) : 0 <= x * x + y * y + z * z.
Proof.
  pose proof (Rle_0_sqr x). pose proof (Rle_0_sqr y). pose proof (Rle_0_sqr z).
  unfold Rsqr in *. lra.
Qed.

(** Componentwise equality of tuples. *)
Ltac pair_ext :=
  repeat match goal with
         | |- (_, _) = (_, _) => apply f_equal2
         end.

(** ** Direction cosines *)

Section Cs2cMore.
Import Cs2c.

(** At a latitude of a quarter turn the direction is the pole, whatever
    the longitude. *)
Theorem slaCs2c_poles (a : R) :
  slaCs2c a (PI / 2) = (0, 0, 1) /\ slaCs2c a (- (PI / 2)) = (0, 0, -1).
Proof.
  unfold slaCs2c, sin_, cos_.
  rewrite cos_neg, sin_neg, cos_PI2, sin_PI2.
  split; pair_ext; ring.
Qed.

(** The scalar product of two directions is the cosine formula of
    spherical trigonometry. *)
Lemma dot3_slaCs2c_pair (a1 b1 a2 b2 : R) :
  dot3 (slaCs2c a1 b1) (slaCs2c a2 b2)
  = sin b1 * sin b2 + cos b1 * cos b2 * cos (a1 - a2).
Proof.
  unfold slaCs2c, dot3, sin_, cos_. rewrite cos_minus. ring.
Qed.

(** In exact arithmetic the denominator of the gnomonic projection is the
    scalar product of the direction of the point with the direction of
    the tangent point. *)
Theorem s2tp_denom_is_scalar_product (ra dec raz decz : R) :
  S2tp.s2tp_denom ra dec raz decz
  = dot3 (slaCs2c ra dec) (slaCs2c raz decz).
Proof. rewrite dot3_slaCs2c_pair. reflexivity. Qed.

End Cs2cMore.

(** ** Rotation matrices *)

Lemma vec3_eq_dec (u v : vec3) : {u = v} + {u <> v}.
Proof.
  destruct u as [[u0 u1] u2], v as [[v0 v1] v2].
  destruct (Req_dec_T u0 v0) as [E0 | N0];
    [destruct (Req_dec_T u1 v1) as [E1 | N1];
     [destruct (Req_dec_T u2 v2) as [E2 | N2] | ] | ].
  - left. congruence.
  - right. congruence.
  - right. congruence.
  - right. congruence.
Qed.

Ltac vm_mat3 :=
  unfold mat3_mul, mat3_transpose, mat3_id, dot3;
  pair_ext; ring.

Section Av2mMore.
Import Av2m.

(** The routine in terms of the matrix of its last nine lines: for a
    nonzero axial vector the axis is the vector scaled to unit length. *)
Lemma slaAv2m_nonzero (x y z : R) :
  (x, y, z) <> vec3_zero ->
  let phi := sqrt (x * x + y * y + z * z) in
  0 < phi
  /\ phi * phi = x * x + y * y + z * z
  /\ slaAv2m (x, y, z)
     = av2m_matrix (x / phi) (y / phi) (z / phi) (sin phi) (cos phi)
                   (1.0 - cos phi).
Proof.
  intros Hv phi.
  pose proof (sum_squares_pos x y z Hv) as Hpos.
  assert (Hphi : 0 < phi) by (apply sqrt_lt_R0; exact Hpos).
  split; [exact Hphi |]. split.
  - apply sqrt_sqrt. lra.
  - unfold slaAv2m, sqrt_, sin_, cos_. fold phi.
    rewrite (proj2 (Rneqb_true_iff phi 0.0)) by lra. reflexivity.
Qed.

Lemma unit_axis (x y z phi : R) :
  0 < phi -> phi * phi = x * x + y * y + z * z ->
  x / phi * (x / phi) + y / phi * (y / phi) + z / phi * (z / phi) = 1.
Proof.
  intros Hphi Hsq.
  replace (x / phi * (x / phi) + y / phi * (y / phi) + z / phi * (z / phi))
    with ((x * x + y * y + z * z) / (phi * phi)) by (field; lra).
  rewrite <- Hsq. field. lra.
Qed.

Lemma sin2_cos2_mul (p : R) : sin p * sin p + cos p * cos p = 1.
Proof. pose proof (sin2_cos2 p) as H. unfold Rsqr in H. exact H. Qed.

(** Properties of the matrix of a unit axis. *)
Lemma av2m_matrix_unit (x y z s c : R) :
  x * x + y * y + z * z = 1 ->
  s * s + c * c = 1 ->
  let r := av2m_matrix x y z s c (1.0 - c) in
  mat3_apply r (x, y, z) = (x, y, z)
  /\ mat3_det r = 1
  /\ mat3_trace r = 1 + 2 * c
  /\ mat3_mul (mat3_transpose r) r = mat3_id.
Proof.
  intros Hu Hsc r. unfold r, av2m_matrix.
  replace (1.0 - c) with (1 - c) by lra.
  split; [| split; [| split]].
  - unfold mat3_apply, dot3. pair_ext; nsatz.
  - unfold mat3_det. nsatz.
  - unfold mat3_trace. nsatz.
  - unfold mat3_mul, mat3_transpose, mat3_id, dot3.
    pair_ext; nsatz.
Qed.

(** The opposite axial vector gives the transposed matrix. *)
Lemma slaAv2m_opp_transpose (axvec : vec3) :
  slaAv2m (vec3_opp axvec) = mat3_transpose (slaAv2m axvec).
Proof.
  destruct axvec as [[x y] z]. unfold vec3_opp, slaAv2m, sqrt_, sin_, cos_.
  replace (- x * - x + - y * - y + - z * - z) with (x * x + y * y + z * z)
    by ring.
  set (phi := sqrt (x * x + y * y + z * z)).
  destruct (Rneqb phi 0.0) eqn:E; unfold mat3_transpose.
  - apply Rneqb_true_iff in E. assert (Hphi : phi <> 0) by lra.
    pair_ext; field; exact Hphi.
  - pair_ext; ring.
Qed.

(** The rotation by the opposite axial vector undoes the rotation: the two
    matrices multiply to the identity in either order. *)
Theorem slaAv2m_opp_inverse (axvec : vec3) :
  mat3_mul (slaAv2m axvec) (slaAv2m (vec3_opp axvec)) = mat3_id
  /\ mat3_mul (slaAv2m (vec3_opp axvec)) (slaAv2m axvec) = mat3_id.
Proof.
  rewrite slaAv2m_opp_transpose.
  destruct (vec3_eq_dec axvec vec3_zero) as [E | Hv].
  - subst axvec. rewrite slaAv2m_null. split; vm_mat3.
  - split; [apply slaAv2m_orthonormal; exact Hv |].
    destruct axvec as [[x y] z].
    destruct (slaAv2m_nonzero x y z Hv) as (Hphi & Hsq & E). rewrite E.
    apply av2m_matrix_unit; [apply unit_axis; assumption | apply sin2_cos2_mul].
Qed.

(** The axial vector is left in place by its own rotation: it is the axis. *)
Theorem slaAv2m_fixes_axis (axvec : vec3) :
  mat3_apply (slaAv2m axvec) axvec = axvec.
Proof.
  destruct (vec3_eq_dec axvec vec3_zero) as [E | Hv].
  - subst axvec. rewrite slaAv2m_null.
    unfold mat3_apply, mat3_id, vec3_zero, dot3. pair_ext; ring.
  - destruct axvec as [[x y] z].
    destruct (slaAv2m_nonzero x y z Hv) as (Hphi & Hsq & E). rewrite E.
    set (phi := sqrt (x * x + y * y + z * z)) in *.
    pose proof (av2m_matrix_unit (x / phi) (y / phi) (z / phi)
                  (sin phi) (cos phi) (unit_axis x y z phi Hphi Hsq)
                  (sin2_cos2_mul phi)) as (Hfix & _).
    set (r := av2m_matrix _ _ _ _ _ _) in *.
    destruct r as [[r0 r1] r2]. unfold mat3_apply in *.
    injection Hfix as H0 H1 H2.
    assert (Hs : forall row : vec3,
               dot3 row (x, y, z) = phi * dot3 row (x / phi, y / phi, z / phi)).
    { intros [[a b] c]. unfold dot3. field. lra. }
    rewrite !Hs, H0, H1, H2. pair_ext; field; lra.
Qed.

(** The matrix is a proper rotation through the magnitude of the axial
    vector: its determinant is 1 and its trace is 1 + 2 cos |axvec|. *)
Theorem slaAv2m_det_trace (axvec : vec3) :
  mat3_det (slaAv2m axvec) = 1
  /\ mat3_trace (slaAv2m axvec) = 1 + 2 * cos (norm3 axvec).
Proof.
  destruct (vec3_eq_dec axvec vec3_zero) as [E | Hv].
  - subst axvec. rewrite slaAv2m_null.
    unfold mat3_det, mat3_trace, mat3_id, norm3, vec3_zero, dot3.
    replace (0 * 0 + 0 * 0 + 0 * 0) with 0 by ring.
    rewrite sqrt_0, cos_0. split; ring.
  - destruct axvec as [[x y] z].
    destruct (slaAv2m_nonzero x y z Hv) as (Hphi & Hsq & E). rewrite E.
    unfold norm3, dot3.
    set (phi := sqrt (x * x + y * y + z * z)) in *.
    pose proof (av2m_matrix_unit (x / phi) (y / phi) (z / phi)
                  (sin phi) (cos phi) (unit_axis x y z phi Hphi Hsq)
                  (sin2_cos2_mul phi)) as (_ & Hdet & Htr & _).
    split; assumption.
Qed.

(** About the z axis the matrix is the plane rotation of the frame, for
    either sign of the angle. *)
Lemma slaAv2m_about_z (theta : R) :
  slaAv2m (0, 0, theta)
  = ((cos theta, sin theta, 0), (- sin theta, cos theta, 0), (0, 0, 1)).
Proof.
  destruct (Req_dec theta 0) as [E | Hne].
  - subst theta. fold vec3_zero. rewrite slaAv2m_null, cos_0, sin_0.
    unfold mat3_id. pair_ext; ring.
  - assert (Hv : (0, 0, theta) <> vec3_zero).
    { unfold vec3_zero. intros H. injection H as H. contradiction. }
    destruct (slaAv2m_nonzero 0 0 theta Hv) as (Hphi & Hsq & E). rewrite E.
    set (phi := sqrt (0 * 0 + 0 * 0 + theta * theta)) in *.
    assert (Hcases : phi = theta \/ phi = - theta).
    { assert (H0 : (phi - theta) * (phi + theta) = 0) by nra.
      apply Rmult_integral in H0. destruct H0; [left | right]; lra. }
    unfold av2m_matrix.
    destruct Hcases as [Hp | Hp]; rewrite Hp in *.
    + replace (theta / theta) with 1 by (field; lra).
      pair_ext; try field; try lra.
    + rewrite sin_neg, cos_neg.
      replace (theta / - theta) with (-1) by (field; lra).
      pair_ext; try field; try lra.
Qed.

(** A rotation of the frame about the pole by [theta] lowers the
    longitude of every direction by [theta] and keeps its latitude. *)
Theorem slaAv2m_about_z_on_direction (theta a b : R) :
  mat3_apply (slaAv2m (0, 0, theta)) (Cs2c.slaCs2c a b)
  = Cs2c.slaCs2c (a - theta) b.
Proof.
  rewrite slaAv2m_about_z.
  unfold mat3_apply, Cs2c.slaCs2c, dot3, sin_, cos_.
  rewrite cos_minus, sin_minus. pair_ext; ring.
Qed.

End Av2mMore.

(** ** Gnomonic projection *)

Section S2tpMore.
Import S2tp.

(** The two numerators and the denominator are the components of a unit
    vector: the direction of the point in the frame of the tangent
    point. *)
Lemma s2tp_unit_vector (ra dec raz decz : R) :
  let n1 := cos dec * sin (ra - raz) in
  let n2 := sin dec * cos decz - cos dec * sin decz * cos (ra - raz) in
  let d := s2tp_denom ra dec raz decz in
  n1 * n1 + n2 * n2 + d * d = 1.
Proof.
  intros n1 n2 d. unfold n1, n2, d, s2tp_denom, sin_, cos_.
  pose proof (sin2_cos2_mul dec). pose proof (sin2_cos2_mul decz).
  pose proof (sin2_cos2_mul (ra - raz)).
  nsatz.
Qed.

(** Projecting the tangent point itself gives the origin of the plane,
    with status 0. *)
Theorem slaS2tp_tangent_point (raz decz : R) :
  slaS2tp raz decz raz decz = (0, 0, 0%Z).
Proof.
  pose proof TINY_pos as HT.
  assert (Hd : s2tp_denom raz decz raz decz = 1).
  { unfold s2tp_denom, sin_, cos_.
    replace (raz - raz) with 0 by ring. rewrite cos_0.
    pose proof (sin2_cos2_mul decz). lra. }
  assert (Hc : s2tp_classify (s2tp_denom raz decz raz decz) = (0%Z, 1)).
  { rewrite Hd. apply s2tp_classify_ok. unfold TINY. lra. }
  rewrite slaS2tp_eq. unfold s2tp_divisor. rewrite Hc. cbn [fst snd].
  replace (raz - raz) with 0 by ring. rewrite sin_0, cos_0.
  pair_ext; try reflexivity; field.
Qed.

(** Projecting the point opposite the tangent point gives the origin of
    the plane as well, with status 3: its denominator is -1, not 0. *)
Theorem slaS2tp_antipode (raz decz : R) :
  s2tp_denom (raz + PI) (- decz) raz decz = -1
  /\ slaS2tp (raz + PI) (- decz) raz decz = (0, 0, 3%Z).
Proof.
  pose proof TINY_pos as HT.
  assert (Hr : raz + PI - raz = PI) by ring.
  assert (Hd : s2tp_denom (raz + PI) (- decz) raz decz = -1).
  { unfold s2tp_denom, sin_, cos_.
    rewrite Hr, cos_PI, sin_neg, cos_neg.
    pose proof (sin2_cos2_mul decz). lra. }
  split; [exact Hd |].
  assert (Hc : s2tp_classify (s2tp_denom (raz + PI) (- decz) raz decz)
               = (3%Z, -1)).
  { rewrite Hd. apply s2tp_classify_antistar_too_far. unfold TINY. lra. }
  rewrite slaS2tp_eq. unfold s2tp_divisor. rewrite Hc. cbn [fst snd].
  rewrite Hr, sin_PI, cos_PI, sin_neg, cos_neg.
  pair_ext; try reflexivity; field.
Qed.

(** Only the difference of the two right ascensions matters. *)
Lemma slaS2tp_shift_invariant (ra dec raz decz delta : R) :
  slaS2tp (ra + delta) dec (raz + delta) decz = slaS2tp ra dec raz decz.
Proof.
  unfold slaS2tp.
  replace (ra + delta - (raz + delta)) with (ra - raz) by ring.
  reflexivity.
Qed.

(** Mirroring the point in the meridian of the tangent point changes the
    sign of xi and keeps eta and the status. *)
Theorem slaS2tp_mirror (h dec raz decz : R) :
  let r := slaS2tp (raz + h) dec raz decz in
  slaS2tp (raz - h) dec raz decz = (- s2tp_xi r, s2tp_eta r, s2tp_status r).
Proof.
  intros r. unfold r, s2tp_xi, s2tp_eta, s2tp_status.
  rewrite !slaS2tp_eq. cbn [fst snd].
  unfold s2tp_divisor, s2tp_denom, sin_, cos_.
  replace (raz - h - raz) with (- h) by ring.
  replace (raz + h - raz) with h by ring.
  rewrite sin_neg, cos_neg.
  set (c := s2tp_classify _).
  assert (Hne : snd c <> 0).
  { pose proof (s2tp_classify_divisor
                  (sin dec * sin decz + cos dec * cos decz * cos h)) as Hb.
    fold c in Hb. pose proof TINY_pos. intros H0.
    rewrite H0, Rabs_R0 in Hb. lra. }
  pair_ext; try reflexivity. field. exact Hne.
Qed.

(** Where the status is 0 the denominator is the reciprocal of the length
    of the vector (xi, eta, 1), as the source comment on line 47 says. *)
Theorem slaS2tp_denom_reciprocal_length (ra dec raz decz : R) :
  s2tp_denom ra dec raz decz > TINY ->
  let r := slaS2tp ra dec raz decz in
  s2tp_status r = 0%Z
  /\ s2tp_denom ra dec raz decz
     = 1 / sqrt (1 + s2tp_xi r * s2tp_xi r + s2tp_eta r * s2tp_eta r).
Proof.
  intros Hd r. pose proof TINY_pos as HT.
  pose proof (s2tp_unit_vector ra dec raz decz) as Hu. cbv zeta in Hu.
  unfold r, s2tp_status, s2tp_xi, s2tp_eta.
  rewrite slaS2tp_eq. cbn [fst snd]. unfold s2tp_divisor.
  rewrite s2tp_classify_ok by exact Hd. cbn [fst snd].
  split; [reflexivity |].
  set (d := s2tp_denom ra dec raz decz) in *.
  set (n1 := cos dec * sin (ra - raz)) in *.
  set (n2 := sin dec * cos decz - cos dec * sin decz * cos (ra - raz)) in *.
  assert (Hpos : 0 < d) by lra.
  replace (1 + n1 / d * (n1 / d) + n2 / d * (n2 / d))
    with ((n1 * n1 + n2 * n2 + d * d) / (d * d)) by (field; lra).
  rewrite Hu.
  replace (1 / (d * d)) with (/ d * / d) by (field; lra).
  rewrite sqrt_square.
  - field. lra.
  - left. apply Rinv_0_lt_compat. exact Hpos.
Qed.

End S2tpMore.

(** ** Hours, minutes, seconds *)

Section Dtf2dMore.
Import Dtf2d.




End Dtf2dMore.

(** ** Nutation series, continued *)

Lemma mul_unit_bound (t c : R) :
  -1 <= t <= 1 -> -1 <= c <= 1 -> -1 <= t * c <= 1.
Proof. intros Ht Hc. nra. Qed.

(** A count-down loop and a count-up loop over the same range agree when
    the passes commute with one another. *)
Lemma for_down_commute {A : Type} (body : nat -> A -> A) :
  (forall i j s, body i (body j s) = body j (body i s)) ->
  forall n k s, for_down n body (body k s) = body k (for_down n body s).
Proof.
  intros Hc n. induction n as [| n IH]; intros k s.
  - reflexivity.
  - cbn [for_down]. rewrite (Hc n k), IH. reflexivity.
Qed.

Lemma for_down_for_up {A : Type} (body : nat -> A -> A) :
  (forall i j s, body i (body j s) = body j (body i s)) ->
  forall n s, for_down n body s = for_up 0 n body s.
Proof.
  intros Hc n. induction n as [| n IH]; intros s.
  - reflexivity.
  - cbn [for_down]. rewrite for_down_commute by exact Hc. rewrite IH.
    unfold for_up. rewrite seq_S, fold_left_app. reflexivity.
Qed.

Section NutcMore.
Import Nutc.

Lemma nutc_term_commute (t : R) (ang : list R) (i j : nat) (acc : R * R) :
  nutc_term t ang i (nutc_term t ang j acc)
  = nutc_term t ang j (nutc_term t ang i acc).
Proof.
  destruct acc as [dp de]. unfold nutc_term. pair_ext; ring.
Qed.

(** In exact arithmetic the order of summation is immaterial: the series
    summed from the last term down to the first, as the routine does,
    equals the series summed from the first term up. *)
Theorem nutc_series_order_immaterial (t : R) (ang : list R) (acc : R * R) :
  for_down (Z.to_nat nterms) (nutc_term t ang) acc
  = for_up 0 (Z.to_nat nterms) (nutc_term t ang) acc.
Proof.
  apply for_down_for_up. intros i j s. apply nutc_term_commute.
Qed.

Lemma abs_mul_le (a c : R) : -1 <= c <= 1 -> Rabs (a * c) <= Rabs a.
Proof.
  intros Hc. rewrite Rabs_mult.
  assert (Rabs c <= 1) by (apply Rabs_le; exact Hc).
  pose proof (Rabs_pos a). nra.
Qed.

Lemma trig_term_bound (p0 p1 p2 p3 t c s : R) :
  -1 <= t <= 1 -> -1 <= c <= 1 -> -1 <= s <= 1 ->
  Rabs ((p0 + p2 * t) * c + (p1 + p3 * t) * s)
  <= Rabs p0 + Rabs p1 + Rabs p2 + Rabs p3.
Proof.
  intros Ht Hc Hs.
  pose proof (Rabs_triang ((p0 + p2 * t) * c) ((p1 + p3 * t) * s)).
  pose proof (abs_mul_le (p0 + p2 * t) c Hc).
  pose proof (abs_mul_le (p1 + p3 * t) s Hs).
  pose proof (Rabs_triang p0 (p2 * t)). pose proof (Rabs_triang p1 (p3 * t)).
  pose proof (abs_mul_le p2 t Ht). pose proof (abs_mul_le p3 t Ht).
  lra.
Qed.

Lemma series_bound_acc (tbl : list (list R)) (n : nat) (acc : R) :
  for_down n (fun j acc => acc + coef_bound tbl j) acc
  = acc + series_bound tbl n.
Proof.
  unfold series_bound. revert acc. induction n as [| n IH]; intros acc.
  - cbn [for_down]. ring.
  - cbn [for_down]. rewrite IH, (IH (0 + coef_bound tbl n)). ring.
Qed.

Lemma series_bound_S (tbl : list (list R)) (n : nat) :
  series_bound tbl (S n) = coef_bound tbl n + series_bound tbl n.
Proof.
  unfold series_bound at 1. cbn [for_down]. rewrite series_bound_acc. ring.
Qed.

(** One pass moves each accumulator by no more than the magnitudes of the
    coefficients of its row. *)
Lemma nutc_term_bound (t : R) (ang : list R) (j : nat) (dp de : R) :
  -1 <= t <= 1 ->
  Rabs (fst (nutc_term t ang j (dp, de)) - dp) <= coef_bound psi j
  /\ Rabs (snd (nutc_term t ang j (dp, de)) - de) <= coef_bound eps j.
Proof.
  intros Ht. unfold nutc_term. cbn [fst snd]. unfold coef_bound.
  set (theta := _ + _ * at1 0 ang 8).
  pose proof (COS_bound theta) as Hc. pose proof (SIN_bound theta) as Hs.
  unfold cos_, sin_.
  split.
  - replace (dp + _ - dp)
      with ((at2 0 psi j 0 + at2 0 psi j 2 * t) * cos theta
            + (at2 0 psi j 1 + at2 0 psi j 3 * t) * sin theta) by ring.
    apply trig_term_bound; assumption.
  - replace (de + _ - de)
      with ((at2 0 eps j 0 + at2 0 eps j 2 * t) * cos theta
            + (at2 0 eps j 1 + at2 0 eps j 3 * t) * sin theta) by ring.
    apply trig_term_bound; assumption.
Qed.

Lemma nutc_series_bound (t : R) (ang : list R) (n : nat) (dp de : R) :
  -1 <= t <= 1 ->
  Rabs (fst (for_down n (nutc_term t ang) (dp, de)) - dp)
  <= series_bound psi n
  /\ Rabs (snd (for_down n (nutc_term t ang) (dp, de)) - de)
     <= series_bound eps n.
Proof.
  intros Ht. revert dp de. induction n as [| n IH]; intros dp de.
  - cbn [for_down fst snd]. unfold series_bound. cbn [for_down].
    rewrite !Rminus_diag, Rabs_R0. lra.
  - cbn [for_down]. rewrite !series_bound_S.
    destruct (nutc_term_bound t ang n dp de Ht) as [Hp He].
    destruct (nutc_term t ang n (dp, de)) as [dp1 de1]. cbn [fst snd] in *.
    destruct (IH dp1 de1) as [IHp IHe].
    set (r := for_down n (nutc_term t ang) (dp1, de1)) in *.
    pose proof (Rabs_triang (fst r - dp1) (dp1 - dp)).
    pose proof (Rabs_triang (snd r - de1) (de1 - de)).
    replace (fst r - dp1 + (dp1 - dp)) with (fst r - dp) in * by ring.
    replace (snd r - de1 + (de1 - de)) with (snd r - de) in * by ring.
    lra.
Qed.

(** Replaces the magnitude of every constant by the constant or its
    opposite. *)
Ltac eval_Rabs :=
  repeat match goal with
         | |- context [Rabs ?c] =>
             first [rewrite (Rabs_right c) by lra
                   | rewrite (Rabs_left c) by lra]
         end.

(** The coefficients of the longitude series add up to less than
    19.48 arc seconds, in the microarcseconds of the table. *)
Lemma psi_series_bound : series_bound psi 194 <= 19477544.
Proof.
  cbv beta iota zeta delta [series_bound for_down coef_bound at2 nth psi].
  eval_Rabs. lra.
Qed.

(** The coefficients of the obliquity series add up to less than
    10.09 arc seconds. *)
Lemma eps_series_bound : series_bound eps 194 <= 10087482.
Proof.
  cbv beta iota zeta delta [series_bound for_down coef_bound at2 nth eps].
  eval_Rabs. lra.
Qed.

Lemma abs_le_bounds (x b : R) : Rabs x <= b -> - b <= x <= b.
Proof. intros H. unfold Rabs in H. destruct (Rcase_abs x); lra. Qed.

(** Within a Julian century of J2000 the nutation in longitude is at most
    20 arc seconds in magnitude and the nutation in obliquity at most
    10.2 arc seconds, [DAS2R] being the (positive) arc second in
    radians. *)
Theorem slaNutc_nutation_bounded (DD2R DAS2R date : R) :
  0 < DAS2R ->
  Rabs ((date - 51544.5) / 36525.0) <= 1 ->
  let dpsi := fst (fst (slaNutc DD2R DAS2R date)) in
  let deps := snd (fst (slaNutc DD2R DAS2R date)) in
  Rabs dpsi <= 20 * DAS2R /\ Rabs deps <= 10.2 * DAS2R.
Proof.
  intros HD Ht dpsi deps. unfold dpsi, deps, slaNutc, DJM0, DJC.
  set (t := (date - 51544.5) / 36525.0) in *.
  apply abs_le_bounds in Ht.
  set (ang := nutc_angles DD2R DAS2R t).
  set (elp := at1 0 ang 1).
  set (dp0 := - 153.1 * sin_ elp - 1.9 * sin_ (2.0 * elp)).
  pose proof (nutc_series_bound t ang (Z.to_nat nterms) dp0 0.0 Ht)
    as [Hp He].
  rewrite nterms_eq in Hp, He.
  change (Z.to_nat 194) with 194%nat in Hp, He.
  rewrite nterms_eq. change (Z.to_nat 194) with 194%nat.
  destruct (for_down 194 (nutc_term t ang) (dp0, 0.0)) as [dp de].
  cbn [fst snd] in *.
  pose proof psi_series_bound as Bp. pose proof eps_series_bound as Be.
  apply abs_le_bounds in Hp. apply abs_le_bounds in He.
  assert (H0 : -155 <= dp0 <= 155).
  { unfold dp0, sin_.
    pose proof (SIN_bound elp). pose proof (SIN_bound (2.0 * elp)). lra. }
  clearbody dp0.
  split; apply Rabs_le; split; nra.
Qed.

(** Within a Julian century of J2000 the mean obliquity lies between
    84334 and 84429 arc seconds (23.43 and 23.45 degrees). *)
Theorem slaNutc_mean_obliquity_bounded (DD2R DAS2R date : R) :
  0 < DAS2R ->
  Rabs ((date - 51544.5) / 36525.0) <= 1 ->
  let eps0 := snd (slaNutc DD2R DAS2R date) in
  84334 * DAS2R < eps0 < 84429 * DAS2R.
Proof.
  intros HD Ht eps0. unfold eps0, slaNutc, DJM0, DJC.
  set (t := (date - 51544.5) / 36525.0) in *.
  apply abs_le_bounds in Ht.
  destruct (for_down _ _ _) as [dp de]. cbn [snd].
  pose proof (mul_unit_bound t t Ht Ht) as H2.
  set (q5 := (- 0.000000025) * t).
  assert (B5 : -1e-7 <= q5 <= 1e-7) by (unfold q5; lra).
  set (q4 := (- 0.00000051 + q5) * t).
  assert (B4 : -1e-6 <= q4 <= 1e-6) by (unfold q4; clearbody q5; nra).
  set (q3 := (0.0019989 + q4) * t).
  assert (B3 : -0.002 <= q3 <= 0.002) by (unfold q3; clearbody q4; nra).
  set (q2 := (- 0.000152 + q3) * t).
  assert (B2 : -0.003 <= q2 <= 0.003) by (unfold q2; clearbody q3; nra).
  set (q1 := (- 46.80927 + q2) * t).
  assert (B1 : -46.82 <= q1 <= 46.82) by (unfold q1; clearbody q2; nra).
  clearbody q1. split; nra.
Qed.

End NutcMore.

(** ** Planetary ephemeris, continued *)

(** Replaces every cosine and sine of the goal by a variable between -1
    and 1, and records the same bounds for its product with [t]. *)
Ltac abstract_trig t Ht :=
  repeat match goal with
         | |- context [cos ?x] =>
             let c := fresh "c" in
             let H := fresh "Hc" in
             pose proof (COS_bound x) as H;
             set (c := cos x) in *; clearbody c;
             pose proof (mul_unit_bound t c Ht H)
         | |- context [sin ?x] =>
             let s := fresh "s" in
             let H := fresh "Hs" in
             pose proof (SIN_bound x) as H;
             set (s := sin x) in *; clearbody s;
             pose proof (mul_unit_bound t s Ht H)
         end.

(** Closes the four parts of a statement on the origin of a status once
    the status is a literal. *)
Ltac status_origin_close :=
  split;
  [first [left; reflexivity | right; left; reflexivity
         | right; right; left; reflexivity | right; right; right; reflexivity]
  | split;
    [intros Hj; first [discriminate Hj | split; [lia | assumption]]
    | split; intros Hj; first [discriminate Hj | lia]]].

Section PlanetMore.
Import Planet.

Variables DD2R DAS2R : R.
Variable slaPlanel :
  R -> Z -> R -> R -> R -> R -> R -> R -> R -> R -> list R -> list R * Z.

(** Within a millennium of J2000 the semi-major axis stays positive and
    the eccentricity stays that of an ellipse, for each of the eight
    rows of the tables. *)
Lemma planet_elements_da_de (ip : nat) (t : R) :
  (ip < 8)%nat -> -1 <= t <= 1 ->
  0 < el_da (planet_elements DAS2R ip t)
  /\ 0 < el_de (planet_elements DAS2R ip t) < 1.
Proof.
  intros Hip Ht.
  pose proof (mul_unit_bound t t Ht Ht) as Htt.
  do 8 (destruct ip as [| ip];
        [cbv beta iota zeta delta
           [planet_elements for_up seq fold_left at2 at1 nth
            a e ca sa dkp el_da el_de];
         unfold cos_, sin_; abstract_trig t Ht; repeat split; lra |]).
  lia.
Qed.

Lemma planet_elements_dm (ip : nat) (t : R) :
  el_dm (planet_elements DAS2R ip t)
  = GCON * sqrt ((1.0 + 1.0 / at1 0 amas ip)
                 / (el_da (planet_elements DAS2R ip t)
                    * el_da (planet_elements DAS2R ip t)
                    * el_da (planet_elements DAS2R ip t))).
Proof.
  unfold planet_elements. destruct (for_up 0 8 _ _) as [da dl].
  reflexivity.
Qed.

Lemma amas_pos (ip : nat) : (ip < 8)%nat -> 0 < at1 0 amas ip.
Proof.
  intros Hip.
  do 8 (destruct ip as [| ip]; [cbv [at1 nth amas]; lra |]). lia.
Qed.

(** For every body 1-8 and every epoch within a millennium of J2000 (the
    epochs of status 0), the elements handed to the elements-to-state
    routine describe an ellipse: the semi-major axis is positive, the
    eccentricity lies strictly between 0 and 1, and the daily motion is
    positive, its radicand and divisor of line 582 being positive. *)
Theorem slaPlanet_elements_elliptic (date : R) (np : Z) :
  (1 <= np <= 8)%Z ->
  let t := (date - 51544.5) / 365250.0 in
  Rabs t <= 1 ->
  let el := planet_elements DAS2R (Z.to_nat (np - 1)) t in
  0 < el_da el
  /\ 0 < el_de el < 1
  /\ 0 < el_da el * el_da el * el_da el
  /\ 0 < el_dm el.
Proof.
  intros Hnp t Ht el.
  assert (Hip : (Z.to_nat (np - 1) < 8)%nat) by lia.
  assert (Ht' : -1 <= t <= 1).
  { unfold Rabs in Ht. destruct (Rcase_abs t); lra. }
  destruct (planet_elements_da_de _ t Hip Ht') as (Hda & Hde).
  fold el in Hda, Hde.
  assert (Hda3 : 0 < el_da el * el_da el * el_da el).
  { repeat apply Rmult_lt_0_compat; exact Hda. }
  repeat split; try assumption; try apply Hde.
  unfold el. rewrite planet_elements_dm. fold el.
  pose proof (amas_pos _ Hip) as Hm.
  apply Rmult_lt_0_compat; [unfold GCON; lra |].
  apply sqrt_lt_R0. apply Rdiv_lt_0_compat; [| exact Hda3].
  assert (0 < 1.0 / at1 0 amas (Z.to_nat (np - 1)))
    by (apply Rdiv_lt_0_compat; [lra | exact Hm]).
  lra.
Qed.

(** The status of the Pluto part, case by case. *)
Lemma planet_pluto_status_cases (date : R) (pv : list R) :
  let t := (date - 51544.5) / 36525.0 in
  (-1.15 <= t <= 1.0 -> snd (planet_pluto DD2R date pv) = 0%Z)
  /\ (t < -1.15 \/ t > 1.0 -> snd (planet_pluto DD2R date pv) = (-1)%Z).
Proof.
  intros t. rewrite planet_pluto_status. cbv zeta. fold t. unfold Rgeb.
  split; intros H.
  - rewrite (proj2 (Rleb_true_iff (-1.15) t)) by lra.
    rewrite (proj2 (Rleb_true_iff t 1.0)) by lra. reflexivity.
  - destruct H as [H | H].
    + rewrite (proj2 (Rleb_false_iff (-1.15) t)) by lra. reflexivity.
    + rewrite (proj2 (Rleb_false_iff t 1.0)) by lra.
      rewrite andb_false_r. reflexivity.
Qed.

(** For body 9 the status is 0 exactly for the epochs between -1.15 and
    +1.0 Julian centuries from J2000 and -1 for every other epoch; it is
    never +1 and never -2, whatever the elements-to-state routine
    reports. *)
Theorem slaPlanet_pluto_status_by_epoch (date : R) (pv : list R) :
  let t := (date - 51544.5) / 36525.0 in
  let j := snd (slaPlanet DD2R DAS2R slaPlanel date 9 pv) in
  (j = 0%Z <-> -1.15 <= t <= 1.0)
  /\ (j = (-1)%Z <-> (t < -1.15 \/ t > 1.0))
  /\ j <> 1%Z /\ j <> (-2)%Z.
Proof.
  intros t j. unfold j. rewrite slaPlanet_pluto.
  destruct (planet_pluto_status_cases date pv) as [Hin Hout]. fold t in Hin, Hout.
  destruct (Rle_lt_dec (-1.15) t) as [H1 | H1];
    [destruct (Rle_lt_dec t 1.0) as [H2 | H2] |].
  - rewrite Hin by lra. repeat split; intros; try lra; try discriminate.
  - rewrite Hout by lra. repeat split; intros; try lra; try discriminate.
  - rewrite Hout by lra. repeat split; intros; try lra; try discriminate.
Qed.

(** For body 9 all six components of the vector are written: the result
    does not depend on what the caller's array held. *)
Theorem slaPlanet_pluto_overwrites (date : R) (pv pv' : list R) :
  length pv = 6%nat -> length pv' = 6%nat ->
  slaPlanet DD2R DAS2R slaPlanel date 9 pv
  = slaPlanet DD2R DAS2R slaPlanel date 9 pv'.
Proof.
  intros H H'. rewrite !slaPlanet_pluto. unfold planet_pluto.
  destruct (for_up 0 3 _ _) as [wlbr wlbrd].
  destruct (for_up 0 (length term) _ _) as [wlbr' wlbrd'].
  do 7 (destruct pv as [| ? pv]; try discriminate H).
  do 7 (destruct pv' as [| ? pv']; try discriminate H').
  reflexivity.
Qed.

(** Which status can come from where: -2 only for a body 1-8 whose
    elements-to-state call reported a negative status, +1 only for a body
    1-8, -1 only for body 9 or an illegal body number; and there is no
    other status. *)
Theorem slaPlanet_status_origin (date : R) (np : Z) (pv : list R) :
  let j := snd (slaPlanet DD2R DAS2R slaPlanel date np pv) in
  (j = (-2)%Z \/ j = (-1)%Z \/ j = 0%Z \/ j = 1%Z)
  /\ (j = (-2)%Z ->
      (1 <= np <= 8)%Z
      /\ (snd (planel_call slaPlanel date
                 (planet_elements DAS2R (Z.to_nat (np - 1))
                                  ((date - 51544.5) / 365250.0)) pv) < 0)%Z)
  /\ (j = 1%Z -> (1 <= np <= 8)%Z)
  /\ (j = (-1)%Z -> (np < 1 \/ np >= 9)%Z).
Proof.
  intros j. unfold j.
  destruct (Z_lt_le_dec np 1) as [Hlo | Hlo];
    [| destruct (Z_le_gt_dec np 8) as [Hhi | Hhi];
       [| destruct (Z.eq_dec np 9) as [H9 | H9]]].
  - unfold slaPlanet. rewrite np_out_of_range by lia. cbn [snd].
    status_origin_close.
  - rewrite slaPlanet_major by lia. unfold planet_mercury_to_neptune.
    destruct (planel_call _ _ _ _) as [pv' k] eqn:E. cbn [snd].
    destruct (k <? 0)%Z eqn:Ek;
      [apply Z.ltb_lt in Ek
      | apply Z.ltb_ge in Ek; destruct (Rleb (fabs_ _) 1.0)];
      status_origin_close.
  - subst np. rewrite slaPlanet_pluto.
    destruct (planet_pluto_status_cases date pv) as [Hin Hout].
    cbv zeta in Hin, Hout.
    set (t := (date - 51544.5) / 36525.0) in *.
    destruct (Rle_lt_dec (-1.15) t) as [H1 | H1];
      [destruct (Rle_lt_dec t 1.0) as [H2 | H2] |].
    + rewrite Hin by lra. status_origin_close.
    + rewrite Hout by lra. status_origin_close.
    + rewrite Hout by lra. status_origin_close.
  - unfold slaPlanet. rewrite np_out_of_range by lia. cbn [snd].
    status_origin_close.
Qed.

(** The position part of the result of the Pluto part, in terms of the
    three series. *)
Lemma planet_pluto_position (date : R) (pv : list R) :
  length pv = 6%nat ->
  let t := (date - 51544.5) / 36525.0 in
  let wlbr := fst (pluto_series DD2R t) in
  let dl := (dl0 + dld0 * t + at1 0 wlbr 0) * DD2R in
  let db := (db0 + at1 0 wlbr 1) * DD2R in
  let dr := dr0 + at1 0 wlbr 2 in
  firstn 3 (fst (planet_pluto DD2R date pv))
  = [dr * (cos dl * cos db);
     dr * (sin dl * cos db) * CE - dr * sin db * SE;
     dr * (sin dl * cos db) * SE + dr * sin db * CE].
Proof.
  intros H. unfold planet_pluto, pluto_series.
  destruct (for_up 0 3 _ _) as [w0 wd0].
  destruct (for_up 0 (length term) _ _) as [wlbr wlbrd].
  do 7 (destruct pv as [| ? pv]; try discriminate H).
  reflexivity.
Qed.

(** The radius vector of the Pluto part: the constant term 40.72 AU and
    a periodic part that the table bounds by 15.19 AU. *)
Lemma pluto_radius_bounds (t : R) :
  25.54 < dr0 + at1 0 (fst (pluto_series DD2R t)) 2 < 55.91.
Proof.
  cbv beta iota zeta delta
    [pluto_series for_up seq fold_left length term pluto_term at1 nth upd
     fst snd tm_ij tm_is tm_ip tm_dlbr ab_a ab_b dr0].
  unfold sin_, cos_.
  repeat match goal with
         | |- context [cos ?x] =>
             let c := fresh "c" in
             pose proof (COS_bound x); set (c := cos x) in *; clearbody c
         | |- context [sin ?x] =>
             let s := fresh "s" in
             pose proof (SIN_bound x); set (s := sin x) in *; clearbody s
         end.
  lra.
Qed.

(** The constants SE and CE are the sine and cosine of one angle to
    within 10^-15. *)
Lemma SE_CE_unit : 1 - 1e-15 < CE * CE + SE * SE < 1 + 1e-15.
Proof. unfold CE, SE. lra. Qed.

(** For body 9, at every epoch, in range or not, the position written to
    the vector lies between 25.5 and 56 AU from the Sun. *)
Theorem slaPlanet_pluto_distance (date : R) (pv : list R) :
  length pv = 6%nat ->
  let p := fst (slaPlanet DD2R DAS2R slaPlanel date 9 pv) in
  let x := at1 0 p 0 in
  let y := at1 0 p 1 in
  let z := at1 0 p 2 in
  25.5 * 25.5 < x * x + y * y + z * z < 56 * 56.
Proof.
  intros H p x y z.
  pose proof (planet_pluto_position date pv H) as E. cbv zeta in E.
  pose proof (pluto_radius_bounds ((date - 51544.5) / 36525.0)) as Hr.
  set (wlbr := fst (pluto_series DD2R ((date - 51544.5) / 36525.0))) in *.
  set (dr := dr0 + at1 0 wlbr 2) in *.
  set (dl := (dl0 + dld0 * ((date - 51544.5) / 36525.0) + at1 0 wlbr 0)
             * DD2R) in *.
  set (db := (db0 + at1 0 wlbr 1) * DD2R) in *.
  assert (Ex : x = dr * (cos dl * cos db)
               /\ y = dr * (sin dl * cos db) * CE - dr * sin db * SE
               /\ z = dr * (sin dl * cos db) * SE + dr * sin db * CE).
  { unfold x, y, z, p. rewrite slaPlanet_pluto.
    destruct (fst (planet_pluto DD2R date pv)) as [| p0 [| p1 [| p2 q]]];
      try discriminate E.
    cbn [firstn] in E. injection E as E0 E1 E2.
    cbn [at1 nth]. auto. }
  destruct Ex as (Hx & Hy & Hz). rewrite Hx, Hy, Hz.
  pose proof (sin2_cos2_mul dl) as Hl. pose proof (sin2_cos2_mul db) as Hb.
  pose proof SE_CE_unit as HK.
  set (cl := cos dl) in *. set (sl := sin dl) in *.
  set (cb := cos db) in *. set (sb := sin db) in *.
  set (K := CE * CE + SE * SE) in *.
  set (u := cl * cl * (cb * cb)).
  assert (Hu : 0 <= u <= 1).
  { unfold u. split; [nra |].
    assert (cl * cl <= 1) by nra. assert (cb * cb <= 1) by nra.
    assert (0 <= cl * cl) by nra. assert (0 <= cb * cb) by nra. nra. }
  replace (dr * (cl * cb) * (dr * (cl * cb))
           + (dr * (sl * cb) * CE - dr * sb * SE)
             * (dr * (sl * cb) * CE - dr * sb * SE)
           + (dr * (sl * cb) * SE + dr * sb * CE)
             * (dr * (sl * cb) * SE + dr * sb * CE))
    with (dr * dr * (u + (1 - u) * K)).
  2:{ unfold u, K.
      replace (1 - cl * cl * (cb * cb))
        with (sl * sl * (cb * cb) + sb * sb) by nra.
      ring. }
  clearbody u K dr.
  assert (Hf : 1 - 1e-15 <= u + (1 - u) * K <= 1 + 1e-15) by nra.
  assert (Hd : 25.54 * 25.54 < dr * dr < 55.91 * 55.91) by nra.
  set (f := u + (1 - u) * K) in *. clearbody f.
  set (d2 := dr * dr) in *. clearbody d2.
  split; nra.
Qed.

End PlanetMore.

(** ** Registration of the tracking module *)

(** Unfolds the transitions down to the tests on the results. *)
Ltac so_cbn :=
  cbn [fst snd TrkModule.m_spCyclicCaller TrkModule.calls
       TrkModule.caller_has_oid TrkModule.m_spRTime Z.ltb Z.compare] in *.

Ltac so_unfold :=
  unfold TrkModule.SetObjStateSO, TrkModule.SetObjStateOS,
    TrkModule.AddModuleToCaller, TrkModule.RemoveModuleFromCaller,
    TrkModule.set_caller, TrkModule.set_rtime, TrkModule.made,
    TrkModule.FAILED, TrkModule.SUCCEEDED, TrkModule.S_OK in *;
  so_cbn.

Section TrkModuleFacts.
Import TrkModule.

Variable ADS_E_INVALIDOBJID : HRESULT.
Variable query_caller : HRESULT * bool.
Variable add_module : HRESULT.
Variable query_rtime : HRESULT * bool.

Lemma FAILED_SUCCEEDED (hr : HRESULT) : FAILED hr = negb (SUCCEEDED hr).
Proof.
  unfold FAILED, SUCCEEDED.
  destruct (Z.ltb_spec hr 0), (Z.leb_spec 0 hr); try reflexivity; lia.
Qed.

Lemma RemoveModuleFromCaller_detached (m : module) :
  m_spCyclicCaller (RemoveModuleFromCaller m) = false
  /\ m_spRTime (RemoveModuleFromCaller m) = m_spRTime m.
Proof.
  unfold RemoveModuleFromCaller. destruct (m_spCyclicCaller m); split; reflexivity.
Qed.

(** A transition from SAFEOP to OP that fails, at whichever stage, leaves
    the module detached: neither the caller pointer nor the real-time
    pointer holds an interface afterwards. *)
Theorem SetObjStateSO_failure_detaches (m : module) :
  let r := SetObjStateSO ADS_E_INVALIDOBJID query_caller add_module
                         query_rtime m in
  FAILED (snd r) = true ->
  m_spCyclicCaller (fst r) = false /\ m_spRTime (fst r) = false.
Proof.
  intros r. unfold r, SetObjStateSO. cbn [FAILED S_OK Z.ltb Z.compare].
  destruct (AddModuleToCaller _ _ _ m) as [m1 hr1].
  destruct (FAILED hr1) eqn:E1.
  - rewrite E1. cbn [fst snd]. intros _.
    split; [| reflexivity]. cbn [set_rtime m_spCyclicCaller].
    apply RemoveModuleFromCaller_detached.
  - destruct (FAILED (fst query_rtime)) eqn:E2; cbn [fst snd].
    + intros _. split; [| reflexivity]. cbn [set_rtime m_spCyclicCaller].
      apply RemoveModuleFromCaller_detached.
    + intros H. rewrite E2 in H. discriminate H.
Qed.

(** The real-time query is made only once the module has been added to
    its caller: when the caller pointer carries no object id the
    transition makes no query and no [AddModule] call and returns the
    code for an invalid object id, that code being a failure. *)
Theorem SetObjStateSO_without_oid (m : module) :
  caller_has_oid m = false ->
  m_spCyclicCaller m = false ->
  FAILED ADS_E_INVALIDOBJID = true ->
  let r := SetObjStateSO ADS_E_INVALIDOBJID query_caller add_module
                         query_rtime m in
  snd r = ADS_E_INVALIDOBJID /\ calls (fst r) = calls m.
Proof.
  intros Hoid Hptr Hads r. unfold r.
  so_unfold. repeat (progress (rewrite ?Hoid, ?Hptr, ?Hads; so_cbn)).
  rewrite <- ?app_assoc. repeat split; reflexivity.
Qed.

(** When [AddModule] itself fails the transition returns its result, the
    real-time query is not made, and [RemoveModule] is not called: the
    module was never added. *)
Theorem SetObjStateSO_add_fails (m : module) :
  caller_has_oid m = true ->
  SUCCEEDED (fst query_caller) = true ->
  FAILED add_module = true ->
  let r := SetObjStateSO ADS_E_INVALIDOBJID query_caller add_module
                         query_rtime m in
  snd r = add_module
  /\ calls (fst r) = calls m ++ [QueryCaller; AddModule].
Proof.
  intros Hoid Hq Ha r. unfold r.
  so_unfold. repeat (progress (rewrite ?Hoid, ?Hq, ?Ha; so_cbn)).
  rewrite <- ?app_assoc. repeat split; reflexivity.
Qed.

(** When the module has been added to its caller and the real-time query
    then fails, the transition removes the module again before it
    returns the failure: the calls are the query of the caller,
    [AddModule], the real-time query and [RemoveModule], in this
    order. *)
Theorem SetObjStateSO_rtime_fails (m : module) :
  caller_has_oid m = true ->
  SUCCEEDED (fst query_caller) = true ->
  snd query_caller = true ->
  FAILED add_module = false ->
  FAILED (fst query_rtime) = true ->
  let r := SetObjStateSO ADS_E_INVALIDOBJID query_caller add_module
                         query_rtime m in
  snd r = fst query_rtime
  /\ calls (fst r)
     = calls m ++ [QueryCaller; AddModule; QueryRTime; RemoveModule]
  /\ m_spCyclicCaller (fst r) = false /\ m_spRTime (fst r) = false.
Proof.
  intros Hoid Hq Hp Ha Ht r. unfold r.
  so_unfold. repeat (progress (rewrite ?Hoid, ?Hq, ?Hp, ?Ha, ?Ht; so_cbn)).
  rewrite <- ?app_assoc. repeat split; reflexivity.
Qed.

(** A transition to OP that succeeds, followed by the transition back to
    SAFEOP, adds the module once and removes it once, and ends with both
    pointers NULL and the result [S_OK]. *)
Theorem SetObjStateSO_then_OS (m : module) :
  caller_has_oid m = true ->
  SUCCEEDED (fst query_caller) = true ->
  snd query_caller = true ->
  FAILED add_module = false ->
  FAILED (fst query_rtime) = false ->
  let r := SetObjStateSO ADS_E_INVALIDOBJID query_caller add_module
                         query_rtime m in
  let r' := SetObjStateOS (fst r) in
  snd r = fst query_rtime
  /\ m_spCyclicCaller (fst r) = true
  /\ snd r' = S_OK
  /\ calls (fst r')
     = calls m ++ [QueryCaller; AddModule; QueryRTime; RemoveModule]
  /\ m_spCyclicCaller (fst r') = false /\ m_spRTime (fst r') = false.
Proof.
  intros Hoid Hq Hp Ha Ht r r'. unfold r', r.
  so_unfold. repeat (progress (rewrite ?Hoid, ?Hq, ?Hp, ?Ha, ?Ht; so_cbn)).
  rewrite <- ?app_assoc. repeat split; reflexivity.
Qed.

(** The transition from OP to SAFEOP always returns [S_OK] and leaves
    both pointers NULL; it calls [RemoveModule] exactly when the caller
    pointer held an interface, so repeating it makes no further call. *)
Theorem SetObjStateOS_idempotent (m : module) :
  let r := SetObjStateOS m in
  snd r = S_OK
  /\ m_spCyclicCaller (fst r) = false /\ m_spRTime (fst r) = false
  /\ calls (fst r)
     = calls m ++ (if m_spCyclicCaller m then [RemoveModule] else [])
  /\ SetObjStateOS (fst r) = r.
Proof.
  intros r. unfold r, SetObjStateOS, RemoveModuleFromCaller.
  destruct m as [oid p q cs]. destruct p; cbn; rewrite ?app_nil_r;
    repeat split; reflexivity.
Qed.

End TrkModuleFacts.

(** ** The further properties at concrete inputs *)

Section MoreWitnesses.

Lemma arcsec_pos : 0 < PI / 648000.
Proof. pose proof PI_RGT_0. apply Rdiv_lt_0_compat; lra. Qed.

Lemma J2000_in_range (d : R) : 0 < d -> Rabs ((51544.5 - 51544.5) / d) <= 1.
Proof.
  intros Hd. replace ((51544.5 - 51544.5) / d) with 0 by (field; lra).
  rewrite Rabs_R0. lra.
Qed.

(** The tangent point of the origin of coordinates. *)
Lemma slaS2tp_denom_reciprocal_length_witness :
  S2tp.s2tp_status (S2tp.slaS2tp 0 0 0 0) = 0%Z
  /\ S2tp.s2tp_denom 0 0 0 0
     = 1 / sqrt (1 + S2tp.s2tp_xi (S2tp.slaS2tp 0 0 0 0)
                     * S2tp.s2tp_xi (S2tp.slaS2tp 0 0 0 0)
                   + S2tp.s2tp_eta (S2tp.slaS2tp 0 0 0 0)
                     * S2tp.s2tp_eta (S2tp.slaS2tp 0 0 0 0)).
Proof.
  apply (slaS2tp_denom_reciprocal_length 0 0 0 0).
  unfold S2tp.s2tp_denom, S2tp.TINY, sin_, cos_.
  rewrite Rminus_0_r, sin_0, cos_0. lra.
Defined.


(** J2000 itself. *)
Lemma slaNutc_nutation_bounded_witness :
  Rabs (fst (fst (Nutc.slaNutc (PI / 180) (PI / 648000) 51544.5)))
  <= 20 * (PI / 648000)
  /\ Rabs (snd (fst (Nutc.slaNutc (PI / 180) (PI / 648000) 51544.5)))
     <= 10.2 * (PI / 648000).
Proof.
  apply (slaNutc_nutation_bounded (PI / 180) (PI / 648000) 51544.5).
  - exact arcsec_pos.
  - apply J2000_in_range. lra.
Defined.

Lemma slaNutc_mean_obliquity_bounded_witness :
  84334 * (PI / 648000)
  < snd (Nutc.slaNutc (PI / 180) (PI / 648000) 51544.5)
  < 84429 * (PI / 648000).
Proof.
  apply (slaNutc_mean_obliquity_bounded (PI / 180) (PI / 648000) 51544.5).
  - exact arcsec_pos.
  - apply J2000_in_range. lra.
Defined.

(** The Earth-Moon barycentre at J2000. *)
Lemma slaPlanet_elements_elliptic_witness :
  0 < Planet.el_da (Planet.planet_elements (PI / 648000) (Z.to_nat (3 - 1))
                      ((51544.5 - 51544.5) / 365250.0))
  /\ 0 < Planet.el_de (Planet.planet_elements (PI / 648000)
                         (Z.to_nat (3 - 1))
                         ((51544.5 - 51544.5) / 365250.0)) < 1
  /\ 0 < Planet.el_da (Planet.planet_elements (PI / 648000)
                         (Z.to_nat (3 - 1))
                         ((51544.5 - 51544.5) / 365250.0))
         * Planet.el_da (Planet.planet_elements (PI / 648000)
                           (Z.to_nat (3 - 1))
                           ((51544.5 - 51544.5) / 365250.0))
         * Planet.el_da (Planet.planet_elements (PI / 648000)
                           (Z.to_nat (3 - 1))
                           ((51544.5 - 51544.5) / 365250.0))
  /\ 0 < Planet.el_dm (Planet.planet_elements (PI / 648000)
                         (Z.to_nat (3 - 1))
                         ((51544.5 - 51544.5) / 365250.0)).
Proof.
  apply (slaPlanet_elements_elliptic (PI / 648000) 51544.5 3).
  - lia.
  - apply J2000_in_range. lra.
Defined.

(** Pluto at J2000, into two different arrays. *)
Lemma slaPlanet_pluto_overwrites_witness :
  Planet.slaPlanet (PI / 180) (PI / 648000) Planet.planel_idle 51544.5 9
                   [0; 0; 0; 0; 0; 0]
  = Planet.slaPlanet (PI / 180) (PI / 648000) Planet.planel_idle 51544.5 9
                     [1; 2; 3; 4; 5; 6].
Proof.
  apply (slaPlanet_pluto_overwrites (PI / 180) (PI / 648000)
           Planet.planel_idle 51544.5 [0; 0; 0; 0; 0; 0] [1; 2; 3; 4; 5; 6]).
  - reflexivity.
  - reflexivity.
Defined.

Lemma slaPlanet_pluto_distance_witness :
  25.5 * 25.5
  < at1 0 (fst (Planet.slaPlanet (PI / 180) (PI / 648000)
                  Planet.planel_idle 51544.5 9 [0; 0; 0; 0; 0; 0])) 0
    * at1 0 (fst (Planet.slaPlanet (PI / 180) (PI / 648000)
                    Planet.planel_idle 51544.5 9 [0; 0; 0; 0; 0; 0])) 0
    + at1 0 (fst (Planet.slaPlanet (PI / 180) (PI / 648000)
                    Planet.planel_idle 51544.5 9 [0; 0; 0; 0; 0; 0])) 1
      * at1 0 (fst (Planet.slaPlanet (PI / 180) (PI / 648000)
                      Planet.planel_idle 51544.5 9 [0; 0; 0; 0; 0; 0])) 1
    + at1 0 (fst (Planet.slaPlanet (PI / 180) (PI / 648000)
                    Planet.planel_idle 51544.5 9 [0; 0; 0; 0; 0; 0])) 2
      * at1 0 (fst (Planet.slaPlanet (PI / 180) (PI / 648000)
                      Planet.planel_idle 51544.5 9 [0; 0; 0; 0; 0; 0])) 2
  < 56 * 56.
Proof.
  apply (slaPlanet_pluto_distance (PI / 180) (PI / 648000)
           Planet.planel_idle 51544.5 [0; 0; 0; 0; 0; 0]).
  reflexivity.
Defined.

(** A module with an object id for its caller and no interface yet. *)
Lemma SetObjStateSO_failure_detaches_witness :
  TrkModule.m_spCyclicCaller
    (fst (TrkModule.SetObjStateSO (-1)%Z (0%Z, true) 0%Z ((-1)%Z, false)
            (TrkModule.mk_module true false false []))) = false
  /\ TrkModule.m_spRTime
       (fst (TrkModule.SetObjStateSO (-1)%Z (0%Z, true) 0%Z ((-1)%Z, false)
               (TrkModule.mk_module true false false []))) = false.
Proof.
  apply (SetObjStateSO_failure_detaches (-1)%Z (0%Z, true) 0%Z ((-1)%Z, false)
           (TrkModule.mk_module true false false [])).
  reflexivity.
Defined.

Lemma SetObjStateSO_without_oid_witness :
  snd (TrkModule.SetObjStateSO (-1)%Z (0%Z, true) 0%Z (0%Z, true)
         (TrkModule.mk_module false false false [])) = (-1)%Z
  /\ TrkModule.calls
       (fst (TrkModule.SetObjStateSO (-1)%Z (0%Z, true) 0%Z (0%Z, true)
               (TrkModule.mk_module false false false []))) = [].
Proof.
  apply (SetObjStateSO_without_oid (-1)%Z (0%Z, true) 0%Z (0%Z, true)
           (TrkModule.mk_module false false false []));
    reflexivity.
Defined.

Lemma SetObjStateSO_add_fails_witness :
  snd (TrkModule.SetObjStateSO (-1)%Z (0%Z, true) (-7)%Z (0%Z, true)
         (TrkModule.mk_module true false false [])) = (-7)%Z
  /\ TrkModule.calls
       (fst (TrkModule.SetObjStateSO (-1)%Z (0%Z, true) (-7)%Z (0%Z, true)
               (TrkModule.mk_module true false false [])))
     = [] ++ [TrkModule.QueryCaller; TrkModule.AddModule].
Proof.
  apply (SetObjStateSO_add_fails (-1)%Z (0%Z, true) (-7)%Z (0%Z, true)
           (TrkModule.mk_module true false false []));
    reflexivity.
Defined.

Lemma SetObjStateSO_rtime_fails_witness :
  snd (TrkModule.SetObjStateSO (-1)%Z (0%Z, true) 0%Z ((-3)%Z, false)
         (TrkModule.mk_module true false false [])) = (-3)%Z
  /\ TrkModule.calls
       (fst (TrkModule.SetObjStateSO (-1)%Z (0%Z, true) 0%Z ((-3)%Z, false)
               (TrkModule.mk_module true false false [])))
     = [] ++ [TrkModule.QueryCaller; TrkModule.AddModule;
              TrkModule.QueryRTime; TrkModule.RemoveModule]
  /\ TrkModule.m_spCyclicCaller
       (fst (TrkModule.SetObjStateSO (-1)%Z (0%Z, true) 0%Z ((-3)%Z, false)
               (TrkModule.mk_module true false false []))) = false
  /\ TrkModule.m_spRTime
       (fst (TrkModule.SetObjStateSO (-1)%Z (0%Z, true) 0%Z ((-3)%Z, false)
               (TrkModule.mk_module true false false []))) = false.
Proof.
  apply (SetObjStateSO_rtime_fails (-1)%Z (0%Z, true) 0%Z ((-3)%Z, false)
           (TrkModule.mk_module true false false []));
    reflexivity.
Defined.

Lemma SetObjStateSO_then_OS_witness :
  TrkModule.calls
    (fst (TrkModule.SetObjStateOS
            (fst (TrkModule.SetObjStateSO (-1)%Z (0%Z, true) 0%Z (0%Z, true)
                    (TrkModule.mk_module true false false [])))))
  = [] ++ [TrkModule.QueryCaller; TrkModule.AddModule;
           TrkModule.QueryRTime; TrkModule.RemoveModule].
Proof.
  apply (SetObjStateSO_then_OS (-1)%Z (0%Z, true) 0%Z (0%Z, true)
           (TrkModule.mk_module true false false []));
    reflexivity.
Defined.

End MoreWitnesses.

(** * Properties over the floating-point values *)

Section XfloatFacts.
Import Xfloat.

Lemma FLT_MAX_big : 1e38 < FLT_MAX.
Proof. unfold FLT_MAX. lra. Qed.


Lemma xround_fin (max r : R) : Rabs r <= max -> xround max r = XFin r.
Proof.
  intros H. unfold xround. rewrite (proj2 (Rltb_false_iff _ _)) by exact H.
  reflexivity.
Qed.

Lemma xround_inf (max r : R) :
  max < Rabs r -> xround max r = XInf (Rneg r).
Proof.
  intros H. unfold xround. rewrite (proj2 (Rltb_true_iff _ _)) by exact H.
  reflexivity.
Qed.


Lemma Rneg_false (r : R) : 0 <= r -> Rneg r = false.
Proof. intros H. apply Rltb_false_iff. exact H. Qed.

Lemma Rabs_le_iff (x b : R) : Rabs x <= b <-> - b <= x <= b.
Proof.
  split; intros H.
  - unfold Rabs in H. destruct (Rcase_abs x); lra.
  - apply Rabs_le. exact H.
Qed.

End XfloatFacts.

(** ** Gnomonic projection over the floating-point values *)

Section S2tpXFacts.
Import Xfloat S2tpX.

Lemma TINY_value : 9.99999997e-7 < TINY < 1e-6.
Proof. unfold TINY. lra. Qed.

(** A finite result of magnitude at most 10^7 stays finite in [float]. *)
Lemma float_fin (r : R) : Rabs r <= 1e7 -> xround FLT_MAX r = XFin r.
Proof. intros H. apply xround_fin. pose proof FLT_MAX_big. lra. Qed.

Lemma to_float_xsin (a : xfloat) :
  to_float (xsin a) = match a with XFin r => XFin (sin r) | _ => XNaN end.
Proof.
  destruct a as [r | s |]; try reflexivity.
  cbn [xsin to_float]. apply float_fin.
  pose proof (SIN_bound r). apply Rabs_le_iff. lra.
Qed.

Lemma to_float_xcos (a : xfloat) :
  to_float (xcos a) = match a with XFin r => XFin (cos r) | _ => XNaN end.
Proof.
  destruct a as [r | s |]; try reflexivity.
  cbn [xcos to_float]. apply float_fin.
  pose proof (COS_bound r). apply Rabs_le_iff. lra.
Qed.

Lemma fmul_nan_r (a : xfloat) : fmul a XNaN = XNaN.
Proof. destruct a; reflexivity. Qed.

Lemma fadd_nan_r (a : xfloat) : fadd a XNaN = XNaN.
Proof. destruct a; reflexivity. Qed.

Lemma fdiv_nan_r (a : xfloat) : fdiv a XNaN = XNaN.
Proof. destruct a; reflexivity. Qed.

Lemma fmul_fin (x y : R) :
  -1 <= x <= 1 -> -2 <= y <= 2 -> fmul (XFin x) (XFin y) = XFin (x * y).
Proof.
  intros Hx Hy. unfold fmul, xmul. apply float_fin.
  apply Rabs_le_iff. nra.
Qed.

Lemma fadd_fin (x y : R) :
  -1 <= x <= 1 -> -1 <= y <= 1 -> fadd (XFin x) (XFin y) = XFin (x + y).
Proof.
  intros Hx Hy. unfold fadd, xadd. apply float_fin.
  apply Rabs_le_iff. lra.
Qed.

Lemma fsub_fin (x y : R) :
  -1 <= x <= 1 -> -1 <= y <= 1 -> fsub (XFin x) (XFin y) = XFin (x - y).
Proof.
  intros Hx Hy. unfold fsub, xsub, xadd, xopp.
  replace (x + - y) with (x - y) by ring. apply float_fin.
  apply Rabs_le_iff. lra.
Qed.

(** The classification of a finite denominator is that of s2tp.cpp over
    the reals, with the [float] value of [TINY]. *)
Lemma s2tpX_classify_fin (d : R) :
  exists v : R,
    snd (s2tp_classify (XFin d)) = XFin v
    /\ TINY <= Rabs v
    /\ (v = d \/ v = TINY \/ v = - TINY).
Proof.
  pose proof TINY_value as HT.
  unfold s2tp_classify, xgt, xge, xlt, xle.
  destruct (Rltb TINY d) eqn:E1.
  { apply Rltb_true_iff in E1. exists d. cbn [snd].
    split; [reflexivity |]. split; [| left; reflexivity].
    rewrite Rabs_right; lra. }
  apply Rltb_false_iff in E1.
  destruct (Rleb 0.0 d) eqn:E2.
  { exists TINY. cbn [snd]. split; [reflexivity |].
    split; [| right; left; reflexivity]. rewrite Rabs_right; lra. }
  apply Rleb_false_iff in E2.
  destruct (Rltb (- TINY) d) eqn:E3.
  { exists (- TINY). cbn [snd]. split; [reflexivity |].
    split; [| right; right; reflexivity]. rewrite Rabs_left; lra. }
  apply Rltb_false_iff in E3.
  exists d. cbn [snd]. split; [reflexivity |]. split; [| left; reflexivity].
  rewrite Rabs_left; lra.
Qed.

Lemma s2tpX_classify_nan : s2tp_classify XNaN = (3%Z, XNaN).
Proof. reflexivity. Qed.

(** The denominator is finite exactly when both declinations and the
    difference of the right ascensions are. *)
Lemma s2tpX_denom_cases (ra dec raz decz : xfloat) :
  s2tp_denom ra dec raz decz
  = match dec, decz, fsub ra raz with
    | XFin d, XFin dz, XFin h =>
        XFin (sin d * sin dz + cos d * cos dz * cos h)
    | _, _, _ => XNaN
    end.
Proof.
  unfold s2tp_denom. rewrite !to_float_xsin, !to_float_xcos.
  destruct dec as [d | s |]; [| destruct (match _ with XFin _ => _ | _ => _ end);
                                reflexivity
                              | destruct (match _ with XFin _ => _ | _ => _ end);
                                reflexivity].
  destruct decz as [dz | s |]; [| rewrite ?fmul_nan_r; reflexivity
                                | rewrite ?fmul_nan_r; reflexivity].
  destruct (fsub ra raz) as [h | s |];
    [| rewrite fmul_nan_r, fadd_nan_r; reflexivity
     | rewrite fmul_nan_r, fadd_nan_r; reflexivity].
  pose proof (SIN_bound d) as Hsd. pose proof (SIN_bound dz) as Hsz.
  pose proof (COS_bound d) as Hcd. pose proof (COS_bound dz) as Hcz.
  pose proof (COS_bound h) as Hch.
  pose proof (mul_unit_bound _ _ Hsd Hsz) as Hss.
  pose proof (mul_unit_bound _ _ Hcd Hcz) as Hcc.
  pose proof (mul_unit_bound _ _ Hcc Hch) as Hccc.
  rewrite (fmul_fin (sin d) (sin dz)) by lra.
  rewrite (fmul_fin (cos d) (cos dz)) by lra.
  rewrite (fmul_fin (cos d * cos dz) (cos h)) by lra.
  unfold fadd, xadd. apply float_fin. apply Rabs_le_iff. lra.
Qed.

(** [slaS2tp] in terms of the classification of its denominator. *)
Lemma slaS2tpX_eq (ra dec raz decz : xfloat) :
  slaS2tp ra dec raz decz
  = (fdiv (fmul (to_float (xcos dec)) (to_float (xsin (fsub ra raz))))
          (s2tp_divisor ra dec raz decz),
     fdiv (fsub (fmul (to_float (xsin dec)) (to_float (xcos decz)))
                (fmul (fmul (to_float (xcos dec)) (to_float (xsin decz)))
                      (to_float (xcos (fsub ra raz)))))
          (s2tp_divisor ra dec raz decz),
     fst (s2tp_classify (s2tp_denom ra dec raz decz))).
Proof.
  unfold slaS2tp, s2tp_divisor, s2tp_denom.
  destruct (s2tp_classify _) as [j d]. reflexivity.
Qed.

Lemma fdiv_fin (n v : R) :
  -2 <= n <= 2 -> TINY <= Rabs v ->
  exists q : R, fdiv (XFin n) (XFin v) = XFin q.
Proof.
  intros Hn Hv. pose proof TINY_value as HT.
  assert (Hv0 : v <> 0).
  { intros E. rewrite E, Rabs_R0 in Hv. lra. }
  unfold fdiv, xdiv. rewrite (proj2 (Rneqb_true_iff v 0) Hv0).
  exists (n / v). apply float_fin.
  unfold Rdiv. rewrite Rabs_mult, Rabs_inv.
  assert (Hn' : Rabs n <= 2) by (apply Rabs_le_iff; lra).
  assert (Hpos : 0 < Rabs v) by lra.
  assert (Hinv : / Rabs v <= / TINY).
  { apply Rinv_le_contravar; lra. }
  assert (Hinv0 : 0 < / Rabs v) by (apply Rinv_0_lt_compat; exact Hpos).
  assert (HTi : / TINY <= 1100000).
  { unfold TINY. lra. }
  pose proof (Rabs_pos n). nra.
Qed.

(** C10, as stated, fails.  With the two right ascensions 3e38 and -3e38
    (as [float]s) their difference overflows, the cosine of the infinity
    is not-a-number and so is the denominator; the last branch keeps it,
    and xi and eta are not-a-number, with status 3.  Besides, the value
    to which the two middle branches clamp is the [float] 1e-6f, which is
    below 1e-6. *)
Lemma slaS2tp_overflow_gives_nan :
  slaS2tp (XFin FLT_3E38) (XFin 1)
          (XFin (- FLT_3E38)) (XFin 0.5)
  = (XNaN, XNaN, 3%Z)
  /\ s2tp_divisor (XFin FLT_3E38) (XFin 1)
       (XFin (- FLT_3E38)) (XFin 0.5)
     = XNaN
  /\ s2tp_classify (XFin 0) = (1%Z, XFin TINY)
  /\ TINY < 1e-6.
Proof.
  assert (Hsub : fsub (XFin FLT_3E38) (XFin (- FLT_3E38)) = XInf false).
  { unfold fsub, xsub, xadd, xopp.
    rewrite xround_inf.
    - rewrite Rneg_false by (unfold FLT_3E38; lra). reflexivity.
    - unfold FLT_MAX, FLT_3E38. rewrite Rabs_right; lra. }
  assert (Hd : s2tp_denom (XFin FLT_3E38) (XFin 1) (XFin (- FLT_3E38))
                          (XFin 0.5) = XNaN).
  { rewrite s2tpX_denom_cases, Hsub. reflexivity. }
  split; [| split; [| split]].
  - rewrite slaS2tpX_eq. unfold s2tp_divisor. rewrite Hd.
    cbn [s2tp_classify xgt xge xlt xle fst snd].
    rewrite !fdiv_nan_r. reflexivity.
  - unfold s2tp_divisor. rewrite Hd. reflexivity.
  - pose proof TINY_value as HT.
    unfold s2tp_classify, xgt, xge, xlt, xle.
    rewrite (proj2 (Rltb_false_iff TINY 0)) by lra.
    rewrite (proj2 (Rleb_true_iff 0.0 0)) by lra. reflexivity.
  - apply TINY_value.
Qed.

(** C10, amended.  With TINY the [float] 1e-6f, a little below 1e-6: for
    every input whose computed denominator is not not-a-number, the
    denominator by which [slaS2tp] divides is finite with absolute value
    at least TINY (the two middle branches clamp it to +TINY and -TINY,
    the other two keep a denominator beyond them, and this holds of the
    [if] chain on any finite value whatever), so it is not zero and xi
    and eta are finite.  When the computed denominator is
    not-a-number, the last branch keeps it: the status is 3 and xi and
    eta are not-a-number. *)
Theorem slaS2tpX_divisor_bounded (ra dec raz decz : xfloat) :
  let d := s2tp_denom ra dec raz decz in
  let d' := s2tp_divisor ra dec raz decz in
  let r := slaS2tp ra dec raz decz in
  9.99999997e-7 < TINY < 1e-6
  /\ (forall d0 : R,
        exists v : R,
          snd (s2tp_classify (XFin d0)) = XFin v /\ TINY <= Rabs v)
  /\ (d <> XNaN ->
      exists v xi eta : R,
        d' = XFin v /\ TINY <= Rabs v /\ v <> 0
        /\ r = (XFin xi, XFin eta, fst (s2tp_classify d)))
  /\ (d = XNaN -> d' = XNaN /\ r = (XNaN, XNaN, 3%Z)).
Proof.
  intros d d' r. split; [exact TINY_value |].
  split.
  { intros d0. destruct (s2tpX_classify_fin d0) as (v & Hv & Hb & _).
    exists v. split; assumption. }
  pose proof TINY_value as HT.
  unfold r, d'. rewrite slaS2tpX_eq. unfold s2tp_divisor. fold d.
  pose proof (s2tpX_denom_cases ra dec raz decz) as Hd. fold d in Hd.
  split.
  - intros Hnan.
    destruct dec as [dd | s |]; [| congruence | congruence].
    destruct decz as [dz | s |]; [| congruence | congruence].
    destruct (fsub ra raz) as [h | s |] eqn:Eh; [| congruence | congruence].
    rewrite Hd.
    destruct (s2tpX_classify_fin
                (sin dd * sin dz + cos dd * cos dz * cos h))
      as (v & Hv & Hb & _).
    rewrite Hv. rewrite !to_float_xsin, !to_float_xcos.
    pose proof (SIN_bound dd) as Hsd. pose proof (SIN_bound dz) as Hsz.
    pose proof (COS_bound dd) as Hcd. pose proof (COS_bound dz) as Hcz.
    pose proof (COS_bound h) as Hch. pose proof (SIN_bound h) as Hsh.
    pose proof (mul_unit_bound _ _ Hcd Hsh) as H1.
    pose proof (mul_unit_bound _ _ Hsd Hcz) as H2.
    pose proof (mul_unit_bound _ _ Hcd Hsz) as H3.
    pose proof (mul_unit_bound _ _ H3 Hch) as H4.
    rewrite (fmul_fin (cos dd) (sin h)) by lra.
    rewrite (fmul_fin (sin dd) (cos dz)) by lra.
    rewrite (fmul_fin (cos dd) (sin dz)) by lra.
    rewrite (fmul_fin (cos dd * sin dz) (cos h)) by lra.
    rewrite fsub_fin by lra.
    destruct (fdiv_fin (cos dd * sin h) v) as [xi Hxi]; [lra | exact Hb |].
    destruct (fdiv_fin (sin dd * cos dz - cos dd * sin dz * cos h) v)
      as [eta Heta]; [lra | exact Hb |].
    exists v, xi, eta. rewrite Hxi, Heta.
    repeat split; try reflexivity; try exact Hb.
    intros E. rewrite E, Rabs_R0 in Hb. lra.
  - intros Hnan. rewrite Hnan.
    cbn [s2tp_classify xgt xge xlt xle fst snd].
    rewrite !fdiv_nan_r. split; reflexivity.
Qed.

End S2tpXFacts.

(** ** The reduced longitudes over the floating-point values *)

Section PlanetXFacts.
Import Xfloat PlanetX.









End PlanetXFacts.
